(** * Analytics engine of the daily mental-health tracker

    A shallow embedding of the analytics code of the server routes (the
    handlers of GET /api/analytics/overview, /api/analytics/trends,
    /api/journal/stats and /api/mood/stats) and of the [moodScore] virtual
    of the mood-entry model, followed by the properties proved about it.

    Conventions of the embedding.
    - A JavaScript number is an exact rational ([Q]) or one of the three
      special values [Infinity], [-Infinity], [NaN], and the arithmetic is
      exact.  The only zero is [+0]: every sum of the code starts from the
      literal [0], and such a sum is never [-0].  The trend direction
      compares a quotient with the thresholds 5 and -5, and there the
      rounding of the handler can decide: that block is embedded a second
      time on binary64 numbers ([trend_direction_binary64], with the
      primitive floating-point numbers of the library), and the two
      embeddings are compared in Part IV.
    - A [Date] is its time value, an integer number of milliseconds.  The
      writing streak is embedded twice: with the server in UTC, where
      [setHours(0,0,0,0)] rounds down to a multiple of one day
      ([setHours0], [writingStreak]), and in any time zone, given by its
      offsets ([setHours0_in], [writingStreak_in]).  The window of today
      of the mood routes is embedded in any time zone.
    - [Array.prototype.sort] is a stable sort. *)

From Stdlib Require Import Floats.
From Stdlib Require Import String Ascii DecimalString.
From Stdlib Require Import ZArith QArith Qminmax Qreals Reals Psatz Lia.
From Stdlib Require Import List Bool Permutation Sorted OrderedTypeEx.
Import ListNotations.

Local Open Scope Z_scope.

(* ================================================================== *)
(** * Part I: the embedding                                            *)
(* ================================================================== *)

(** ** JavaScript numbers *)

Inductive ext (A : Type) : Type :=
| Fin (a : A)
| PInf
| NInf
| NaN.

Arguments Fin {A} a.
Arguments PInf {A}.
Arguments NInf {A}.
Arguments NaN {A}.

Definition jsnum : Type := ext Q.

Definition Qlt_bool (a b : Q) : bool := negb (Qle_bool b a).

Definition inf_of_sign (positive : bool) : jsnum :=
  if positive then PInf else NInf.

Definition jsneg (x : jsnum) : jsnum :=
  match x with
  | Fin a => Fin (- a)%Q
  | PInf => NInf
  | NInf => PInf
  | NaN => NaN
  end.

(** [x + y] *)
Definition jsadd (x y : jsnum) : jsnum :=
  match x, y with
  | NaN, _ | _, NaN => NaN
  | Fin a, Fin b => Fin (a + b)%Q
  | PInf, NInf | NInf, PInf => NaN
  | PInf, _ | _, PInf => PInf
  | NInf, _ | _, NInf => NInf
  end.

(** [x - y] *)
Definition jssub (x y : jsnum) : jsnum := jsadd x (jsneg y).

(** [x * y] *)
Definition jsmul (x y : jsnum) : jsnum :=
  match x, y with
  | NaN, _ | _, NaN => NaN
  | Fin a, Fin b => Fin (a * b)%Q
  | Fin a, PInf | PInf, Fin a =>
      if Qeq_bool a 0 then NaN else inf_of_sign (Qlt_bool 0 a)
  | Fin a, NInf | NInf, Fin a =>
      if Qeq_bool a 0 then NaN else inf_of_sign (Qlt_bool a 0)
  | PInf, PInf | NInf, NInf => PInf
  | PInf, NInf | NInf, PInf => NInf
  end.

(** [x / y]; a zero divisor is [+0]. *)
Definition jsdiv (x y : jsnum) : jsnum :=
  match x, y with
  | NaN, _ | _, NaN => NaN
  | Fin a, Fin b =>
      if Qeq_bool b 0
      then (if Qeq_bool a 0 then NaN else inf_of_sign (Qlt_bool 0 a))
      else Fin (a / b)%Q
  | Fin _, PInf | Fin _, NInf => Fin 0%Q
  | PInf, Fin b => inf_of_sign (Qle_bool 0 b)
  | NInf, Fin b => inf_of_sign (Qlt_bool b 0)
  | PInf, PInf | PInf, NInf | NInf, PInf | NInf, NInf => NaN
  end.

(** [x < y] *)
Definition jslt (x y : jsnum) : bool :=
  match x, y with
  | NaN, _ | _, NaN => false
  | Fin a, Fin b => Qlt_bool a b
  | _, NInf => false
  | NInf, _ => true
  | PInf, _ => false
  | _, PInf => true
  end.

(** [x > y] *)
Definition jsgt (x y : jsnum) : bool := jslt y x.

(** [Math.pow(x, 2)] *)
Definition Math_pow2 (x : jsnum) : jsnum :=
  match x with
  | Fin a => Fin (a * a)%Q
  | PInf | NInf => PInf
  | NaN => NaN
  end.

(** [Math.sqrt(x)]; the root of a rational is a real number. *)
Definition Math_sqrt (x : jsnum) : ext R :=
  match x with
  | Fin a => if Qlt_bool a 0 then NaN else Fin (sqrt (Q2R a))
  | PInf => PInf
  | NInf => NaN
  | NaN => NaN
  end.

Definition jsmin2 (x y : jsnum) : jsnum :=
  match x, y with
  | NaN, _ | _, NaN => NaN
  | _, _ => if jslt y x then y else x
  end.

Definition jsmax2 (x y : jsnum) : jsnum :=
  match x, y with
  | NaN, _ | _, NaN => NaN
  | _, _ => if jslt x y then y else x
  end.

(** [Math.min(...values)] and [Math.max(...values)]: [Infinity] and
    [-Infinity] on no argument. *)
Definition Math_min (values : list Q) : jsnum :=
  fold_left (fun acc v => jsmin2 acc (Fin v)) values PInf.

Definition Math_max (values : list Q) : jsnum :=
  fold_left (fun acc v => jsmax2 acc (Fin v)) values NInf.

(** [values.reduce((a, b) => a + b, 0)] on finite numbers. *)
Definition reduce_sum (values : list Q) : Q :=
  fold_left Qplus values 0%Q.

(** [values.length] as a number. *)
Definition len_num {A : Type} (l : list A) : jsnum :=
  Fin (inject_Z (Z.of_nat (length l))).

(** The same number up to the representation of the rational. *)
Definition same_num (x y : jsnum) : Prop :=
  match x, y with
  | Fin a, Fin b => (a == b)%Q
  | PInf, PInf | NInf, NInf | NaN, NaN => True
  | _, _ => False
  end.

(** ** Arrays *)

Section ArraySort.
Context {A : Type}.
(** The comparator: negative when its first argument goes first. *)
Variable cmp : A -> A -> Z.

(** [x] stood before every element of [l]; it stays before the first
    element it does not have to follow. *)
Fixpoint sort_insert (x : A) (l : list A) : list A :=
  match l with
  | [] => [x]
  | y :: l' => if cmp x y <=? 0 then x :: l else y :: sort_insert x l'
  end.

(** [array.sort(cmp)] *)
Definition js_sort (l : list A) : list A := fold_right sort_insert [] l.
End ArraySort.

(** [array.slice(0, n)] and [array.slice(n)] are [firstn n] and [skipn n]. *)

(** ** Mood entries (models/MoodEntry) *)

Inductive Mood : Type := very_sad | sad | neutral | happy | very_happy.

(** The [moodScore] virtual: [moodMap[this.mood]]. *)
Definition moodScore (mood : Mood) : Z :=
  match mood with
  | very_sad => 1
  | sad => 2
  | neutral => 3
  | happy => 4
  | very_happy => 5
  end.

(** The fields of a mood entry the analytics read.  [date] is the entry's
    day as [entry.date.toISOString().split('T')[0]] renders it. *)
Record MoodEntry : Type := {
  date : string;
  mood : Mood;
  energy : Q;
  stress : Q;
  anxiety : Q;
  sleep_hours : Q
}.

Definition entry_moodScore (entry : MoodEntry) : Q :=
  inject_Z (moodScore (mood entry)).

(** The metric fields of a mood entry; also the fields of the per-day
    record of arrays of the daily trends. *)
Inductive Metric : Type := m_mood | m_energy | m_stress | m_anxiety | m_sleep.

Definition metric_value (m : Metric) (entry : MoodEntry) : Q :=
  match m with
  | m_mood => entry_moodScore entry
  | m_energy => energy entry
  | m_stress => stress entry
  | m_anxiety => anxiety entry
  | m_sleep => sleep_hours entry
  end.

(** [array.length > 0] *)
Definition nonempty {A : Type} (l : list A) : bool :=
  match l with [] => false | _ :: _ => true end.

(** ** Averages and mood distribution
    (GET /api/mood/stats, GET /api/analytics/overview) *)

Definition totalEntries {A : Type} (entries : list A) : Z :=
  Z.of_nat (length entries).

(** [averageMood], [averageEnergy], ...: initialised to [0], and
    [xs.reduce((a, b) => a + b, 0) / xs.length] when there are entries. *)
Definition average_of (m : Metric) (moodEntries : list MoodEntry) : jsnum :=
  if nonempty moodEntries then
    let xs := map (metric_value m) moodEntries in
    jsdiv (Fin (reduce_sum xs)) (len_num xs)
  else Fin 0%Q.

Definition averageMood := average_of m_mood.
Definition averageEnergy := average_of m_energy.
Definition averageStress := average_of m_stress.
Definition averageAnxiety := average_of m_anxiety.
Definition averageSleep := average_of m_sleep.

(** The object literal with the five mood keys. *)
Record MoodDistribution : Type := {
  d_very_sad : Z;
  d_sad : Z;
  d_neutral : Z;
  d_happy : Z;
  d_very_happy : Z
}.

Definition empty_distribution : MoodDistribution :=
  {| d_very_sad := 0; d_sad := 0; d_neutral := 0; d_happy := 0;
     d_very_happy := 0 |}.

(** [distribution[key]] *)
Definition bucket (key : Mood) (d : MoodDistribution) : Z :=
  match key with
  | very_sad => d_very_sad d
  | sad => d_sad d
  | neutral => d_neutral d
  | happy => d_happy d
  | very_happy => d_very_happy d
  end.

(** [distribution[key]++] *)
Definition bucket_incr (d : MoodDistribution) (key : Mood) : MoodDistribution :=
  match key with
  | very_sad =>
      {| d_very_sad := d_very_sad d + 1; d_sad := d_sad d;
         d_neutral := d_neutral d; d_happy := d_happy d;
         d_very_happy := d_very_happy d |}
  | sad =>
      {| d_very_sad := d_very_sad d; d_sad := d_sad d + 1;
         d_neutral := d_neutral d; d_happy := d_happy d;
         d_very_happy := d_very_happy d |}
  | neutral =>
      {| d_very_sad := d_very_sad d; d_sad := d_sad d;
         d_neutral := d_neutral d + 1; d_happy := d_happy d;
         d_very_happy := d_very_happy d |}
  | happy =>
      {| d_very_sad := d_very_sad d; d_sad := d_sad d;
         d_neutral := d_neutral d; d_happy := d_happy d + 1;
         d_very_happy := d_very_happy d |}
  | very_happy =>
      {| d_very_sad := d_very_sad d; d_sad := d_sad d;
         d_neutral := d_neutral d; d_happy := d_happy d;
         d_very_happy := d_very_happy d + 1 |}
  end.

(** [moodEntries.forEach(entry => { moodDistribution[entry.mood]++; })],
    run when there are entries. *)
Definition moodDistribution (moodEntries : list MoodEntry) : MoodDistribution :=
  if nonempty moodEntries then
    fold_left (fun d entry => bucket_incr d (mood entry)) moodEntries
      empty_distribution
  else empty_distribution.

(** ** Objects used as maps *)

(** The own properties of an object created by [{}], in creation order. *)
Definition object (V : Type) : Type := list (string * V).

Fixpoint obj_get {V : Type} (key : string) (o : object V) : option V :=
  match o with
  | [] => None
  | (k, v) :: o' => if (k =? key)%string then Some v else obj_get key o'
  end.

(** [o[key] = v]: an existing property keeps its place, a new one is
    created last. *)
Fixpoint obj_set {V : Type} (key : string) (v : V) (o : object V) : object V :=
  match o with
  | [] => [(key, v)]
  | (k, w) :: o' =>
      if (k =? key)%string then (k, v) :: o' else (k, w) :: obj_set key v o'
  end.

Definition digit_of (c : ascii) : option N :=
  let n := N_of_ascii c in
  if ((48 <=? n) && (n <=? 57))%N then Some (n - 48)%N else None.

Fixpoint digits_value (s : string) (acc : N) : option N :=
  match s with
  | EmptyString => Some acc
  | String c s' =>
      match digit_of c with
      | Some d => digits_value s' (10 * acc + d)%N
      | None => None
      end
  end.

(** A key is an array index when it is the canonical decimal form of an
    integer between 0 and 2^32 - 2. *)
Definition array_index (key : string) : option N :=
  match key with
  | EmptyString => None
  | String c rest =>
      if (c =? "0")%char && negb (rest =? "")%string then None
      else
        match digits_value key 0 with
        | Some n => if (n <=? 4294967294)%N then Some n else None
        | None => None
        end
  end.

Definition is_index (key : string) : bool :=
  match array_index key with Some _ => true | None => false end.

Definition index_of (key : string) : Z :=
  match array_index key with Some n => Z.of_N n | None => 0 end.

(** The order of [Object.keys] and [Object.entries]: array indices in
    ascending numeric order, then the other keys in creation order. *)
Definition own_entries {V : Type} (o : object V) : list (string * V) :=
  js_sort (fun a b => index_of (fst a) - index_of (fst b))
          (filter (fun kv => is_index (fst kv)) o)
  ++ filter (fun kv => negb (is_index (fst kv))) o.

Definition own_keys {V : Type} (o : object V) : list string :=
  map fst (own_entries o).

(** The property names every object inherits from [Object.prototype]. *)
Definition Object_prototype_names : list string :=
  [ "constructor"; "__defineGetter__"; "__defineSetter__"; "hasOwnProperty";
    "__lookupGetter__"; "__lookupSetter__"; "isPrototypeOf";
    "propertyIsEnumerable"; "toString"; "valueOf"; "__proto__";
    "toLocaleString" ]%string.

Definition inherited (key : string) : bool :=
  existsb (String.eqb key) Object_prototype_names.

(** The default comparator of [array.sort()] on strings. *)
Definition string_cmp (a b : string) : Z :=
  match String.compare a b with
  | Lt => -1
  | Eq => 0
  | Gt => 1
  end.

(** ** Daily trends
    (GET /api/analytics/overview; GET /api/mood/stats without sleep) *)

(** The per-day record of arrays [{ mood: [], energy: [], ... }]; the
    mood statistics keep the first four arrays only. *)
Record DayStats : Type := {
  ds_mood : list Q;
  ds_energy : list Q;
  ds_stress : list Q;
  ds_anxiety : list Q;
  ds_sleep : list Q
}.

Definition new_day : DayStats :=
  {| ds_mood := []; ds_energy := []; ds_stress := []; ds_anxiety := [];
     ds_sleep := [] |}.

(** [dayStats.mood], [dayStats.energy], ... *)
Definition day_field (m : Metric) (dayStats : DayStats) : list Q :=
  match m with
  | m_mood => ds_mood dayStats
  | m_energy => ds_energy dayStats
  | m_stress => ds_stress dayStats
  | m_anxiety => ds_anxiety dayStats
  | m_sleep => ds_sleep dayStats
  end.

(** [dayStats.mood.push(entry.moodScore); dayStats.energy.push(...); ...] *)
Definition day_push (entry : MoodEntry) (dayStats : DayStats) : DayStats :=
  {| ds_mood := ds_mood dayStats ++ [entry_moodScore entry];
     ds_energy := ds_energy dayStats ++ [energy entry];
     ds_stress := ds_stress dayStats ++ [stress entry];
     ds_anxiety := ds_anxiety dayStats ++ [anxiety entry];
     ds_sleep := ds_sleep dayStats ++ [sleep_hours entry] |}.

(** One turn of the grouping loop.  A day key is a date written by
    [toISOString], never the name of a member of [Object.prototype], so
    [dailyStats[dateKey]] is an own property or [undefined].  [None] is the
    [TypeError] of reading a field of [undefined]. *)
Definition daily_step (dailyStats : object DayStats) (entry : MoodEntry)
  : option (object DayStats) :=
  let dateKey := date entry in
  let dailyStats1 :=
    match obj_get dateKey dailyStats with
    | None => obj_set dateKey new_day dailyStats
    | Some _ => dailyStats
    end in
  match obj_get dateKey dailyStats1 with
  | Some dayStats => Some (obj_set dateKey (day_push entry dayStats) dailyStats1)
  | None => None
  end.

Definition group_by_day (moodEntries : list MoodEntry)
  : option (object DayStats) :=
  fold_left
    (fun acc entry =>
       match acc with
       | Some dailyStats => daily_step dailyStats entry
       | None => None
       end)
    moodEntries (Some []).

(** [Object.keys(dailyStats).sort()] *)
Definition sorted_days (dailyStats : object DayStats) : list string :=
  js_sort string_cmp (own_keys dailyStats).

(** [{ date, value: arr.reduce((a, b) => a + b, 0) / arr.length }] *)
Definition day_point (m : Metric) (day : string * DayStats) : string * jsnum :=
  (fst day,
   jsdiv (Fin (reduce_sum (day_field m (snd day))))
         (len_num (day_field m (snd day)))).

(** The [forEach] over the sorted days reads [dailyStats[date]] first. *)
Fixpoint read_days (dailyStats : object DayStats) (dates : list string)
  : option (list (string * DayStats)) :=
  match dates with
  | [] => Some []
  | d :: dates' =>
      match obj_get d dailyStats, read_days dailyStats dates' with
      | Some dayStats, Some rest => Some ((d, dayStats) :: rest)
      | _, _ => None
      end
  end.

(** The daily series of one metric; [None] when the code throws. *)
Definition daily_series (m : Metric) (moodEntries : list MoodEntry)
  : option (list (string * jsnum)) :=
  if nonempty moodEntries then
    match group_by_day moodEntries with
    | Some dailyStats =>
        match read_days dailyStats (sorted_days dailyStats) with
        | Some days => Some (map (day_point m) days)
        | None => None
        end
    | None => None
    end
  else Some [].

(** [moodAnalytics.trends] of the overview. *)
Record OverviewTrends : Type := {
  ot_mood : list (string * jsnum);
  ot_energy : list (string * jsnum);
  ot_stress : list (string * jsnum);
  ot_anxiety : list (string * jsnum);
  ot_sleep : list (string * jsnum)
}.

Definition overview_trends (moodEntries : list MoodEntry)
  : option OverviewTrends :=
  match daily_series m_mood moodEntries, daily_series m_energy moodEntries,
        daily_series m_stress moodEntries, daily_series m_anxiety moodEntries,
        daily_series m_sleep moodEntries with
  | Some a, Some b, Some c, Some d, Some e =>
      Some {| ot_mood := a; ot_energy := b; ot_stress := c; ot_anxiety := d;
              ot_sleep := e |}
  | _, _, _, _, _ => None
  end.

(** [stats.trends] of the mood statistics: the same loop on four fields. *)
Record StatsTrends : Type := {
  st_mood : list (string * jsnum);
  st_energy : list (string * jsnum);
  st_stress : list (string * jsnum);
  st_anxiety : list (string * jsnum)
}.

Definition stats_trends (moodEntries : list MoodEntry) : option StatsTrends :=
  match daily_series m_mood moodEntries, daily_series m_energy moodEntries,
        daily_series m_stress moodEntries, daily_series m_anxiety moodEntries
  with
  | Some a, Some b, Some c, Some d =>
      Some {| st_mood := a; st_energy := b; st_stress := c; st_anxiety := d |}
  | _, _, _, _ => None
  end.

(** ** Trend statistics (GET /api/analytics/trends) *)

Inductive Trend : Type := increasing | decreasing | stable.

Record Statistics : Type := {
  stat_min : jsnum;
  stat_max : jsnum;
  average : jsnum;
  trend : Trend;
  volatility : ext R
}.

Record Trends : Type := {
  data : list (string * option Q);
  statistics : Statistics
}.

(** The [switch (metric)]: the query string is not checked against the
    validator's result, so any other string leaves [values] empty. *)
Definition parse_metric (metric : string) : option Metric :=
  if (metric =? "mood")%string then Some m_mood
  else if (metric =? "energy")%string then Some m_energy
  else if (metric =? "stress")%string then Some m_stress
  else if (metric =? "anxiety")%string then Some m_anxiety
  else if (metric =? "sleep")%string then Some m_sleep
  else None.

Definition metric_values (metric : string) (moodEntries : list MoodEntry)
  : list Q :=
  match parse_metric metric with
  | Some m => map (metric_value m) moodEntries
  | None => []
  end.

(** The body of [if (values.length >= 2)], in exact arithmetic. *)
Definition trend_direction (values : list Q) : Trend :=
  let firstHalf := firstn (length values / 2) values in
  let secondHalf := skipn (length values / 2) values in
  let firstAvg := jsdiv (Fin (reduce_sum firstHalf)) (len_num firstHalf) in
  let secondAvg := jsdiv (Fin (reduce_sum secondHalf)) (len_num secondHalf) in
  let change := jsmul (jsdiv (jssub secondAvg firstAvg) firstAvg) (Fin 100%Q) in
  if jsgt change (Fin 5%Q) then increasing
  else if jslt change (Fin (-5)%Q) then decreasing
  else stable.

(** [values.reduce((acc, val) =>
      acc + Math.pow(val - average, 2), 0) / values.length] *)
Definition variance_of (values : list Q) (avg : jsnum) : jsnum :=
  jsdiv
    (fold_left (fun acc val => jsadd acc (Math_pow2 (jssub (Fin val) avg)))
               values (Fin 0%Q))
    (len_num values).

(** The statistics computed from [values] inside
    [if (moodEntries.length > 0)]. *)
Definition statistics_of (values : list Q) : Statistics :=
  let avg := jsdiv (Fin (reduce_sum values)) (len_num values) in
  {| stat_min := Math_min values;
     stat_max := Math_max values;
     average := avg;
     trend := if (2 <=? length values)%nat then trend_direction values
              else stable;
     volatility := Math_sqrt (variance_of values avg) |}.

Definition initial_statistics : Statistics :=
  {| stat_min := Fin 0%Q; stat_max := Fin 0%Q; average := Fin 0%Q;
     trend := stable; volatility := Fin 0%R |}.

(** [moodEntries.map((entry, index) => ({ date, value: values[index] }))] *)
Definition data_points (moodEntries : list MoodEntry) (values : list Q)
  : list (string * option Q) :=
  map (fun ie => (date (snd ie), nth_error values (fst ie)))
      (combine (seq 0 (length moodEntries)) moodEntries).

Definition trends (metric : string) (moodEntries : list MoodEntry) : Trends :=
  if nonempty moodEntries then
    let values := metric_values metric moodEntries in
    {| data := data_points moodEntries values;
       statistics := statistics_of values |}
  else {| data := []; statistics := initial_statistics |}.

(** ** Trend direction on binary64 numbers
    (GET /api/analytics/trends) *)

(** The number an integer is, for integers below 2^53 in absolute value. *)
Definition binary64_of_Z (z : Z) : float :=
  if z <? 0 then (- of_uint63 (Uint63.of_Z (- z)))%float
  else of_uint63 (Uint63.of_Z z).

(** The number nearest to a rational whose numerator and denominator are
    below 2^53: the correctly rounded quotient of the two. *)
Definition binary64_of_Q (q : Q) : float :=
  (binary64_of_Z (Qnum q) / binary64_of_Z (Zpos (Qden q)))%float.

(** [array.length] as a number. *)
Definition length_binary64 {A : Type} (l : list A) : float :=
  binary64_of_Z (Z.of_nat (length l)).

(** [values.reduce((a, b) => a + b, 0)], every addition rounded. *)
Definition reduce_sum_binary64 (values : list float) : float :=
  fold_left PrimFloat.add values 0%float.

(** The body of [if (values.length >= 2)], every operation rounded to the
    nearest binary64 number. *)
Definition trend_direction_binary64 (values : list float) : Trend :=
  let firstHalf := firstn (length values / 2) values in
  let secondHalf := skipn (length values / 2) values in
  let firstAvg :=
    (reduce_sum_binary64 firstHalf / length_binary64 firstHalf)%float in
  let secondAvg :=
    (reduce_sum_binary64 secondHalf / length_binary64 secondHalf)%float in
  let change := ((secondAvg - firstAvg) / firstAvg * 100)%float in
  if (5 <? change)%float then increasing
  else if (change <? -5)%float then decreasing
  else stable.

(** [trends.statistics.trend] on the numbers [values]: initialised to
    ['stable'], and set when there are at least two values. *)
Definition trend_binary64 (values : list float) : Trend :=
  if (2 <=? length values)%nat then trend_direction_binary64 values
  else stable.

(** ** Journal entries (models/JournalEntry) *)

Definition msPerDay : Z := 1000 * 60 * 60 * 24.

(** The fields of a journal entry the analytics read; [jdate] is the time
    value of [entry.date]. *)
Record JournalEntry : Type := {
  jdate : Z;
  jmood : Mood;
  tags : list string
}.

(** ** Most used tags
    (GET /api/journal/stats, GET /api/analytics/overview) *)

(** [tagCounts[tag] = (tagCounts[tag] || 0) + 1].  A tag that names a
    member of [Object.prototype] and is not yet an own property reads that
    member.  For [__proto__] the member is the prototype object, the sum is
    a string, and the accessor of [__proto__] ignores the assignment of a
    string: the object is left as it was and the pass goes on.  For every
    other inherited name the count becomes a string; the later numeric sort
    is then left to the implementation, and the model stops with [None]. *)
Definition count_tag (tagCounts : object Z) (tag : string)
  : option (object Z) :=
  match obj_get tag tagCounts with
  | Some n => Some (obj_set tag ((if n =? 0 then 0 else n) + 1) tagCounts)
  | None =>
      if inherited tag then
        if (tag =? "__proto__")%string then Some tagCounts else None
      else Some (obj_set tag (0 + 1) tagCounts)
  end.

Definition count_entry_tags (acc : option (object Z)) (entry : JournalEntry)
  : option (object Z) :=
  fold_left
    (fun acc' tag =>
       match acc' with
       | Some tagCounts => count_tag tagCounts tag
       | None => None
       end)
    (tags entry) acc.

Definition count_tags (journalEntries : list JournalEntry)
  : option (object Z) :=
  fold_left count_entry_tags journalEntries (Some []).

(** [Object.entries(tagCounts).sort(([,a], [,b]) => b - a).slice(0, 10)] *)
Definition rank_tags (tagCounts : object Z) : list (string * Z) :=
  firstn 10 (js_sort (fun a b => snd b - snd a) (own_entries tagCounts)).

Definition mostUsedTags (journalEntries : list JournalEntry)
  : option (list (string * Z)) :=
  if nonempty journalEntries then
    match count_tags journalEntries with
    | Some tagCounts => Some (rank_tags tagCounts)
    | None => None
    end
  else Some [].

(** ** Writing streak
    (GET /api/journal/stats, GET /api/analytics/overview) *)

(** [d.setHours(0, 0, 0, 0)] *)
Definition setHours0 (t : Z) : Z := t - t mod msPerDay.

(** [Math.ceil(a / b)] on integers, [b > 0]. *)
Definition ceil_div (a b : Z) : Z := - ((- a) / b).

(** The [for ... of] loop with its [break]. *)
Fixpoint streak_loop (sortedEntries : list JournalEntry)
                     (streak currentDate : Z) : Z :=
  match sortedEntries with
  | [] => streak
  | entry :: rest =>
      let entryDate := setHours0 (jdate entry) in
      let diffTime := currentDate - entryDate in
      let diffDays := ceil_div diffTime msPerDay in
      if (diffDays =? streak + 1) || ((streak =? 0) && (diffDays <=? 1))
      then streak_loop rest (streak + 1) entryDate
      else streak
  end.

(** [now] is the time value of [new Date()]. *)
Definition writingStreak (now : Z) (journalEntries : list JournalEntry) : Z :=
  if nonempty journalEntries then
    let sortedEntries :=
      js_sort (fun a b => jdate b - jdate a) journalEntries in
    streak_loop sortedEntries 0 (setHours0 now)
  else 0.

(** ** Time zones *)

(** The time zone of the server as the language sees it: [offset_at t] is
    [LocalTZA(t, true)], the offset of local time from UTC at the instant
    [t], and [offset_of_local t] is [LocalTZA(t, false)], the offset at the
    local time value [t] (where a transition repeats or skips a local
    time, the offset before the transition). *)
Record TimeZone : Type := {
  offset_at : Z -> Z;
  offset_of_local : Z -> Z
}.

(** [LocalTime(t)], [UTC(t)] and [Day(t)] of the language. *)
Definition LocalTime (zone : TimeZone) (t : Z) : Z := t + offset_at zone t.

Definition UTC_time (zone : TimeZone) (t : Z) : Z :=
  t - offset_of_local zone t.

Definition Day (t : Z) : Z := t / msPerDay.

(** The calendar day of an instant, counted from 1 January 1970. *)
Definition local_day (zone : TimeZone) (t : Z) : Z := Day (LocalTime zone t).

(** [d.setHours(0, 0, 0, 0)] in a time zone:
    [UTC(MakeDate(Day(LocalTime(t)), MakeTime(0, 0, 0, 0)))]. *)
Definition setHours0_in (zone : TimeZone) (t : Z) : Z :=
  UTC_time zone (local_day zone t * msPerDay).

(** A zone without transitions. *)
Definition fixed_offset (offset : Z) : TimeZone :=
  {| offset_at := fun _ => offset; offset_of_local := fun _ => offset |}.

Definition UTC : TimeZone := fixed_offset 0.

Definition msPerHour : Z := 1000 * 60 * 60.

(** America/New_York around 2023: Eastern Standard Time, five hours
    behind UTC, with daylight saving time, four hours behind, from
    2023-03-12T07:00:00Z to 2023-11-05T06:00:00Z. *)
Definition America_New_York_2023 : TimeZone :=
  {| offset_at := fun t =>
       if (1678604400000 <=? t) && (t <? 1699164000000)
       then -4 * msPerHour else -5 * msPerHour;
     offset_of_local := fun t =>
       if (1678604400000 - 4 * msPerHour <=? t)
          && (t <? 1699164000000 - 4 * msPerHour)
       then -4 * msPerHour else -5 * msPerHour |}.

(** The [for ... of] loop of the writing streak in a time zone. *)
Fixpoint streak_loop_in (zone : TimeZone) (sortedEntries : list JournalEntry)
                        (streak currentDate : Z) : Z :=
  match sortedEntries with
  | [] => streak
  | entry :: rest =>
      let entryDate := setHours0_in zone (jdate entry) in
      let diffTime := currentDate - entryDate in
      let diffDays := ceil_div diffTime msPerDay in
      if (diffDays =? streak + 1) || ((streak =? 0) && (diffDays <=? 1))
      then streak_loop_in zone rest (streak + 1) entryDate
      else streak
  end.

Definition writingStreak_in (zone : TimeZone) (now : Z)
           (journalEntries : list JournalEntry) : Z :=
  if nonempty journalEntries then
    let sortedEntries :=
      js_sort (fun a b => jdate b - jdate a) journalEntries in
    streak_loop_in zone sortedEntries 0 (setHours0_in zone now)
  else 0.

(** ** Insights and recommendations (GET /api/analytics/overview) *)

Record TopActivity : Type := {
  name : string;
  category : string
}.

(** [`${n}`] for an integer. *)
Definition show_int (n : Z) : string := NilZero.string_of_int (Z.to_int n).

Definition insights_and_recommendations
    (averageMood averageSleep averageStress : jsnum)
    (topActivities : list TopActivity)
    (writingStreak totalEntries : Z) : list string * list string :=
  let insights := [] in
  let recommendations := [] in
  (* Mood insights *)
  let '(insights, recommendations) :=
    if jslt averageMood (Fin 3%Q) then
      (insights ++ ["Your mood has been lower than average recently."%string],
       recommendations ++ ["Consider engaging in activities that typically boost your mood, or reach out to a mental health professional."%string])
    else if jsgt averageMood (Fin 4%Q) then
      (insights ++ ["You've been in a great mood lately! Keep up the positive energy."%string],
       recommendations)
    else (insights, recommendations) in
  (* Sleep insights *)
  let '(insights, recommendations) :=
    if jslt averageSleep (Fin 7%Q) then
      (insights ++ ["Your sleep duration is below the recommended 7-9 hours."%string],
       recommendations ++ ["Try to establish a consistent sleep schedule and create a relaxing bedtime routine."%string])
    else (insights, recommendations) in
  (* Stress insights *)
  let '(insights, recommendations) :=
    if jsgt averageStress (Fin 7%Q) then
      (insights ++ ["Your stress levels have been high recently."%string],
       recommendations ++ ["Consider stress-reduction techniques like meditation, deep breathing, or physical exercise."%string])
    else (insights, recommendations) in
  (* Activity insights *)
  let '(insights, recommendations) :=
    match topActivities with
    | topActivity :: _ =>
        (insights ++ [("Your most positive activity is " ++ name topActivity
                       ++ " (" ++ category topActivity ++ ").")%string],
         recommendations ++ [("Try to incorporate more " ++ name topActivity
                              ++ " into your daily routine.")%string])
    | [] => (insights, recommendations)
    end in
  (* Journal insights *)
  let '(insights, recommendations) :=
    if 7 <? writingStreak then
      (insights ++ [("Amazing! You have a " ++ show_int writingStreak
                     ++ "-day writing streak.")%string],
       recommendations)
    else if (writingStreak =? 0) && (0 <? totalEntries) then
      (insights,
       recommendations ++ ["Try to write in your journal daily to build a consistent habit."%string])
    else (insights, recommendations) in
  (insights, recommendations).

(** ** Activity analytics (GET /api/analytics/overview) *)

(** The fields of an activity the analytics read (models/Activity). *)
Record Activity : Type := {
  act_name : string;
  act_category : string;
  moodImpact : Q;
  energyImpact : Q;
  isRecurring : bool
}.

(** [activities.filter(a => a.isRecurring).length] *)
Definition recurringActivities (activities : list Activity) : Z :=
  Z.of_nat (length (filter isRecurring activities)).

(** [categoryDistribution[category] = (categoryDistribution[category] || 0)
    + 1], run when there are activities; the statement is the one of the
    tag counts. *)
Definition categoryDistribution (activities : list Activity)
  : option (object Z) :=
  if nonempty activities then
    fold_left
      (fun acc activity =>
         match acc with
         | Some distribution => count_tag distribution (act_category activity)
         | None => None
         end)
      activities (Some [])
  else Some [].

(** [averageMoodImpact] and [averageEnergyImpact]. *)
Definition average_impact (impact : Activity -> Q) (activities : list Activity)
  : jsnum :=
  if nonempty activities then
    let impacts := map impact activities in
    jsdiv (Fin (reduce_sum impacts)) (len_num impacts)
  else Fin 0%Q.

(** A row of [topActivities]. *)
Record TopRow : Type := {
  row_name : string;
  row_category : string;
  row_moodImpact : Q;
  row_energyImpact : Q;
  totalImpact : Q
}.

(** [a.moodImpact > 0 || a.energyImpact > 0] *)
Definition has_positive_impact (a : Activity) : bool :=
  Qlt_bool 0 (moodImpact a) || Qlt_bool 0 (energyImpact a).

(** [(a, b) => (b.moodImpact + b.energyImpact)
              - (a.moodImpact + a.energyImpact)]; the sort reads the sign
    of the difference, which is the sign of its numerator. *)
Definition by_total_impact (a b : Activity) : Z :=
  Qnum ((moodImpact b + energyImpact b) - (moodImpact a + energyImpact a))%Q.

Definition top_row (a : Activity) : TopRow :=
  {| row_name := act_name a;
     row_category := act_category a;
     row_moodImpact := moodImpact a;
     row_energyImpact := energyImpact a;
     totalImpact := (moodImpact a + energyImpact a)%Q |}.

(** [activities.filter(...).sort(...).slice(0, 10).map(...)], run when
    there are activities. *)
Definition topActivities (activities : list Activity) : list TopRow :=
  if nonempty activities then
    map top_row
        (firstn 10
           (js_sort by_total_impact
                    (filter has_positive_impact activities)))
  else [].

(** What the activity insight reads of a row. *)
Definition row_activity (r : TopRow) : TopActivity :=
  {| name := row_name r; category := row_category r |}.

(** The insights of the overview, from the analytics of its three record
    sets. *)
Definition overview_insights
    (now : Z) (moodEntries : list MoodEntry) (activities : list Activity)
    (journalEntries : list JournalEntry) : list string * list string :=
  insights_and_recommendations
    (averageMood moodEntries) (averageSleep moodEntries)
    (averageStress moodEntries)
    (map row_activity (topActivities activities))
    (writingStreak now journalEntries) (totalEntries journalEntries).

(** ** Pagination (GET /api/journal, GET /api/mood) *)

Record Pagination : Type := {
  currentPage : Z;
  totalPages : Z;
  pg_totalEntries : Z;
  hasNextPage : bool;
  hasPrevPage : bool
}.

(** [find(query).sort({ date: -1 }).limit(limit).skip(skip)] on the sorted
    documents that match the query: the store skips first, then limits. *)
Definition find_page {A : Type} (matching : list A) (limit skip : Z) : list A :=
  firstn (Z.to_nat limit) (skipn (Z.to_nat skip) matching).

(** The page and its pagination record; [limit] and [page] are the parsed
    query parameters, [countDocuments(query)] is the number of matching
    documents. *)
Definition paginate {A : Type} (matching : list A) (limit page : Z)
  : list A * Pagination :=
  let skip := (page - 1) * limit in
  let entries := find_page matching limit skip in
  let totalEntries := Z.of_nat (length matching) in
  (entries,
   {| currentPage := page;
      totalPages := ceil_div totalEntries limit;
      pg_totalEntries := totalEntries;
      hasNextPage := skip + Z.of_nat (length entries) <? totalEntries;
      hasPrevPage := 1 <? page |}).

(** ** The mood entry of today (POST /api/mood, GET /api/mood/today) *)

(** [{ $gte: today, $lt: new Date(today.getTime() + 24 * 60 * 60 * 1000) }] *)
Definition in_today_window (today t : Z) : bool :=
  (today <=? t) && (t <? today + 24 * 60 * 60 * 1000).

(** The stored mood entries of a user: the time value of [date] and the
    other fields. *)
Definition mood_store (D : Type) : Type := list (Z * D).

(** [MoodEntry.findOne({ user, date: { $gte: today, $lt: ... } })], where
    [today] is [new Date()] after [setHours(0, 0, 0, 0)]. *)
Definition find_today {D : Type} (zone : TimeZone) (now : Z)
           (store : mood_store D) : option (Z * D) :=
  find (fun doc => in_today_window (setHours0_in zone now) (fst doc)) store.

(** [Object.assign(moodEntry, moodData); moodEntry.save()] on the first
    document of the window: the date stays. *)
Fixpoint update_today {D : Type} (today : Z) (moodData : D)
         (store : mood_store D) : mood_store D :=
  match store with
  | [] => []
  | doc :: rest =>
      if in_today_window today (fst doc) then (fst doc, moodData) :: rest
      else doc :: update_today today moodData rest
  end.

(** The handler of POST /api/mood on valid input; the date of a new entry
    is the default [Date.now], taken at the [now] of the request. *)
Definition post_mood {D : Type} (zone : TimeZone) (now : Z) (moodData : D)
           (store : mood_store D) : mood_store D :=
  match find_today zone now store with
  | Some _ => update_today (setHours0_in zone now) moodData store
  | None => store ++ [(now, moodData)]
  end.

(** ** Word count, reading time and excerpt (models/JournalEntry) *)

(** A string as its UTF-16 code units. *)
Definition jsstring : Type := list N.

(** The white space and line terminators of the language: what [trim]
    removes and [\s] matches. *)
Definition is_whitespace (c : N) : bool :=
  existsb (N.eqb c)
          [9; 10; 11; 12; 13; 32; 160; 5760; 8232; 8233; 8239; 8287; 12288;
           65279]%N
  || ((8192 <=? c) && (c <=? 8202))%N.

Fixpoint trimStart (s : jsstring) : jsstring :=
  match s with
  | [] => []
  | c :: s' => if is_whitespace c then trimStart s' else s
  end.

(** [s.trim()] *)
Definition trim (s : jsstring) : jsstring :=
  rev (trimStart (rev (trimStart s))).

(** [s.split(/\s+/)]: the pieces between the maximal runs of white space;
    [piece] is the piece being read and [in_run] tells that the previous
    unit was white space. *)
Fixpoint split_from (s piece : jsstring) (in_run : bool) : list jsstring :=
  match s with
  | [] => [piece]
  | c :: s' =>
      if is_whitespace c then
        if in_run then split_from s' piece true
        else piece :: split_from s' [] true
      else split_from s' (piece ++ [c]) false
  end.

Definition split_whitespace (s : jsstring) : list jsstring :=
  split_from s [] false.

(** [this.content.trim().split(/\s+/).length] *)
Definition wordCount (content : jsstring) : Z :=
  Z.of_nat (length (split_whitespace (trim content))).

(** [Math.ceil(this.wordCount / 200)] *)
Definition readingTime (content : jsstring) : Z :=
  ceil_div (wordCount content) 200.

(** The [excerpt] virtual: [content.length > 150
    ? content.substring(0, 150) + '...' : content]. *)
Definition excerpt (content : jsstring) : jsstring :=
  if (150 <? length content)%nat then firstn 150 content ++ [46; 46; 46]%N
  else content.

(** The [enum] of the [category] field (models/Activity). *)
Definition activity_categories : list string :=
  [ "exercise"; "meditation"; "reading"; "music"; "art"; "cooking";
    "social"; "nature"; "hobby"; "work"; "study"; "relaxation";
    "sports"; "gaming"; "travel"; "volunteer"; "other" ]%string.

(* ================================================================== *)
(** * Part II: the vocabulary of the properties                        *)
(* ================================================================== *)

(** ** C9: the mood scores *)

Definition all_moods : list Mood := [very_sad; sad; neutral; happy; very_happy].

(** ** C10: the mood distribution *)

Definition Mood_eq_dec (a b : Mood) : {a = b} + {a <> b}.
Proof. decide equality. Defined.

(** ** C7: the insight rules *)

(** A rule of the table: its condition on the inputs and what it appends
    to each list when the condition holds. *)
Record Rule : Type := {
  condition : bool;
  insight : option string;
  recommendation : option string
}.

Definition low_mood_insight : string :=
  "Your mood has been lower than average recently.".
Definition low_mood_recommendation : string :=
  "Consider engaging in activities that typically boost your mood, or reach out to a mental health professional.".
Definition great_mood_insight : string :=
  "You've been in a great mood lately! Keep up the positive energy.".

(** The seven rules, in order. *)
Definition rule_table
    (meanMood meanSleep meanStress : jsnum)
    (topActivity : option TopActivity)
    (streak entryCount : Z) : list Rule :=
  [ {| condition := jslt meanMood (Fin 3%Q);
       insight := Some low_mood_insight;
       recommendation := Some low_mood_recommendation |};
    {| condition := jsgt meanMood (Fin 4%Q);
       insight := Some great_mood_insight;
       recommendation := None |};
    {| condition := jslt meanSleep (Fin 7%Q);
       insight := Some "Your sleep duration is below the recommended 7-9 hours."%string;
       recommendation := Some "Try to establish a consistent sleep schedule and create a relaxing bedtime routine."%string |};
    {| condition := jsgt meanStress (Fin 7%Q);
       insight := Some "Your stress levels have been high recently."%string;
       recommendation := Some "Consider stress-reduction techniques like meditation, deep breathing, or physical exercise."%string |};
    {| condition := match topActivity with Some _ => true | None => false end;
       insight :=
         option_map
           (fun a => ("Your most positive activity is " ++ name a ++ " ("
                      ++ category a ++ ").")%string)
           topActivity;
       recommendation :=
         option_map
           (fun a => ("Try to incorporate more " ++ name a
                      ++ " into your daily routine.")%string)
           topActivity |};
    {| condition := 7 <? streak;
       insight := Some ("Amazing! You have a " ++ show_int streak
                        ++ "-day writing streak.")%string;
       recommendation := None |};
    {| condition := (streak =? 0) && (0 <? entryCount);
       insight := None;
       recommendation := Some "Try to write in your journal daily to build a consistent habit."%string |}
  ].

Definition appended (field : Rule -> option string) (r : Rule) : list string :=
  if condition r
  then match field r with Some s => [s] | None => [] end
  else [].

(** Every rule is looked at, whatever the others did. *)
Definition table_insights (rules : list Rule) : list string :=
  flat_map (appended insight) rules.

Definition table_recommendations (rules : list Rule) : list string :=
  flat_map (appended recommendation) rules.

(** ** C3 and C2: the writing streak *)

(** The procedure in words: the state of the walk over the sorted dates. *)
Record Walk : Type := {
  w_streak : Z;
  w_cursor : Z;
  w_stopped : bool
}.

(** The least integer not below [a / b]. *)
Definition ceiling (a b : Z) : Z :=
  if a mod b =? 0 then a / b else a / b + 1.

Definition walk_step (w : Walk) (recordDate : Z) : Walk :=
  if w_stopped w then w
  else
    let entryDate := setHours0 recordDate in
    let diffDays := ceiling (w_cursor w - entryDate) msPerDay in
    if Z.eq_dec diffDays (w_streak w + 1) then
      {| w_streak := w_streak w + 1; w_cursor := entryDate;
         w_stopped := false |}
    else if Z.eq_dec (w_streak w) 0 then
      if Z_le_dec diffDays 1 then
        {| w_streak := w_streak w + 1; w_cursor := entryDate;
           w_stopped := false |}
      else {| w_streak := w_streak w; w_cursor := w_cursor w;
              w_stopped := true |}
    else {| w_streak := w_streak w; w_cursor := w_cursor w;
            w_stopped := true |}.

(** Start with streak 0 and the cursor on today; walk the dates, which
    are given in descending order; return the final streak. *)
Definition streak_procedure (today : Z) (descendingDates : list Z) : Z :=
  w_streak
    (fold_left walk_step descendingDates
               {| w_streak := 0; w_cursor := today; w_stopped := false |}).

Definition journal_at (t : Z) : JournalEntry :=
  {| jdate := t; jmood := neutral; tags := [] |}.

(** ** C1, C4, C5: the trend statistics *)

(** The sum, the count and the mean of a series, as written in
    mathematics. *)
Definition total (values : list Q) : Q := fold_right Qplus 0%Q values.

Definition count (values : list Q) : Q := inject_Z (Z.of_nat (length values)).

Definition mean (values : list Q) : Q := (total values / count values)%Q.

Definition square (x : Q) : Q := (x * x)%Q.

(** The population variance: the mean of the squared deviations. *)
Definition population_variance (values : list Q) : Q :=
  mean (map (fun x => square (x - mean values)) values).

(** The classification from the two half means.  With a first-half mean
    of zero the quotient is infinite or undefined: it is an increase when
    the second half is above zero and a decrease when it is below. *)
Definition classify (firstMean secondMean : Q) : Trend :=
  if Qeq_dec firstMean 0 then
    if Qlt_le_dec 0 secondMean then increasing
    else if Qlt_le_dec secondMean 0 then decreasing
    else stable
  else
    let change := ((secondMean - firstMean) / firstMean * 100)%Q in
    if Qlt_le_dec 5 change then increasing
    else if Qlt_le_dec change (-5) then decreasing
    else stable.

(** The classification of the specification: a first-half mean of zero is
    stable. *)
Definition classify_zero_stable (firstMean secondMean : Q) : Trend :=
  if Qeq_dec firstMean 0 then stable
  else
    let change := ((secondMean - firstMean) / firstMean * 100)%Q in
    if Qlt_le_dec 5 change then increasing
    else if Qlt_le_dec change (-5) then decreasing
    else stable.

(** The mean of a series of binary64 numbers: the sum from left to right
    over the count, every operation rounded. *)
Definition mean_binary64 (values : list float) : float :=
  (fold_left PrimFloat.add values 0 / length_binary64 values)%float.

(** (secondMean - firstMean) / firstMean * 100, every operation rounded. *)
Definition percent_change (firstMean secondMean : float) : float :=
  ((secondMean - firstMean) / firstMean * 100)%float.

(** The classification from the two half means on binary64 numbers.  With
    a first-half mean of zero ([+0], the sum of zeros) the trend goes by
    the sign of the second-half mean; otherwise the rounded percent change
    is held against 5 and -5. *)
Definition classify_binary64 (firstMean secondMean : float) : Trend :=
  if PrimFloat.Leibniz.eqb firstMean 0 then
    if (0 <? secondMean)%float then increasing
    else if (secondMean <? 0)%float then decreasing
    else stable
  else
    if (5 <? percent_change firstMean secondMean)%float then increasing
    else if (percent_change firstMean secondMean <? -5)%float then decreasing
    else stable.

(** The classification of the specification on binary64 numbers: a
    first-half mean of zero is stable. *)
Definition classify_zero_stable_binary64 (firstMean secondMean : float)
  : Trend :=
  if (firstMean =? 0)%float then stable
  else
    if (5 <? percent_change firstMean secondMean)%float then increasing
    else if (percent_change firstMean secondMean <? -5)%float then decreasing
    else stable.

Definition metric_name (m : Metric) : string :=
  match m with
  | m_mood => "mood"
  | m_energy => "energy"
  | m_stress => "stress"
  | m_anxiety => "anxiety"
  | m_sleep => "sleep"
  end.

Definition mood_entry_with_sleep (day : string) (hours : Q) : MoodEntry :=
  {| date := day; mood := neutral; energy := 5; stress := 5; anxiety := 5;
     sleep_hours := hours |}.

(** ** C6: the most used tags *)

(** The tags in the order of the count pass. *)
Definition all_tags (journalEntries : list JournalEntry) : list string :=
  flat_map tags journalEntries.

(** The distinct tags, each at the place of its first occurrence. *)
Fixpoint first_seen (l : list string) : list string :=
  match l with
  | [] => []
  | t :: l' => t :: filter (fun u => negb (u =? t)%string) (first_seen l')
  end.

Definition occurrences (l : list string) (t : string) : Z :=
  Z.of_nat (count_occ string_dec l t).

(** Each distinct tag with its number of occurrences, in first-seen
    order. *)
Definition counted (l : list string) : list (string * Z) :=
  map (fun t => (t, occurrences l t)) (first_seen l).

(** The ranking of the specification: descending by count, ties in
    first-seen order, the top [N]. *)
Definition ranker_first_seen (N : nat) (journalEntries : list JournalEntry)
  : list (string * Z) :=
  firstn N (js_sort (fun a b => snd b - snd a)
                    (counted (all_tags journalEntries))).

Definition journal_with_tags (ts : list string) : JournalEntry :=
  {| jdate := 0; jmood := neutral; tags := ts |}.

Definition count_step (acc : option (object Z)) (tag : string)
  : option (object Z) :=
  match acc with
  | Some tagCounts => count_tag tagCounts tag
  | None => None
  end.

(** ** C8: the daily trends *)

(** The records of one day, in the order of the input. *)
Definition records_of_day (d : string) (moodEntries : list MoodEntry)
  : list MoodEntry :=
  filter (fun e => (date e =? d)%string) moodEntries.

Definition day_group (moodEntries : list MoodEntry) (d : string) : DayStats :=
  {| ds_mood := map (metric_value m_mood) (records_of_day d moodEntries);
     ds_energy := map (metric_value m_energy) (records_of_day d moodEntries);
     ds_stress := map (metric_value m_stress) (records_of_day d moodEntries);
     ds_anxiety := map (metric_value m_anxiety) (records_of_day d moodEntries);
     ds_sleep := map (metric_value m_sleep) (records_of_day d moodEntries) |}.

(** The days in first-seen order, each with the values of its records. *)
Definition grouped (moodEntries : list MoodEntry) : object DayStats :=
  map (fun d => (d, day_group moodEntries d))
      (first_seen (map date moodEntries)).

(** The order of [array.sort()] on strings; on days written YYYY-MM-DD it
    is the order of the calendar. *)
Definition string_lt (a b : string) : Prop := String.compare a b = Lt.

(** A day of the calendar as [toISOString] writes it, for a year of four
    digits: YYYY-MM-DD. *)
Definition digit_char (d : N) : ascii := ascii_of_N (48 + d)%N.

Definition two_digits (n : N) (rest : string) : string :=
  String (digit_char (n / 10)%N) (String (digit_char (n mod 10)%N) rest).

Definition four_digits (n : N) (rest : string) : string :=
  String (digit_char (n / 1000)%N)
    (String (digit_char (n / 100 mod 10)%N)
       (String (digit_char (n / 10 mod 10)%N)
          (String (digit_char (n mod 10)%N) rest))).

Definition iso_day (y m d : N) : string :=
  four_digits y
    (String "-" (two_digits m (String "-" (two_digits d EmptyString)))).

(** ** Further vocabulary *)

Definition sleep_insight : string :=
  "Your sleep duration is below the recommended 7-9 hours.".
Definition sleep_recommendation : string :=
  "Try to establish a consistent sleep schedule and create a relaxing bedtime routine.".
Definition write_daily_recommendation : string :=
  "Try to write in your journal daily to build a consistent habit.".
Definition streak_insight (streak : Z) : string :=
  ("Amazing! You have a " ++ show_int streak ++ "-day writing streak.")%string.

(** The sum of the counts an object holds. *)
Definition total_counts (o : object Z) : Z :=
  fold_right (fun kv acc => snd kv + acc) 0 o.

(** [a.moodImpact + a.energyImpact] *)
Definition impact_sum (a : Activity) : Q := (moodImpact a + energyImpact a)%Q.

(** The pages 1, 2, ..., [pages] of a query, one after the other. *)
Definition pages_in_order {A : Type} (matching : list A) (limit : Z)
           (pages : nat) : list A :=
  flat_map (fun k => fst (paginate matching limit (Z.of_nat k + 1)))
           (seq 0 pages).

(** At most one stored entry per calendar day of the zone. *)
Definition one_per_day {D : Type} (zone : TimeZone) (store : mood_store D)
  : Prop :=
  NoDup (map (fun doc => local_day zone (fst doc)) store).

(** The 24 hours from the midnight of today hold every instant of the
    calendar day of [now]: the day is not longer than 24 hours. *)
Definition day_in_window (zone : TimeZone) (now : Z) : Prop :=
  forall t, local_day zone t = local_day zone now ->
            in_today_window (setHours0_in zone now) t = true.













(** The number of words of a text: the places where a unit that is not
    white space stands first or follows white space. *)
Fixpoint word_starts (s : jsstring) (after_space : bool) : nat :=
  match s with
  | [] => 0
  | c :: s' =>
      if is_whitespace c then word_starts s' true
      else ((if after_space then 1 else 0) + word_starts s' false)%nat
  end.

Definition words (s : jsstring) : nat := word_starts s true.

(** The number of runs of white space that begin in [s]. *)
Fixpoint separators (s : jsstring) (in_run : bool) : nat :=
  match s with
  | [] => 0
  | c :: s' =>
      if is_whitespace c then
        ((if in_run then 0 else 1) + separators s' true)%nat
      else separators s' false
  end.

(** Whether the last unit is white space; [b] answers for the empty
    string. *)
Definition ends_in_space (s : jsstring) (b : bool) : bool :=
  fold_left (fun _ c => is_whitespace c) s b.

Definition blank (s : jsstring) : Prop :=
  Forall (fun c => is_whitespace c = true) s.

Definition activity_example (n c : string) (m e : Q) : Activity :=
  {| act_name := n; act_category := c; moodImpact := m; energyImpact := e;
     isRecurring := false |}.

(* ================================================================== *)
(** * Part III: properties                                             *)
(* ================================================================== *)


(** ** Numbers *)

Lemma Qlt_bool_iff (a b : Q) : Qlt_bool a b = true <-> (a < b)%Q.
Proof.
  unfold Qlt_bool. rewrite negb_true_iff. split; intros H.
  - apply Qnot_le_lt. intros Hle. apply Qle_bool_iff in Hle. congruence.
  - destruct (Qle_bool b a) eqn:E; [ | reflexivity ].
    apply Qle_bool_iff in E. exfalso. exact (Qlt_not_le _ _ H E).
Qed.

Lemma Qlt_bool_false_iff (a b : Q) : Qlt_bool a b = false <-> (b <= a)%Q.
Proof.
  unfold Qlt_bool. rewrite negb_false_iff. apply Qle_bool_iff.
Qed.

Lemma Qeq_bool_false_iff (a b : Q) : Qeq_bool a b = false <-> ~ (a == b)%Q.
Proof.
  split; intros H.
  - intros E. apply Qeq_bool_iff in E. congruence.
  - destruct (Qeq_bool a b) eqn:E; [ | reflexivity ].
    apply Qeq_bool_iff in E. contradiction.
Qed.

Lemma length_num_pos {A : Type} (l : list A) :
  l <> [] -> (0 < inject_Z (Z.of_nat (length l)))%Q.
Proof.
  intros H. destruct l as [ | x l ]; [ congruence | ].
  replace 0%Q with (inject_Z 0) by reflexivity.
  rewrite <- Zlt_Qlt. simpl length. lia.
Qed.

(** A division by the length of a non-empty array is an ordinary one. *)
Lemma jsdiv_length {A : Type} (s : Q) (l : list A) :
  l <> [] ->
  jsdiv (Fin s) (len_num l) = Fin (s / inject_Z (Z.of_nat (length l)))%Q.
Proof.
  intros H. unfold jsdiv, len_num.
  assert (E : Qeq_bool (inject_Z (Z.of_nat (length l))) 0 = false).
  { apply Qeq_bool_false_iff. intros E.
    pose proof (length_num_pos l H) as P. rewrite E in P.
    exact (Qlt_irrefl _ P). }
  rewrite E. reflexivity.
Qed.

(** ** C9: the mood scores *)

(** C9.  The five mood categories, in the order very-sad, sad, neutral,
    happy, very-happy, have the scores 1, 2, 3, 4, 5; there is no other
    category; and the mood statistics (the [mood] series of the trends,
    the average mood, the value pushed per day) read a record's mood
    through this score. *)
Theorem moodScore_fixed_mapping :
  map moodScore all_moods = [1; 2; 3; 4; 5]
  /\ (forall mood : Mood, In mood all_moods)
  /\ (forall entries,
        metric_values "mood" entries
        = map (fun e => inject_Z (moodScore (mood e))) entries)
  /\ (forall entries,
        averageMood entries
        = if nonempty entries
          then jsdiv (Fin (reduce_sum
                             (map (fun e => inject_Z (moodScore (mood e)))
                                  entries)))
                     (len_num entries)
          else Fin 0%Q)
  /\ (forall entry dayStats,
        ds_mood (day_push entry dayStats)
        = ds_mood dayStats ++ [inject_Z (moodScore (mood entry))]).
Proof.
  split; [ reflexivity | ].
  split; [ intros []; simpl; tauto | ].
  split; [ reflexivity | ].
  split; [ | reflexivity ].
  intros entries. unfold averageMood, average_of, len_num.
  rewrite length_map. reflexivity.
Qed.

(** ** C10: the mood distribution *)

Lemma bucket_incr_spec (d : MoodDistribution) (key k : Mood) :
  bucket k (bucket_incr d key)
  = bucket k d + (if Mood_eq_dec key k then 1 else 0).
Proof.
  destruct key, k; simpl; lia.
Qed.

Lemma tally_bucket (entries : list MoodEntry) (d : MoodDistribution) (k : Mood) :
  bucket k (fold_left (fun d entry => bucket_incr d (mood entry)) entries d)
  = bucket k d + Z.of_nat (count_occ Mood_eq_dec (map mood entries) k).
Proof.
  revert d. induction entries as [ | e entries IH ]; intros d.
  - simpl. lia.
  - simpl fold_left. rewrite IH, bucket_incr_spec. simpl map. simpl count_occ.
    destruct (Mood_eq_dec (mood e) k); lia.
Qed.

Lemma moodDistribution_bucket (entries : list MoodEntry) (k : Mood) :
  bucket k (moodDistribution entries)
  = Z.of_nat (count_occ Mood_eq_dec (map mood entries) k).
Proof.
  unfold moodDistribution. destruct entries as [ | e entries ].
  - destruct k; reflexivity.
  - unfold nonempty. rewrite tally_bucket. destruct k; reflexivity.
Qed.

Lemma count_moods (l : list Mood) :
  (count_occ Mood_eq_dec l very_sad + count_occ Mood_eq_dec l sad
   + count_occ Mood_eq_dec l neutral + count_occ Mood_eq_dec l happy
   + count_occ Mood_eq_dec l very_happy = length l)%nat.
Proof.
  induction l as [ | m l IH ]; [ reflexivity | ].
  destruct m; simpl; lia.
Qed.

(** C10.  The distribution has one count for each of the five categories;
    a record adds one to the bucket of its own mood and to no other, so
    each bucket holds the number of records of that mood; and the five
    counts add up to [totalEntries]. *)
Theorem moodDistribution_sums_to_totalEntries (moodEntries : list MoodEntry) :
  (forall d key k,
      bucket k (bucket_incr d key)
      = bucket k d + (if Mood_eq_dec key k then 1 else 0))
  /\ (forall k,
        bucket k (moodDistribution moodEntries)
        = Z.of_nat (count_occ Mood_eq_dec (map mood moodEntries) k))
  /\ d_very_sad (moodDistribution moodEntries)
     + d_sad (moodDistribution moodEntries)
     + d_neutral (moodDistribution moodEntries)
     + d_happy (moodDistribution moodEntries)
     + d_very_happy (moodDistribution moodEntries)
     = totalEntries moodEntries.
Proof.
  split; [ intros; apply bucket_incr_spec | ].
  split; [ intros; apply moodDistribution_bucket | ].
  pose proof (moodDistribution_bucket moodEntries) as B.
  pose proof (B very_sad) as B1. pose proof (B sad) as B2.
  pose proof (B neutral) as B3. pose proof (B happy) as B4.
  pose proof (B very_happy) as B5. simpl bucket in *.
  rewrite B1, B2, B3, B4, B5. unfold totalEntries.
  pose proof (count_moods (map mood moodEntries)) as C.
  rewrite length_map in C. lia.
Qed.

(** ** C7: the insight rules *)

Lemma jslt_3_not_jsgt_4 (x : jsnum) :
  jslt x (Fin 3%Q) = true -> jsgt x (Fin 4%Q) = false.
Proof.
  unfold jsgt. destruct x as [ a | | | ]; simpl; try congruence.
  rewrite Qlt_bool_iff, Qlt_bool_false_iff. intros H.
  apply Qlt_le_weak. apply Qlt_trans with (y := 3%Q); [ exact H | reflexivity ].
Qed.

(** C7.  For every input the insights and the recommendations are those of
    the seven-rule table, each rule evaluated on its own and in order.  A
    mean mood of 2 gives the low-mood insight and its recommendation; a
    mean mood of 4.5 gives the great-mood insight and not the low-mood
    one. *)
Theorem insights_follow_rule_table :
  (forall meanMood meanSleep meanStress topActivities streak entryCount,
     insights_and_recommendations meanMood meanSleep meanStress topActivities
                                  streak entryCount
     = (table_insights
          (rule_table meanMood meanSleep meanStress (hd_error topActivities)
                      streak entryCount),
        table_recommendations
          (rule_table meanMood meanSleep meanStress (hd_error topActivities)
                      streak entryCount)))
  /\ (forall meanSleep meanStress topActivities streak entryCount,
        let r := insights_and_recommendations (Fin 2%Q) meanSleep meanStress
                   topActivities streak entryCount in
        In low_mood_insight (fst r) /\ In low_mood_recommendation (snd r))
  /\ (forall meanSleep meanStress topActivities streak entryCount,
        let r := insights_and_recommendations (Fin (9 # 2)%Q) meanSleep
                   meanStress topActivities streak entryCount in
        In great_mood_insight (fst r) /\ ~ In low_mood_insight (fst r)).
Proof.
  assert (T : forall meanMood meanSleep meanStress topActivities streak
                     entryCount,
     insights_and_recommendations meanMood meanSleep meanStress topActivities
                                  streak entryCount
     = (table_insights
          (rule_table meanMood meanSleep meanStress (hd_error topActivities)
                      streak entryCount),
        table_recommendations
          (rule_table meanMood meanSleep meanStress (hd_error topActivities)
                      streak entryCount))).
  { intros meanMood meanSleep meanStress topActivities streak entryCount.
    unfold insights_and_recommendations, table_insights,
      table_recommendations, rule_table, appended.
    cbn [flat_map condition insight recommendation].
    destruct (jslt meanMood (Fin 3%Q)) eqn:E1.
    - rewrite (jslt_3_not_jsgt_4 _ E1).
      destruct (jslt meanSleep (Fin 7%Q)), (jsgt meanStress (Fin 7%Q)),
        topActivities as [ | a l ]; cbn [hd_error option_map app];
        destruct (7 <? streak) eqn:E7;
        try (apply Z.ltb_lt in E7;
             replace (streak =? 0) with false by (symmetry; apply Z.eqb_neq; lia));
        cbn [andb app];
        try destruct ((streak =? 0) && (0 <? entryCount));
        reflexivity.
    - destruct (jsgt meanMood (Fin 4%Q)),
        (jslt meanSleep (Fin 7%Q)), (jsgt meanStress (Fin 7%Q)),
        topActivities as [ | a l ]; cbn [hd_error option_map app];
        destruct (7 <? streak) eqn:E7;
        try (apply Z.ltb_lt in E7;
             replace (streak =? 0) with false by (symmetry; apply Z.eqb_neq; lia));
        cbn [andb app];
        try destruct ((streak =? 0) && (0 <? entryCount));
        reflexivity. }
  split; [ exact T | ].
  split.
  - intros meanSleep meanStress topActivities streak entryCount r.
    subst r. rewrite T. unfold table_insights, table_recommendations, rule_table.
    cbn [flat_map fst snd]. split; apply in_or_app; left; left; reflexivity.
  - intros meanSleep meanStress topActivities streak entryCount r.
    subst r. rewrite T. unfold table_insights, rule_table.
    cbn [flat_map fst snd]. unfold appended; cbn [condition insight].
    change (jslt (Fin (9 # 2)%Q) (Fin 3%Q)) with false.
    change (jsgt (Fin (9 # 2)%Q) (Fin 4%Q)) with true.
    cbn [app]. split.
    + left. reflexivity.
    + intros [ H | H ]; [ discriminate H | ].
      destruct (jslt meanSleep (Fin 7%Q)); cbn [app] in H;
        [ destruct H as [ H | H ]; [ discriminate H | ] | ];
        (destruct (jsgt meanStress (Fin 7%Q)); cbn [app] in H;
         [ destruct H as [ H | H ]; [ discriminate H | ] | ]);
        (destruct (hd_error topActivities) as [ a | ];
         cbn [option_map app] in H;
         [ destruct H as [ H | H ]; [ discriminate H | ] | ]);
        (destruct (7 <? streak); cbn [app] in H;
         [ destruct H as [ H | H ]; [ discriminate H | ] | ]);
        (destruct ((streak =? 0) && (0 <? entryCount)); cbn [app] in H;
         try destruct H).
Qed.

(** ** The stable sort *)

Section SortFacts.
Context {A : Type}.
Variable cmp : A -> A -> Z.

Lemma sort_insert_perm (x : A) (l : list A) :
  Permutation (sort_insert cmp x l) (x :: l).
Proof.
  induction l as [ | y l IH ]; simpl.
  - apply Permutation_refl.
  - destruct (cmp x y <=? 0).
    + apply Permutation_refl.
    + apply perm_trans with (l' := y :: x :: l).
      * apply perm_skip. exact IH.
      * apply perm_swap.
Qed.

Lemma js_sort_perm (l : list A) : Permutation (js_sort cmp l) l.
Proof.
  induction l as [ | x l IH ]; simpl.
  - apply perm_nil.
  - apply perm_trans with (l' := x :: js_sort cmp l).
    + apply sort_insert_perm.
    + apply perm_skip. exact IH.
Qed.

Lemma js_sort_In (x : A) (l : list A) : In x (js_sort cmp l) <-> In x l.
Proof.
  split; apply Permutation_in;
    [ apply js_sort_perm | apply Permutation_sym, js_sort_perm ].
Qed.

(** Elements that the comparator never separates keep their order. *)
Lemma sort_insert_filter (p : A -> bool) (x : A) (l : list A) :
  (forall a b, p a = true -> p b = true -> cmp a b <= 0) ->
  filter p (sort_insert cmp x l) = filter p (x :: l).
Proof.
  intros Hp. induction l as [ | y l IH ]; [ reflexivity | ].
  simpl sort_insert. destruct (cmp x y <=? 0) eqn:E; [ reflexivity | ].
  apply Z.leb_gt in E. simpl filter in *.
  destruct (p x) eqn:Px, (p y) eqn:Py.
  - specialize (Hp x y Px Py). lia.
  - exact IH.
  - rewrite IH. reflexivity.
  - exact IH.
Qed.

Lemma js_sort_stable (p : A -> bool) (l : list A) :
  (forall a b, p a = true -> p b = true -> cmp a b <= 0) ->
  filter p (js_sort cmp l) = filter p l.
Proof.
  intros Hp. induction l as [ | x l IH ]; [ reflexivity | ].
  simpl js_sort. rewrite sort_insert_filter by exact Hp.
  simpl. rewrite IH. reflexivity.
Qed.

Hypothesis cmp_total : forall a b, 0 < cmp a b -> cmp b a <= 0.
Hypothesis cmp_trans :
  forall a b c, cmp a b <= 0 -> cmp b c <= 0 -> cmp a c <= 0.

Lemma sort_insert_sorted (x : A) (l : list A) :
  StronglySorted (fun a b => cmp a b <= 0) l ->
  StronglySorted (fun a b => cmp a b <= 0) (sort_insert cmp x l).
Proof.
  induction 1 as [ | y l Hs IH Hy ]; simpl.
  - constructor; [ constructor | constructor ].
  - destruct (cmp x y <=? 0) eqn:E.
    + apply Z.leb_le in E. constructor.
      * constructor; assumption.
      * constructor; [ exact E | ].
        rewrite Forall_forall in *. intros z Hz.
        apply cmp_trans with (b := y); [ exact E | apply Hy; exact Hz ].
    + apply Z.leb_gt in E. constructor; [ exact IH | ].
      rewrite Forall_forall in *. intros z Hz.
      apply (Permutation_in _ (sort_insert_perm x l)) in Hz.
      destruct Hz as [ <- | Hz ]; [ apply cmp_total; exact E | apply Hy; exact Hz ].
Qed.

Lemma js_sort_sorted (l : list A) :
  StronglySorted (fun a b => cmp a b <= 0) (js_sort cmp l).
Proof.
  induction l as [ | x l IH ]; simpl.
  - constructor.
  - apply sort_insert_sorted. exact IH.
Qed.
End SortFacts.

(** Two descending arrangements of the same integers are the same list. *)
Lemma descending_unique (l1 l2 : list Z) :
  Permutation l1 l2 ->
  StronglySorted (fun a b => b <= a) l1 ->
  StronglySorted (fun a b => b <= a) l2 ->
  l1 = l2.
Proof.
  revert l2. induction l1 as [ | a l1 IH ]; intros l2 P S1 S2.
  - apply Permutation_nil in P. congruence.
  - destruct l2 as [ | b l2 ].
    + apply Permutation_sym, Permutation_nil in P. discriminate P.
    + inversion S1 as [ | ? ? S1' F1 ]; subst.
      inversion S2 as [ | ? ? S2' F2 ]; subst.
      rewrite Forall_forall in F1, F2.
      assert (a = b) as ->.
      { assert (Ha : In a (b :: l2))
          by (apply (Permutation_in _ P); left; reflexivity).
        assert (Hb : In b (a :: l1))
          by (apply (Permutation_in _ (Permutation_sym P)); left; reflexivity).
        destruct Ha as [ Ha | Ha ]; [ congruence | ].
        destruct Hb as [ Hb | Hb ]; [ congruence | ].
        specialize (F1 _ Hb). specialize (F2 _ Ha). lia. }
      f_equal. apply IH; [ | assumption | assumption ].
      apply Permutation_cons_inv with (a := b). exact P.
Qed.

Lemma StronglySorted_map {A B : Type} (f : A -> B) (R : B -> B -> Prop)
      (l : list A) :
  StronglySorted (fun a b => R (f a) (f b)) l -> StronglySorted R (map f l).
Proof.
  induction 1 as [ | x l Hs IH Hx ]; simpl; constructor.
  - exact IH.
  - rewrite Forall_forall in *. intros y Hy. apply in_map_iff in Hy.
    destruct Hy as [ z [ <- Hz ] ]. apply Hx. exact Hz.
Qed.

(** ** C3 and C2: the writing streak *)

Lemma ceil_div_ceiling (a b : Z) : 0 < b -> ceil_div a b = ceiling a b.
Proof.
  intros Hb. unfold ceil_div, ceiling.
  destruct (a mod b =? 0) eqn:E.
  - apply Z.eqb_eq in E. rewrite Z_div_zero_opp_full by (first [ exact E | lia ]). lia.
  - apply Z.eqb_neq in E. rewrite Z_div_nz_opp_full by (first [ exact E | lia ]). lia.
Qed.

Lemma ceiling_least (a b : Z) :
  0 < b -> (ceiling a b - 1) * b < a <= ceiling a b * b.
Proof.
  intros Hb. unfold ceiling.
  pose proof (Z.div_mod a b) as D. pose proof (Z.mod_pos_bound a b Hb) as B.
  destruct (a mod b =? 0) eqn:E.
  - apply Z.eqb_eq in E. nia.
  - apply Z.eqb_neq in E. nia.
Qed.

Lemma walk_stopped (dates : list Z) (w : Walk) :
  w_stopped w = true -> fold_left walk_step dates w = w.
Proof.
  intros H. induction dates as [ | d dates IH ]; [ reflexivity | ].
  simpl. unfold walk_step at 2. rewrite H. exact IH.
Qed.

Lemma streak_loop_walk (l : list JournalEntry) (streak currentDate : Z) :
  streak_loop l streak currentDate
  = w_streak
      (fold_left walk_step (map jdate l)
                 {| w_streak := streak; w_cursor := currentDate;
                    w_stopped := false |}).
Proof.
  revert streak currentDate.
  induction l as [ | e l IH ]; intros streak currentDate; [ reflexivity | ].
  simpl streak_loop. simpl map. simpl fold_left.
  unfold walk_step at 2. cbn [w_stopped w_streak w_cursor].
  rewrite ceil_div_ceiling by reflexivity.
  set (diffDays := ceiling (currentDate - setHours0 (jdate e)) msPerDay).
  destruct (Z.eq_dec diffDays (streak + 1)) as [ E | E ].
  - rewrite (proj2 (Z.eqb_eq _ _) E). simpl orb. apply IH.
  - rewrite (proj2 (Z.eqb_neq _ _) E). simpl orb.
    destruct (Z.eq_dec streak 0) as [ E0 | E0 ].
    + rewrite (proj2 (Z.eqb_eq _ _) E0). simpl andb.
      destruct (Z_le_dec diffDays 1) as [ L | L ].
      * rewrite (proj2 (Z.leb_le _ _) L). apply IH.
      * rewrite (proj2 (Z.leb_gt _ _)) by lia.
        rewrite walk_stopped by reflexivity. reflexivity.
    + rewrite (proj2 (Z.eqb_neq _ _) E0). simpl andb.
      rewrite walk_stopped by reflexivity. reflexivity.
Qed.

Lemma sorted_dates_unique (journalEntries sorted : list JournalEntry) :
  Permutation sorted journalEntries ->
  StronglySorted (fun a b => jdate b <= jdate a) sorted ->
  map jdate (js_sort (fun a b => jdate b - jdate a) journalEntries)
  = map jdate sorted.
Proof.
  intros P S. apply descending_unique.
  - apply Permutation_map.
    apply perm_trans with (l' := journalEntries);
      [ apply js_sort_perm | apply Permutation_sym; exact P ].
  - apply StronglySorted_map with (R := fun a b => b <= a).
    eapply StronglySorted_ind with (P := fun l => StronglySorted _ l);
      [ constructor | | apply (js_sort_sorted (fun a b => jdate b - jdate a)) ].
    + intros a l Hl IH Ha. constructor; [ exact IH | ].
      rewrite Forall_forall in *. intros x Hx. specialize (Ha x Hx). lia.
    + intros a b H. lia.
    + intros a b c H1 H2. lia.
  - apply StronglySorted_map with (R := fun a b => b <= a). exact S.
Qed.

Lemma writingStreak_procedure (now : Z) (journalEntries sorted : list JournalEntry) :
  Permutation sorted journalEntries ->
  StronglySorted (fun a b => jdate b <= jdate a) sorted ->
  writingStreak now journalEntries
  = streak_procedure (setHours0 now) (map jdate sorted).
Proof.
  intros P S. unfold writingStreak, streak_procedure.
  destruct journalEntries as [ | e l ].
  - apply Permutation_sym, Permutation_nil in P. subst sorted. reflexivity.
  - unfold nonempty. rewrite streak_loop_walk.
    rewrite (sorted_dates_unique (e :: l) sorted P S). reflexivity.
Qed.

Lemma walk_step_counts (streak cursor recordDate : Z) :
  ceiling (cursor - setHours0 recordDate) msPerDay = streak + 1
  \/ (streak = 0 /\ ceiling (cursor - setHours0 recordDate) msPerDay <= 1) ->
  walk_step {| w_streak := streak; w_cursor := cursor; w_stopped := false |}
            recordDate
  = {| w_streak := streak + 1; w_cursor := setHours0 recordDate;
       w_stopped := false |}.
Proof.
  intros H. unfold walk_step. cbn [w_stopped w_streak w_cursor].
  destruct (Z.eq_dec _ (streak + 1)); [ reflexivity | ].
  destruct (Z.eq_dec streak 0); [ | lia ].
  destruct (Z_le_dec _ 1); [ reflexivity | lia ].
Qed.

Lemma walk_step_stops (streak cursor recordDate : Z) :
  ceiling (cursor - setHours0 recordDate) msPerDay <> streak + 1 ->
  streak <> 0 \/ 1 < ceiling (cursor - setHours0 recordDate) msPerDay ->
  walk_step {| w_streak := streak; w_cursor := cursor; w_stopped := false |}
            recordDate
  = {| w_streak := streak; w_cursor := cursor; w_stopped := true |}.
Proof.
  intros H1 H2. unfold walk_step. cbn [w_stopped w_streak w_cursor].
  destruct (Z.eq_dec _ (streak + 1)); [ contradiction | ].
  destruct (Z.eq_dec streak 0); [ | reflexivity ].
  destruct (Z_le_dec _ 1); [ lia | reflexivity ].
Qed.

Lemma setHours0_bounds (t : Z) : setHours0 t <= t < setHours0 t + msPerDay.
Proof.
  unfold setHours0.
  pose proof (Z.mod_pos_bound t msPerDay eq_refl). lia.
Qed.

Lemma writingStreak_far (now : Z) (journalEntries : list JournalEntry) :
  (forall entry, In entry journalEntries ->
     1 < ceiling (setHours0 now - setHours0 (jdate entry)) msPerDay) ->
  writingStreak now journalEntries = 0.
Proof.
  intros H. unfold writingStreak.
  destruct (nonempty journalEntries); [ | reflexivity ].
  destruct (js_sort (fun a b => jdate b - jdate a) journalEntries)
    as [ | e l ] eqn:E; [ reflexivity | ].
  assert (He : In e journalEntries).
  { apply (js_sort_In (fun a b => jdate b - jdate a)). rewrite E.
    left. reflexivity. }
  specialize (H e He). simpl streak_loop.
  rewrite ceil_div_ceiling by reflexivity.
  rewrite (proj2 (Z.eqb_neq _ _)) by lia.
  rewrite (proj2 (Z.leb_gt _ _)) by lia.
  reflexivity.
Qed.

(** C3.  Whatever descending arrangement of the records is taken, the
    streak of the code is the value of the procedure: streak 0 and cursor on
    today's midnight; for each record, the number of days from the record's
    midnight up to the cursor, rounded up; the record is counted and becomes
    the cursor when that number is the streak plus one, or when the streak
    is still 0 and the number is at most 1; the first record that is not
    counted ends the walk.  The result is 0 when every record is more than
    one day before today. *)
Theorem writingStreak_is_procedure
    (now : Z) (journalEntries sorted : list JournalEntry) :
  Permutation sorted journalEntries ->
  StronglySorted (fun a b => jdate b <= jdate a) sorted ->
  writingStreak now journalEntries
  = streak_procedure (setHours0 now) (map jdate sorted)
  /\ ((forall entry, In entry journalEntries ->
         1 < ceiling (setHours0 now - setHours0 (jdate entry)) msPerDay) ->
      writingStreak now journalEntries = 0).
Proof.
  intros P S. split.
  - apply writingStreak_procedure; assumption.
  - apply writingStreak_far.
Qed.

Lemma writingStreak_is_procedure_witness :
  writingStreak 1700000000000
    [journal_at 1699900000000; journal_at 1699990000000;
     journal_at 1699700000000]
  = streak_procedure (setHours0 1700000000000)
      (map jdate [journal_at 1699990000000; journal_at 1699900000000;
                  journal_at 1699700000000])
  /\ ((forall entry,
         In entry [journal_at 1699900000000; journal_at 1699990000000;
                   journal_at 1699700000000] ->
         1 < ceiling (setHours0 1700000000000 - setHours0 (jdate entry))
                     msPerDay) ->
      writingStreak 1700000000000
        [journal_at 1699900000000; journal_at 1699990000000;
         journal_at 1699700000000] = 0).
Proof.
  apply (writingStreak_is_procedure 1700000000000
           [journal_at 1699900000000; journal_at 1699990000000;
            journal_at 1699700000000]
           [journal_at 1699990000000; journal_at 1699900000000;
            journal_at 1699700000000]).
  - apply perm_swap.
  - repeat constructor; simpl; lia.
Defined.

(** C2.  One record today, one yesterday and one three days ago, in any
    order and at any time of their day: the code returns 1.  The record of
    today is counted and becomes the cursor; yesterday is then one day
    before the cursor, which is not the streak plus one, and the walk
    ends. *)
Theorem writingStreak_today_yesterday_gap
    (now : Z) (journalEntries : list JournalEntry)
    (today yesterday before : JournalEntry) :
  Permutation journalEntries [today; yesterday; before] ->
  setHours0 (jdate today) = setHours0 now ->
  setHours0 (jdate yesterday) = setHours0 now - msPerDay ->
  setHours0 (jdate before) = setHours0 now - 3 * msPerDay ->
  writingStreak now journalEntries = 1.
Proof.
  intros P H0 H1 H3.
  pose proof (setHours0_bounds (jdate today)) as B0.
  pose proof (setHours0_bounds (jdate yesterday)) as B1.
  pose proof (setHours0_bounds (jdate before)) as B3.
  assert (D : msPerDay = 86400000) by reflexivity.
  rewrite (writingStreak_procedure now journalEntries
             [today; yesterday; before]).
  - unfold streak_procedure. simpl map. simpl fold_left.
    rewrite walk_step_counts.
    + rewrite walk_step_stops.
      * reflexivity.
      * rewrite H0, H1.
        replace (setHours0 now - (setHours0 now - msPerDay)) with msPerDay
          by lia.
        discriminate.
      * left. discriminate.
    + right. split; [ reflexivity | ].
      rewrite H0, Z.sub_diag. discriminate.
  - apply Permutation_sym. exact P.
  - repeat constructor; lia.
Qed.

Lemma writingStreak_today_yesterday_gap_witness :
  writingStreak 1700000000000
    [journal_at 1699900000000; journal_at 1699990000000;
     journal_at 1699700000000] = 1.
Proof.
  apply (writingStreak_today_yesterday_gap 1700000000000 _
           (journal_at 1699990000000) (journal_at 1699900000000)
           (journal_at 1699700000000)).
  - apply perm_swap.
  - reflexivity.
  - reflexivity.
  - reflexivity.
Defined.

(** ** C1, C4, C5: the trend statistics *)

Lemma reduce_sum_from (values : list Q) (a : Q) :
  (fold_left Qplus values a == a + total values)%Q.
Proof.
  revert a. induction values as [ | x values IH ]; intros a; simpl.
  - ring.
  - rewrite IH. ring.
Qed.

Lemma reduce_sum_total (values : list Q) : (reduce_sum values == total values)%Q.
Proof.
  unfold reduce_sum. rewrite reduce_sum_from. ring.
Qed.

Lemma count_pos (values : list Q) : values <> [] -> (0 < count values)%Q.
Proof. apply length_num_pos. Qed.

Lemma average_mean (x : Q) (rest : list Q) :
  exists a, jsdiv (Fin (reduce_sum (x :: rest))) (len_num (x :: rest)) = Fin a
            /\ (a == mean (x :: rest))%Q.
Proof.
  eexists. split.
  - apply jsdiv_length. discriminate.
  - unfold mean, count. rewrite reduce_sum_total. reflexivity.
Qed.

Lemma jsmin2_Fin (a v : Q) :
  jsmin2 (Fin a) (Fin v) = Fin (if Qlt_bool v a then v else a).
Proof. unfold jsmin2, jslt. destruct (Qlt_bool v a); reflexivity. Qed.

Lemma jsmax2_Fin (a v : Q) :
  jsmax2 (Fin a) (Fin v) = Fin (if Qlt_bool a v then v else a).
Proof. unfold jsmax2, jslt. destruct (Qlt_bool a v); reflexivity. Qed.

(** The extrema. *)
Lemma Math_min_from (values : list Q) (a : Q) :
  exists lo,
    fold_left (fun acc v => jsmin2 acc (Fin v)) values (Fin a) = Fin lo
    /\ (lo = a \/ In lo values)
    /\ (lo <= a)%Q
    /\ (forall x, In x values -> (lo <= x)%Q).
Proof.
  revert a. induction values as [ | v values IH ]; intros a.
  - exists a. simpl. repeat split; [ left; reflexivity | apply Qle_refl | tauto ].
  - cbn [fold_left]. rewrite jsmin2_Fin.
    destruct (Qlt_bool v a) eqn:E.
    + apply Qlt_bool_iff in E.
      destruct (IH v) as [ lo [ H1 [ H2 [ H3 H4 ] ] ] ].
      exists lo. split; [ exact H1 | ].
      split; [ right; destruct H2 as [ -> | H2 ]; [ left; reflexivity | right; exact H2 ] | ].
      split; [ apply Qle_trans with (y := v); [ exact H3 | apply Qlt_le_weak; exact E ] | ].
      intros x [ <- | Hx ]; [ exact H3 | apply H4; exact Hx ].
    + apply Qlt_bool_false_iff in E.
      destruct (IH a) as [ lo [ H1 [ H2 [ H3 H4 ] ] ] ].
      exists lo. split; [ exact H1 | ].
      split; [ destruct H2 as [ -> | H2 ]; [ left; reflexivity | right; right; exact H2 ] | ].
      split; [ exact H3 | ].
      intros x [ <- | Hx ]; [ apply Qle_trans with (y := a); assumption | apply H4; exact Hx ].
Qed.

Lemma Math_max_from (values : list Q) (a : Q) :
  exists hi,
    fold_left (fun acc v => jsmax2 acc (Fin v)) values (Fin a) = Fin hi
    /\ (hi = a \/ In hi values)
    /\ (a <= hi)%Q
    /\ (forall x, In x values -> (x <= hi)%Q).
Proof.
  revert a. induction values as [ | v values IH ]; intros a.
  - exists a. simpl. repeat split; [ left; reflexivity | apply Qle_refl | tauto ].
  - cbn [fold_left]. rewrite jsmax2_Fin.
    destruct (Qlt_bool a v) eqn:E.
    + apply Qlt_bool_iff in E.
      destruct (IH v) as [ hi [ H1 [ H2 [ H3 H4 ] ] ] ].
      exists hi. split; [ exact H1 | ].
      split; [ right; destruct H2 as [ -> | H2 ]; [ left; reflexivity | right; exact H2 ] | ].
      split; [ apply Qle_trans with (y := v); [ apply Qlt_le_weak; exact E | exact H3 ] | ].
      intros x [ <- | Hx ]; [ exact H3 | apply H4; exact Hx ].
    + apply Qlt_bool_false_iff in E.
      destruct (IH a) as [ hi [ H1 [ H2 [ H3 H4 ] ] ] ].
      exists hi. split; [ exact H1 | ].
      split; [ destruct H2 as [ -> | H2 ]; [ left; reflexivity | right; right; exact H2 ] | ].
      split; [ exact H3 | ].
      intros x [ <- | Hx ]; [ apply Qle_trans with (y := a); assumption | apply H4; exact Hx ].
Qed.

Lemma Math_min_extremum (x : Q) (rest : list Q) :
  exists lo, Math_min (x :: rest) = Fin lo
             /\ In lo (x :: rest)
             /\ (forall y, In y (x :: rest) -> (lo <= y)%Q).
Proof.
  unfold Math_min. cbn [fold_left].
  change (jsmin2 PInf (Fin x)) with (Fin x).
  destruct (Math_min_from rest x) as [ lo [ H1 [ H2 [ H3 H4 ] ] ] ].
  exists lo. split; [ exact H1 | ].
  split; [ destruct H2 as [ -> | H2 ]; [ left; reflexivity | right; exact H2 ] | ].
  intros y [ <- | Hy ]; [ exact H3 | apply H4; exact Hy ].
Qed.

Lemma Math_max_extremum (x : Q) (rest : list Q) :
  exists hi, Math_max (x :: rest) = Fin hi
             /\ In hi (x :: rest)
             /\ (forall y, In y (x :: rest) -> (y <= hi)%Q).
Proof.
  unfold Math_max. cbn [fold_left].
  change (jsmax2 NInf (Fin x)) with (Fin x).
  destruct (Math_max_from rest x) as [ hi [ H1 [ H2 [ H3 H4 ] ] ] ].
  exists hi. split; [ exact H1 | ].
  split; [ destruct H2 as [ -> | H2 ]; [ left; reflexivity | right; exact H2 ] | ].
  intros y [ <- | Hy ]; [ exact H3 | apply H4; exact Hy ].
Qed.

(** The variance. *)
Lemma squares_from (values : list Q) (avg avg' a : Q) :
  (avg == avg')%Q ->
  exists s,
    fold_left (fun acc val => jsadd acc (Math_pow2 (jssub (Fin val) (Fin avg))))
              values (Fin a) = Fin s
    /\ (s == a + total (map (fun x => square (x - avg')) values))%Q.
Proof.
  intros Havg. revert a.
  induction values as [ | v values IH ]; intros a.
  - exists a. split; [ reflexivity | ]. simpl. ring.
  - cbn [fold_left].
    change (jsadd (Fin a) (Math_pow2 (jssub (Fin v) (Fin avg))))
      with (Fin (a + (v + - avg) * (v + - avg))%Q).
    destruct (IH (a + (v + - avg) * (v + - avg))%Q) as [ s [ H1 H2 ] ].
    exists s. split; [ exact H1 | ].
    rewrite H2. simpl. unfold square. rewrite Havg. ring.
Qed.

Lemma total_squares_nonneg (values : list Q) (m : Q) :
  (0 <= total (map (fun x => square (x - m)) values))%Q.
Proof.
  induction values as [ | v values IH ]; simpl.
  - apply Qle_refl.
  - replace 0%Q with (0 + 0)%Q by reflexivity.
    apply Qplus_le_compat; [ | exact IH ].
    unfold square. clear IH. generalize (v - m)%Q. intros y. nra.
Qed.

Lemma population_variance_nonneg (x : Q) (rest : list Q) :
  (0 <= population_variance (x :: rest))%Q.
Proof.
  unfold population_variance, mean at 1.
  apply Qle_shift_div_l.
  - unfold count. rewrite length_map. apply length_num_pos. discriminate.
  - rewrite Qmult_0_l. apply total_squares_nonneg.
Qed.

Lemma variance_of_population (x : Q) (rest : list Q) (avg : Q) :
  (avg == mean (x :: rest))%Q ->
  exists v, variance_of (x :: rest) (Fin avg) = Fin v
            /\ (v == population_variance (x :: rest))%Q.
Proof.
  intros Havg. unfold variance_of.
  destruct (squares_from (x :: rest) avg (mean (x :: rest)) 0 Havg)
    as [ s [ H1 H2 ] ].
  rewrite H1. rewrite jsdiv_length by discriminate.
  eexists. split; [ reflexivity | ].
  unfold population_variance, mean at 1, count.
  rewrite length_map, H2. field.
  intros E. pose proof (length_num_pos (x :: rest)) as P.
  rewrite E in P. apply (Qlt_irrefl 0). apply P. discriminate.
Qed.

Lemma volatility_population (x : Q) (rest : list Q) :
  volatility (statistics_of (x :: rest))
  = Fin (sqrt (Q2R (population_variance (x :: rest)))).
Proof.
  unfold statistics_of. cbn [volatility].
  destruct (average_mean x rest) as [ a [ Ha1 Ha2 ] ]. rewrite Ha1.
  destruct (variance_of_population x rest a Ha2) as [ v [ Hv1 Hv2 ] ].
  rewrite Hv1. unfold Math_sqrt.
  assert (N : Qlt_bool v 0 = false).
  { apply Qlt_bool_false_iff. rewrite Hv2.
    apply population_variance_nonneg. }
  rewrite N. f_equal. f_equal. apply Qeq_eqR. exact Hv2.
Qed.

(** The trend. *)
Lemma trend_of_means (a b : Q) :
  (let change := jsmul (jsdiv (jssub (Fin b) (Fin a)) (Fin a)) (Fin 100%Q) in
   if jsgt change (Fin 5%Q) then increasing
   else if jslt change (Fin (-5)%Q) then decreasing
   else stable)
  = classify a b.
Proof.
  unfold classify. cbv zeta.
  change (jssub (Fin b) (Fin a)) with (Fin (b - a)%Q).
  unfold jsdiv. destruct (Qeq_dec a 0) as [ Z | NZ ].
  - rewrite (proj2 (Qeq_bool_iff a 0) Z).
    destruct (Qeq_bool (b - a) 0) eqn:E0.
    + apply Qeq_bool_iff in E0. cbn.
      destruct (Qlt_le_dec 0 b) as [ L | L ]; [ exfalso; lra | ].
      destruct (Qlt_le_dec b 0) as [ L' | L' ]; [ exfalso; lra | reflexivity ].
    + apply Qeq_bool_false_iff in E0.
      destruct (Qlt_bool 0 (b - a)) eqn:E1.
      * apply Qlt_bool_iff in E1. cbn.
        destruct (Qlt_le_dec 0 b) as [ L | L ]; [ reflexivity | exfalso; lra ].
      * apply Qlt_bool_false_iff in E1. cbn.
        destruct (Qlt_le_dec 0 b) as [ L | L ]; [ exfalso; lra | ].
        destruct (Qlt_le_dec b 0) as [ L' | L' ]; [ reflexivity | exfalso; lra ].
  - rewrite (proj2 (Qeq_bool_false_iff a 0) NZ).
    unfold jsmul, jsgt, jslt.
    destruct (Qlt_le_dec 5 ((b - a) / a * 100)) as [ L | L ].
    + rewrite (proj2 (Qlt_bool_iff _ _) L). reflexivity.
    + rewrite (proj2 (Qlt_bool_false_iff _ _) L).
      destruct (Qlt_le_dec ((b - a) / a * 100) (-5)) as [ L' | L' ].
      * rewrite (proj2 (Qlt_bool_iff _ _) L'). reflexivity.
      * rewrite (proj2 (Qlt_bool_false_iff _ _) L'). reflexivity.
Qed.

Lemma classify_compat (a a' b b' : Q) :
  (a == a')%Q -> (b == b')%Q -> classify a b = classify a' b'.
Proof.
  intros Ha Hb. unfold classify. cbv zeta.
  assert (Hc : ((b - a) / a * 100 == (b' - a') / a' * 100)%Q)
    by (rewrite Ha, Hb; reflexivity).
  revert Hc.
  generalize ((b - a) / a * 100)%Q, ((b' - a') / a' * 100)%Q.
  intros c c' Hc.
  destruct (Qeq_dec a 0), (Qeq_dec a' 0); try (exfalso; lra).
  - destruct (Qlt_le_dec 0 b), (Qlt_le_dec 0 b'); try (exfalso; lra);
      try reflexivity.
    destruct (Qlt_le_dec b 0), (Qlt_le_dec b' 0); try (exfalso; lra);
      reflexivity.
  - destruct (Qlt_le_dec 5 c), (Qlt_le_dec 5 c'); try (exfalso; lra);
      try reflexivity.
    destruct (Qlt_le_dec c (-5)), (Qlt_le_dec c' (-5)); try (exfalso; lra);
      reflexivity.
Qed.

Lemma trend_statistics_of (values : list Q) :
  trend (statistics_of values)
  = if (2 <=? length values)%nat then trend_direction values else stable.
Proof. reflexivity. Qed.

Lemma trend_direction_classify (x y : Q) (rest : list Q) :
  trend_direction (x :: y :: rest)
  = classify (mean (firstn (length (x :: y :: rest) / 2) (x :: y :: rest)))
             (mean (skipn (length (x :: y :: rest) / 2) (x :: y :: rest))).
Proof.
  unfold trend_direction.
  set (values := x :: y :: rest).
  assert (Hn : (2 <= length values)%nat) by (simpl; lia).
  set (firstHalf := firstn (length values / 2) values).
  set (secondHalf := skipn (length values / 2) values).
  assert (Hhalf : (1 <= length values / 2 < length values)%nat).
  { split; [ apply Nat.div_le_lower_bound; lia | apply Nat.div_lt; lia ]. }
  assert (H1 : firstHalf <> []).
  { intros E. apply (f_equal (@length Q)) in E. unfold firstHalf in E.
    rewrite length_firstn in E. simpl length in E at 3. lia. }
  assert (H2 : secondHalf <> []).
  { intros E. apply (f_equal (@length Q)) in E. unfold secondHalf in E.
    rewrite length_skipn in E. simpl length in E at 3. lia. }
  cbv zeta. rewrite (jsdiv_length _ firstHalf H1), (jsdiv_length _ secondHalf H2).
  rewrite (trend_of_means _ _).
  apply classify_compat; unfold mean, count; rewrite reduce_sum_total;
    reflexivity.
Qed.

(** The trend on binary64 numbers.  With a first-half mean of [+0] the
    quotient is infinite or undefined, and the tests of the change against
    5 and -5 are the tests of the sign of the second-half mean. *)
Lemma percent_change_of_zero (s : float) :
  (5 <? percent_change 0 s)%float = (0 <? s)%float
  /\ (percent_change 0 s <? -5)%float = (s <? 0)%float.
Proof.
  unfold percent_change.
  rewrite !ltb_spec, mul_spec, div_spec, sub_spec.
  destruct (Prim2SF s) as [ b | b | | b m e ]; split;
    try (destruct b); reflexivity.
Qed.

Lemma trend_binary64_classify (x y : float) (rest : list float) :
  let values := x :: y :: rest in
  let firstHalf := firstn (length values / 2) values in
  let secondHalf := skipn (length values / 2) values in
  trend_binary64 values
  = classify_binary64 (mean_binary64 firstHalf) (mean_binary64 secondHalf).
Proof.
  cbv zeta. unfold trend_binary64.
  change (2 <=? length (x :: y :: rest))%nat with true. cbv iota.
  unfold trend_direction_binary64, classify_binary64. cbv zeta.
  set (firstHalf := firstn (length (x :: y :: rest) / 2) (x :: y :: rest)).
  set (secondHalf := skipn (length (x :: y :: rest) / 2) (x :: y :: rest)).
  change (reduce_sum_binary64 firstHalf / length_binary64 firstHalf)%float
    with (mean_binary64 firstHalf).
  change (reduce_sum_binary64 secondHalf / length_binary64 secondHalf)%float
    with (mean_binary64 secondHalf).
  generalize (mean_binary64 firstHalf), (mean_binary64 secondHalf).
  intros a b.
  fold (percent_change a b).
  destruct (PrimFloat.Leibniz.eqb a 0) eqn:E; [ | reflexivity ].
  apply FloatAxioms.Leibniz.eqb_spec in E. subst a.
  destruct (percent_change_of_zero b) as [ -> -> ]. reflexivity.
Qed.


(** C1 (amended).  For a series of at least two binary64 numbers, split at
    half its length rounded down, the trend of the code is
    [classify_binary64] of the two half means, every operation rounded to
    the nearest number: when the first-half mean is not zero, the rounded
    percent change (second - first) / first * 100 gives increasing above
    5, decreasing below -5 and stable otherwise; when the first-half mean
    is zero, the trend is increasing for a positive second-half mean,
    decreasing for a negative one and stable for zero. *)
Theorem trend_classification (x y : float) (rest : list float) :
  let values := x :: y :: rest in
  let firstHalf := firstn (length values / 2) values in
  let secondHalf := skipn (length values / 2) values in
  trend_binary64 values
  = classify_binary64 (mean_binary64 firstHalf) (mean_binary64 secondHalf).
Proof. exact (trend_binary64_classify x y rest). Qed.

(** C1 as stated fails: two entries with 0 and then 5 hours of sleep have a
    first-half mean of zero, which the statement calls stable, and the code
    answers increasing, in exact arithmetic and on binary64 numbers. *)
Lemma trend_zero_first_half_increasing :
  let moodEntries := [mood_entry_with_sleep "2024-03-01" 0;
                      mood_entry_with_sleep "2024-03-02" 5] in
  let values := metric_values "sleep" moodEntries in
  let firstHalf := firstn (length values / 2) values in
  let secondHalf := skipn (length values / 2) values in
  let numbers := map binary64_of_Q values in
  let firstMean := mean_binary64 (firstn (length numbers / 2) numbers) in
  let secondMean := mean_binary64 (skipn (length numbers / 2) numbers) in
  (mean firstHalf == 0)%Q
  /\ classify_zero_stable (mean firstHalf) (mean secondHalf) = stable
  /\ trend (statistics (trends "sleep" moodEntries)) = increasing
  /\ trend (statistics (trends "sleep" moodEntries))
     <> classify_zero_stable (mean firstHalf) (mean secondHalf)
  /\ firstMean = 0%float
  /\ classify_zero_stable_binary64 firstMean secondMean = stable
  /\ trend_binary64 numbers = increasing
  /\ trend_binary64 numbers
     <> classify_zero_stable_binary64 firstMean secondMean.
Proof.
  cbv zeta.
  assert (T : trend (statistics
                       (trends "sleep"
                               [mood_entry_with_sleep "2024-03-01" 0;
                                mood_entry_with_sleep "2024-03-02" 5]))
              = increasing).
  { unfold trends. cbn [nonempty statistics].
    rewrite trend_statistics_of. vm_compute. reflexivity. }
  assert (C : classify_zero_stable
                (mean (firstn 1 [0; 5]%Q)) (mean (skipn 1 [0; 5]%Q)) = stable).
  { unfold classify_zero_stable.
    destruct (Qeq_dec (mean (firstn 1 [0; 5]%Q)) 0) as [ E | E ];
      [ reflexivity | exfalso; apply E; reflexivity ]. }
  split; [ reflexivity | ].
  split; [ exact C | ].
  split; [ exact T | ].
  split.
  { rewrite T. change (increasing <> classify_zero_stable
                         (mean (firstn 1 [0; 5]%Q)) (mean (skipn 1 [0; 5]%Q))).
    rewrite C. discriminate. }
  split; [ vm_compute; reflexivity | ].
  split; [ vm_compute; reflexivity | ].
  split; [ vm_compute; reflexivity | ].
  vm_compute. discriminate.
Qed.

Lemma sqrt_of_zero (q : Q) : (q == 0)%Q -> sqrt (Q2R q) = 0%R.
Proof.
  intros H. rewrite (Qeq_eqR _ _ H), RMicromega.Q2R_0. apply sqrt_0.
Qed.

(** C5.  For a non-empty series: the average is the sum of the values
    divided by their number; the minimum and the maximum are values of the
    series that bound all the others; the volatility is the square root of
    the mean squared deviation from the mean.  On [1, 1, 1, 1] the mean is
    1, the volatility 0 and the trend stable. *)
Theorem statistics_formulas (x : Q) (rest : list Q) :
  let values := x :: rest in
  let s := statistics_of values in
  same_num (average s) (Fin (total values / count values)%Q)
  /\ (exists lo, stat_min s = Fin lo /\ In lo values
                 /\ Forall (fun v => (lo <= v)%Q) values)
  /\ (exists hi, stat_max s = Fin hi /\ In hi values
                 /\ Forall (fun v => (v <= hi)%Q) values)
  /\ volatility s = Fin (sqrt (Q2R (population_variance values)))
  /\ (let ones := statistics_of [1; 1; 1; 1]%Q in
      same_num (average ones) (Fin 1%Q)
      /\ volatility ones = Fin 0%R
      /\ trend ones = stable).
Proof.
  cbv zeta. split.
  { unfold statistics_of. cbn [average].
    destruct (average_mean x rest) as [ a [ Ha1 Ha2 ] ]. rewrite Ha1.
    exact Ha2. }
  split.
  { destruct (Math_min_extremum x rest) as [ lo [ H1 [ H2 H3 ] ] ].
    exists lo. split; [ exact H1 | ]. split; [ exact H2 | ].
    apply Forall_forall. exact H3. }
  split.
  { destruct (Math_max_extremum x rest) as [ hi [ H1 [ H2 H3 ] ] ].
    exists hi. split; [ exact H1 | ]. split; [ exact H2 | ].
    apply Forall_forall. exact H3. }
  split; [ apply volatility_population | ].
  split.
  { unfold statistics_of. cbn [average]. vm_compute. reflexivity. }
  split.
  { rewrite volatility_population. f_equal. apply sqrt_of_zero.
    vm_compute. reflexivity. }
  rewrite trend_statistics_of. vm_compute. reflexivity.
Qed.

Lemma stat_min_statistics_of (values : list Q) :
  stat_min (statistics_of values) = Math_min values.
Proof. reflexivity. Qed.

Lemma stat_max_statistics_of (values : list Q) :
  stat_max (statistics_of values) = Math_max values.
Proof. reflexivity. Qed.

Lemma parse_metric_name (m : Metric) : parse_metric (metric_name m) = Some m.
Proof. destruct m; reflexivity. Qed.

(** C4 (amended).  With no record the handler returns no data point, zero
    for min, max, average and volatility, and a stable trend.  A series of
    one value [x] has min = max = average = [x], volatility 0 and a stable
    trend; that is the series of one record under each of the five
    metrics.  The trend of the empty series is stable as well. *)
Theorem degenerate_series :
  (forall metric,
      let t := trends metric [] in
      data t = []
      /\ stat_min (statistics t) = Fin 0%Q
      /\ stat_max (statistics t) = Fin 0%Q
      /\ average (statistics t) = Fin 0%Q
      /\ volatility (statistics t) = Fin 0%R
      /\ trend (statistics t) = stable)
  /\ trend (statistics_of []) = stable
  /\ (forall x,
        let s := statistics_of [x] in
        stat_min s = Fin x
        /\ stat_max s = Fin x
        /\ same_num (average s) (Fin x)
        /\ volatility s = Fin 0%R
        /\ trend s = stable)
  /\ (forall m entry,
        statistics (trends (metric_name m) [entry])
        = statistics_of [metric_value m entry]).
Proof.
  split; [ intros metric; cbv zeta; repeat split | ].
  split; [ reflexivity | ].
  split.
  - intros x. cbv zeta.
    split; [ reflexivity | ].
    split; [ reflexivity | ].
    split.
    { unfold statistics_of. cbn [average].
      destruct (average_mean x []) as [ a [ Ha1 Ha2 ] ]. rewrite Ha1.
      unfold same_num. rewrite Ha2. unfold mean, total, count. simpl.
      field. }
    split; [ | reflexivity ].
    rewrite volatility_population. f_equal. apply sqrt_of_zero.
    unfold population_variance, mean, total, count, square. simpl. field.
  - intros m entry. unfold trends, metric_values.
    rewrite parse_metric_name. reflexivity.
Qed.

(** C4 as stated fails: the series of one neutral mood entry is [3], and
    its minimum and maximum are 3, not zero. *)
Lemma single_point_extrema_not_zero :
  let moodEntries := [mood_entry_with_sleep "2024-03-01" 8] in
  length (metric_values "mood" moodEntries) = 1%nat
  /\ stat_min (statistics (trends "mood" moodEntries)) = Fin 3%Q
  /\ stat_max (statistics (trends "mood" moodEntries)) = Fin 3%Q
  /\ ~ same_num (stat_min (statistics (trends "mood" moodEntries))) (Fin 0%Q)
  /\ ~ same_num (stat_max (statistics (trends "mood" moodEntries))) (Fin 0%Q).
Proof.
  cbv zeta. unfold trends. cbn [nonempty statistics].
  rewrite stat_min_statistics_of, stat_max_statistics_of.
  split; [ reflexivity | ].
  split; [ reflexivity | ].
  split; [ reflexivity | ].
  split; vm_compute; discriminate.
Qed.

(** A metric outside the five leaves [values] empty while there are
    records: the extrema are then the infinities and the average is not a
    number. *)
Lemma statistics_unknown_metric :
  let t := trends "pulse" [mood_entry_with_sleep "2024-03-01" 8] in
  data t = [("2024-03-01"%string, None)]
  /\ stat_min (statistics t) = PInf
  /\ stat_max (statistics t) = NInf
  /\ average (statistics t) = NaN
  /\ volatility (statistics t) = NaN
  /\ trend (statistics t) = stable.
Proof.
  cbv zeta. repeat split.
Qed.

(** ** C6: the most used tags *)

Lemma first_seen_In (t : string) (l : list string) :
  In t (first_seen l) <-> In t l.
Proof.
  induction l as [ | a l IH ]; simpl; [ tauto | ].
  rewrite filter_In, IH, negb_true_iff, String.eqb_neq.
  destruct (string_dec a t) as [ E | E ]; [ tauto | ].
  split; [ tauto | ]. intros [ H | H ]; [ tauto | ].
  right. split; [ exact H | congruence ].
Qed.

Lemma first_seen_NoDup (l : list string) : NoDup (first_seen l).
Proof.
  induction l as [ | a l IH ]; simpl; constructor.
  - rewrite filter_In, String.eqb_refl. simpl. intros [ _ H ]. discriminate H.
  - apply NoDup_filter. exact IH.
Qed.

Lemma filter_all {A : Type} (p : A -> bool) (l : list A) :
  Forall (fun x => p x = true) l -> filter p l = l.
Proof.
  induction 1 as [ | x l Hx Hl IH ]; simpl; [ reflexivity | ].
  rewrite Hx, IH. reflexivity.
Qed.

Lemma filter_none {A : Type} (p : A -> bool) (l : list A) :
  Forall (fun x => p x = false) l -> filter p l = [].
Proof.
  induction 1 as [ | x l Hx Hl IH ]; simpl; [ reflexivity | ].
  rewrite Hx, IH. reflexivity.
Qed.

Lemma first_seen_snoc (l : list string) (t : string) :
  first_seen (l ++ [t])
  = if in_dec string_dec t l then first_seen l else first_seen l ++ [t].
Proof.
  induction l as [ | a l IH ]; [ reflexivity | ].
  simpl app. simpl first_seen. rewrite IH.
  destruct (in_dec string_dec t l) as [ I | I ];
    destruct (in_dec string_dec t (a :: l)) as [ J | J ].
  - reflexivity.
  - exfalso. apply J. right. exact I.
  - destruct J as [ J | J ]; [ subst a | contradiction ].
    rewrite filter_app. simpl. rewrite String.eqb_refl. simpl.
    rewrite app_nil_r. reflexivity.
  - rewrite filter_app. simpl.
    destruct (t =? a)%string eqn:E.
    + apply String.eqb_eq in E. exfalso. apply J. left. congruence.
    + reflexivity.
Qed.

Lemma occurrences_snoc (l : list string) (t u : string) :
  occurrences (l ++ [t]) u
  = occurrences l u + (if string_dec t u then 1 else 0).
Proof.
  unfold occurrences. rewrite count_occ_app. simpl.
  destruct (string_dec t u); lia.
Qed.

Lemma occurrences_absent (l : list string) (t : string) :
  ~ In t l -> occurrences l t = 0.
Proof.
  intros H. unfold occurrences.
  rewrite (proj1 (count_occ_not_In string_dec l t) H). reflexivity.
Qed.

(** Reading and writing an object whose values are given by a function of
    the key. *)
Lemma obj_get_map {V : Type} (f : string -> V) (keys : list string)
      (t : string) :
  obj_get t (map (fun u => (u, f u)) keys)
  = if in_dec string_dec t keys then Some (f t) else None.
Proof.
  induction keys as [ | k keys IH ]; [ reflexivity | ].
  simpl map. simpl obj_get. rewrite IH.
  destruct (k =? t)%string eqn:E.
  - apply String.eqb_eq in E. subst k.
    destruct (in_dec string_dec t (t :: keys)) as [ I | I ];
      [ reflexivity | exfalso; apply I; left; reflexivity ].
  - apply String.eqb_neq in E.
    destruct (in_dec string_dec t keys) as [ I | I ];
      destruct (in_dec string_dec t (k :: keys)) as [ J | J ];
      try reflexivity.
    + exfalso. apply J. right. exact I.
    + exfalso. destruct J as [ J | J ]; [ congruence | contradiction ].
Qed.

Lemma obj_set_absent {V : Type} (o : object V) (t : string) (v : V) :
  ~ In t (map fst o) -> obj_set t v o = o ++ [(t, v)].
Proof.
  induction o as [ | [ k w ] o IH ]; intros H; [ reflexivity | ].
  simpl in *. destruct (k =? t)%string eqn:E.
  - apply String.eqb_eq in E. exfalso. apply H. left. exact E.
  - rewrite IH; [ reflexivity | ]. intros I. apply H. right. exact I.
Qed.

Lemma obj_set_map {V : Type} (f : string -> V) (keys : list string)
      (t : string) (v : V) :
  NoDup keys -> In t keys ->
  obj_set t v (map (fun u => (u, f u)) keys)
  = map (fun u => (u, if string_dec u t then v else f u)) keys.
Proof.
  induction keys as [ | k keys IH ]; intros N I; [ destruct I | ].
  inversion N as [ | ? ? Nk N' ]; subst.
  simpl map. simpl obj_set. destruct (k =? t)%string eqn:E.
  - apply String.eqb_eq in E. subst k.
    destruct (string_dec t t) as [ _ | C ]; [ | congruence ].
    f_equal. apply map_ext_in. intros u Hu.
    destruct (string_dec u t) as [ -> | _ ]; [ contradiction | reflexivity ].
  - apply String.eqb_neq in E.
    destruct (string_dec k t) as [ C | _ ]; [ contradiction | ].
    f_equal. apply IH; [ exact N' | ].
    destruct I as [ I | I ]; [ contradiction | exact I ].
Qed.

Lemma counted_keys (l : list string) : map fst (counted l) = first_seen l.
Proof.
  unfold counted. rewrite map_map. simpl. apply map_id.
Qed.

(** One turn of the count pass. *)
Lemma count_tag_counted (l : list string) (t : string) :
  inherited t = false ->
  count_tag (counted l) t = Some (counted (l ++ [t])).
Proof.
  intros Ht. unfold count_tag, counted.
  rewrite obj_get_map.
  destruct (in_dec string_dec t (first_seen l)) as [ I | I ].
  - f_equal.
    rewrite obj_set_map by (apply first_seen_NoDup || exact I).
    rewrite first_seen_snoc.
    apply (proj1 (first_seen_In _ _)) in I.
    destruct (in_dec string_dec t l) as [ _ | C ]; [ | contradiction ].
    apply map_ext. intros u. rewrite occurrences_snoc.
    destruct (string_dec u t) as [ -> | N ].
    + destruct (string_dec t t) as [ _ | C ]; [ | congruence ].
      destruct (occurrences l t =? 0) eqn:E; [ | reflexivity ].
      apply Z.eqb_eq in E. rewrite E. reflexivity.
    + destruct (string_dec t u) as [ C | _ ]; [ congruence | ].
      f_equal. lia.
  - rewrite Ht. f_equal.
    rewrite obj_set_absent
      by (rewrite map_map; simpl; rewrite map_id; exact I).
    rewrite first_seen_snoc.
    rewrite first_seen_In in I.
    destruct (in_dec string_dec t l) as [ C | _ ]; [ contradiction | ].
    rewrite map_app. simpl. f_equal.
    + apply map_ext_in. intros u Hu. rewrite occurrences_snoc.
      destruct (string_dec t u) as [ <- | _ ].
      * apply (proj1 (first_seen_In _ _)) in Hu. contradiction.
      * f_equal. lia.
    + rewrite occurrences_snoc, occurrences_absent by exact I.
      destruct (string_dec t t) as [ _ | C ]; [ reflexivity | congruence ].
Qed.

Lemma count_tags_flat (journalEntries : list JournalEntry)
      (acc : option (object Z)) :
  fold_left count_entry_tags journalEntries acc
  = fold_left count_step (all_tags journalEntries) acc.
Proof.
  revert acc. induction journalEntries as [ | e l IH ]; intros acc.
  - reflexivity.
  - unfold all_tags. simpl. rewrite fold_left_app. apply IH.
Qed.

Lemma count_pass_counted (l0 l : list string) :
  Forall (fun t => inherited t = false) l ->
  fold_left count_step l (Some (counted l0)) = Some (counted (l0 ++ l)).
Proof.
  intros H. revert l0. induction H as [ | t l Ht Hl IH ]; intros l0.
  - rewrite app_nil_r. reflexivity.
  - simpl. rewrite count_tag_counted by exact Ht. rewrite IH.
    rewrite <- app_assoc. reflexivity.
Qed.

Lemma count_tags_counted (journalEntries : list JournalEntry) :
  Forall (fun t => inherited t = false) (all_tags journalEntries) ->
  count_tags journalEntries = Some (counted (all_tags journalEntries)).
Proof.
  intros H. unfold count_tags. rewrite count_tags_flat.
  apply (count_pass_counted [] _ H).
Qed.

(** The enumeration order. *)
Lemma partition_perm {A : Type} (p : A -> bool) (l : list A) :
  Permutation (filter p l ++ filter (fun x => negb (p x)) l) l.
Proof.
  induction l as [ | x l IH ]; simpl; [ apply perm_nil | ].
  destruct (p x); simpl.
  - apply perm_skip. exact IH.
  - apply Permutation_sym, Permutation_cons_app, Permutation_sym. exact IH.
Qed.

Lemma own_entries_perm {V : Type} (o : object V) :
  Permutation (own_entries o) o.
Proof.
  unfold own_entries.
  apply perm_trans
    with (l' := filter (fun kv => is_index (fst kv)) o
                ++ filter (fun kv => negb (is_index (fst kv))) o).
  - apply Permutation_app_tail. apply js_sort_perm.
  - apply (partition_perm (fun kv => is_index (fst kv))).
Qed.

Lemma own_entries_no_index {V : Type} (o : object V) :
  Forall (fun t => is_index t = false) (map fst o) -> own_entries o = o.
Proof.
  intros H. unfold own_entries.
  assert (F : Forall (fun kv : string * V => is_index (fst kv) = false) o).
  { rewrite Forall_forall in *. intros kv Hkv. apply H.
    apply in_map. exact Hkv. }
  rewrite (filter_none _ _ F). simpl. apply filter_all.
  rewrite Forall_forall in *. intros kv Hkv. rewrite (F kv Hkv). reflexivity.
Qed.

(** Array indices come first, in ascending order; the other keys follow in
    creation order. *)
Lemma own_entries_order {V : Type} (o : object V) :
  exists indices others,
    own_entries o = indices ++ others
    /\ Forall (fun kv => is_index (fst kv) = true) indices
    /\ StronglySorted (fun a b => index_of (fst a) <= index_of (fst b)) indices
    /\ others = filter (fun kv => negb (is_index (fst kv))) o.
Proof.
  exists (js_sort (fun a b => index_of (fst a) - index_of (fst b))
                  (filter (fun kv => is_index (fst kv)) o)).
  exists (filter (fun kv => negb (is_index (fst kv))) o).
  split; [ reflexivity | ]. split; [ | split; [ | reflexivity ] ].
  - apply Forall_forall. intros kv H. apply js_sort_In in H.
    apply filter_In in H. apply H.
  - pose proof (js_sort_sorted
                  (fun a b : string * V => index_of (fst a) - index_of (fst b)))
      as S.
    eapply StronglySorted_ind
      with (P := fun l => StronglySorted
                            (fun a b => index_of (fst a) <= index_of (fst b)) l);
      [ constructor | | apply S ].
    + intros a l Hl IH Ha. constructor; [ exact IH | ].
      rewrite Forall_forall in *. intros x Hx. specialize (Ha x Hx). lia.
    + intros a b H. lia.
    + intros a b c H1 H2. lia.
Qed.

(** The ranking of an object of counts. *)
Lemma ranking_properties (tagCounts : object Z) :
  let ranking := js_sort (fun a b => snd b - snd a) (own_entries tagCounts) in
  Permutation ranking tagCounts
  /\ StronglySorted (fun a b => snd b <= snd a) ranking
  /\ (forall c, filter (fun kv => snd kv =? c) ranking
                = filter (fun kv => snd kv =? c) (own_entries tagCounts)).
Proof.
  cbv zeta. split; [ | split ].
  - apply perm_trans with (l' := own_entries tagCounts);
      [ apply js_sort_perm | apply own_entries_perm ].
  - pose proof (js_sort_sorted (fun a b : string * Z => snd b - snd a)) as S.
    eapply StronglySorted_ind
      with (P := fun l => StronglySorted (fun a b => snd b <= snd a) l);
      [ constructor | | apply S ].
    + intros a l Hl IH Ha. constructor; [ exact IH | ].
      rewrite Forall_forall in *. intros x Hx. specialize (Ha x Hx). lia.
    + intros a b H. lia.
    + intros a b c H1 H2. lia.
  - intros c. apply js_sort_stable. intros a b Ha Hb.
    apply Z.eqb_eq in Ha, Hb. lia.
Qed.

(** C6 (amended).  When no tag names a member of [Object.prototype]: the
    counting object holds each distinct tag with its number of
    occurrences; the result is the first 10 pairs of a ranking that
    rearranges these pairs in descending order of count and keeps pairs of
    equal count in the enumeration order of the object.  That order puts
    the tags that are array indices first, in ascending numeric order, and
    then the other tags in first-seen order; it is the first-seen order
    when no tag is an array index.  No record gives the empty list, and
    the tags a, b, a, c, b, a give (a,3), (b,2), (c,1). *)
Theorem mostUsedTags_ranking (journalEntries : list JournalEntry) :
  Forall (fun t => inherited t = false) (all_tags journalEntries) ->
  let counts := counted (all_tags journalEntries) in
  (exists ranking,
      mostUsedTags journalEntries = Some (firstn 10 ranking)
      /\ Permutation ranking counts
      /\ StronglySorted (fun a b => snd b <= snd a) ranking
      /\ (forall c, filter (fun kv => snd kv =? c) ranking
                    = filter (fun kv => snd kv =? c) (own_entries counts)))
  /\ (exists indices others,
         own_entries counts = indices ++ others
         /\ Forall (fun kv => is_index (fst kv) = true) indices
         /\ StronglySorted (fun a b => index_of (fst a) <= index_of (fst b))
                           indices
         /\ others = filter (fun kv => negb (is_index (fst kv))) counts)
  /\ (Forall (fun t => is_index t = false) (all_tags journalEntries) ->
      own_entries counts = counts
      /\ mostUsedTags journalEntries
         = Some (ranker_first_seen 10 journalEntries))
  /\ mostUsedTags [] = Some []
  /\ mostUsedTags [journal_with_tags ["a"; "b"; "a"; "c"; "b"; "a"]%string]
     = Some [("a", 3); ("b", 2); ("c", 1)]%string.
Proof.
  intros H. cbv zeta.
  assert (M : mostUsedTags journalEntries
              = Some (rank_tags (counted (all_tags journalEntries)))).
  { unfold mostUsedTags. destruct journalEntries as [ | e l ];
      [ reflexivity | ].
    unfold nonempty. rewrite (count_tags_counted _ H). reflexivity. }
  split; [ | split; [ | split; [ | split; reflexivity ] ] ].
  - exists (js_sort (fun a b => snd b - snd a)
                    (own_entries (counted (all_tags journalEntries)))).
    split; [ exact M | ].
    apply (ranking_properties (counted (all_tags journalEntries))).
  - apply own_entries_order.
  - intros I.
    assert (E : own_entries (counted (all_tags journalEntries))
                = counted (all_tags journalEntries)).
    { apply own_entries_no_index. rewrite counted_keys.
      rewrite Forall_forall in *. intros t Ht. apply I.
      apply first_seen_In. exact Ht. }
    split; [ exact E | ].
    rewrite M. unfold rank_tags, ranker_first_seen. rewrite E. reflexivity.
Qed.

Lemma mostUsedTags_ranking_witness :
  let journalEntries :=
    [journal_with_tags ["a"; "b"]%string; journal_with_tags ["a"; "7"]%string]
  in
  let counts := counted (all_tags journalEntries) in
  (exists ranking,
      mostUsedTags journalEntries = Some (firstn 10 ranking)
      /\ Permutation ranking counts
      /\ StronglySorted (fun a b => snd b <= snd a) ranking
      /\ (forall c, filter (fun kv => snd kv =? c) ranking
                    = filter (fun kv => snd kv =? c) (own_entries counts)))
  /\ (exists indices others,
         own_entries counts = indices ++ others
         /\ Forall (fun kv => is_index (fst kv) = true) indices
         /\ StronglySorted (fun a b => index_of (fst a) <= index_of (fst b))
                           indices
         /\ others = filter (fun kv => negb (is_index (fst kv))) counts)
  /\ (Forall (fun t => is_index t = false) (all_tags journalEntries) ->
      own_entries counts = counts
      /\ mostUsedTags journalEntries
         = Some (ranker_first_seen 10 journalEntries))
  /\ mostUsedTags [] = Some []
  /\ mostUsedTags [journal_with_tags ["a"; "b"; "a"; "c"; "b"; "a"]%string]
     = Some [("a", 3); ("b", 2); ("c", 1)]%string.
Proof.
  apply (mostUsedTags_ranking
           [journal_with_tags ["a"; "b"]%string;
            journal_with_tags ["a"; "7"]%string]).
  repeat constructor.
Defined.

(** C6 as stated fails: of the two tags "b" and "1", each used once, "b" is
    seen first, and the code lists "1" first, an array index being
    enumerated before the other keys. *)
Lemma mostUsedTags_index_tag_first :
  let journalEntries := [journal_with_tags ["b"; "1"]%string] in
  mostUsedTags journalEntries = Some [("1", 1); ("b", 1)]%string
  /\ ranker_first_seen 10 journalEntries = [("b", 1); ("1", 1)]%string
  /\ mostUsedTags journalEntries
     <> Some (ranker_first_seen 10 journalEntries).
Proof.
  cbv zeta. split; [ reflexivity | ]. split; [ reflexivity | ].
  vm_compute. discriminate.
Qed.

(** ** C8: the daily trends *)

Lemma day_field_group (m : Metric) (l : list MoodEntry) (d : string) :
  day_field m (day_group l d) = map (metric_value m) (records_of_day d l).
Proof. destruct m; reflexivity. Qed.

Lemma records_of_day_snoc (d : string) (l : list MoodEntry) (e : MoodEntry) :
  records_of_day d (l ++ [e])
  = records_of_day d l ++ (if string_dec (date e) d then [e] else []).
Proof.
  unfold records_of_day. rewrite filter_app. simpl.
  destruct (string_dec (date e) d) as [ E | E ].
  - rewrite (proj2 (String.eqb_eq _ _) E). reflexivity.
  - rewrite (proj2 (String.eqb_neq _ _) E). reflexivity.
Qed.

Lemma day_group_push (l : list MoodEntry) (e : MoodEntry) :
  day_push e (day_group l (date e)) = day_group (l ++ [e]) (date e).
Proof.
  unfold day_push, day_group. cbn [ds_mood ds_energy ds_stress ds_anxiety ds_sleep].
  rewrite records_of_day_snoc.
  destruct (string_dec (date e) (date e)) as [ _ | C ]; [ | congruence ].
  rewrite !map_app. reflexivity.
Qed.

Lemma day_group_other (l : list MoodEntry) (e : MoodEntry) (d : string) :
  d <> date e -> day_group (l ++ [e]) d = day_group l d.
Proof.
  intros H. unfold day_group. rewrite records_of_day_snoc.
  destruct (string_dec (date e) d) as [ C | _ ]; [ congruence | ].
  rewrite app_nil_r. reflexivity.
Qed.

Lemma records_of_absent_day (d : string) (l : list MoodEntry) :
  ~ In d (map date l) -> records_of_day d l = [].
Proof.
  intros H. apply filter_none. apply Forall_forall. intros e He.
  apply String.eqb_neq. intros E. apply H. rewrite <- E.
  apply in_map. exact He.
Qed.

Lemma obj_get_snoc {V : Type} (o : object V) (k : string) (v : V) :
  ~ In k (map fst o) -> obj_get k (o ++ [(k, v)]) = Some v.
Proof.
  induction o as [ | [ k' w ] o IH ]; intros H; simpl.
  - rewrite String.eqb_refl. reflexivity.
  - simpl in H. destruct (k' =? k)%string eqn:E.
    + apply String.eqb_eq in E. exfalso. apply H. left. exact E.
    + apply IH. intros I. apply H. right. exact I.
Qed.

Lemma obj_set_snoc {V : Type} (o : object V) (k : string) (v v' : V) :
  ~ In k (map fst o) -> obj_set k v' (o ++ [(k, v)]) = o ++ [(k, v')].
Proof.
  induction o as [ | [ k' w ] o IH ]; intros H; simpl.
  - rewrite String.eqb_refl. reflexivity.
  - simpl in H. destruct (k' =? k)%string eqn:E.
    + apply String.eqb_eq in E. exfalso. apply H. left. exact E.
    + rewrite IH; [ reflexivity | ]. intros I. apply H. right. exact I.
Qed.

Lemma grouped_keys (l : list MoodEntry) :
  map fst (grouped l) = first_seen (map date l).
Proof.
  unfold grouped. rewrite map_map. simpl. apply map_id.
Qed.

(** One turn of the grouping loop. *)
Lemma daily_step_grouped (l : list MoodEntry) (e : MoodEntry) :
  daily_step (grouped l) e = Some (grouped (l ++ [e])).
Proof.
  assert (G : obj_get (date e) (grouped l)
              = if in_dec string_dec (date e) (first_seen (map date l))
                then Some (day_group l (date e)) else None)
    by apply obj_get_map.
  unfold daily_step. cbv zeta. rewrite G.
  destruct (in_dec string_dec (date e) (first_seen (map date l))) as [ I | I ].
  - rewrite G.
    destruct (in_dec string_dec (date e) (first_seen (map date l)))
      as [ _ | C ]; [ | contradiction ].
    f_equal. unfold grouped.
    rewrite obj_set_map by (apply first_seen_NoDup || exact I).
    rewrite (map_app date). change (map date [e]) with [date e].
    rewrite first_seen_snoc.
    apply (proj1 (first_seen_In _ _)) in I.
    destruct (in_dec string_dec (date e) (map date l)) as [ _ | C ];
      [ | contradiction ].
    apply map_ext. intros d. f_equal.
    destruct (string_dec d (date e)) as [ -> | N ].
    + apply day_group_push.
    + symmetry. apply day_group_other. exact N.
  - assert (K : ~ In (date e) (map fst (grouped l)))
      by (rewrite grouped_keys; exact I).
    rewrite (obj_set_absent _ _ _ K), (obj_get_snoc _ _ _ K),
      (obj_set_snoc _ _ _ _ K).
    f_equal. unfold grouped.
    rewrite (map_app date). change (map date [e]) with [date e].
    rewrite first_seen_snoc.
    rewrite first_seen_In in I.
    destruct (in_dec string_dec (date e) (map date l)) as [ C | _ ];
      [ contradiction | ].
    rewrite map_app. simpl. f_equal.
    + apply map_ext_in. intros d Hd. f_equal. symmetry.
      apply day_group_other. intros E. subst d.
      apply (proj1 (first_seen_In _ _)) in Hd. contradiction.
    + f_equal. f_equal. rewrite <- day_group_push.
      unfold day_group. rewrite (records_of_absent_day _ _ I). reflexivity.
Qed.

Lemma group_by_day_from (l0 l : list MoodEntry) :
  fold_left
    (fun acc entry =>
       match acc with
       | Some dailyStats => daily_step dailyStats entry
       | None => None
       end)
    l (Some (grouped l0))
  = Some (grouped (l0 ++ l)).
Proof.
  revert l0. induction l as [ | e l IH ]; intros l0.
  - rewrite app_nil_r. reflexivity.
  - simpl. rewrite daily_step_grouped, IH, <- app_assoc. reflexivity.
Qed.

Lemma group_by_day_grouped (l : list MoodEntry) :
  group_by_day l = Some (grouped l).
Proof. apply (group_by_day_from [] l). Qed.

Lemma read_days_grouped (l : list MoodEntry) (dates : list string) :
  Forall (fun d => In d (first_seen (map date l))) dates ->
  read_days (grouped l) dates
  = Some (map (fun d => (d, day_group l d)) dates).
Proof.
  induction 1 as [ | d dates Hd Hdates IH ]; [ reflexivity | ].
  simpl. unfold grouped at 1. rewrite obj_get_map.
  destruct (in_dec string_dec d (first_seen (map date l))) as [ _ | C ];
    [ | contradiction ].
  rewrite IH. reflexivity.
Qed.

(** The default order of strings. *)
Lemma string_cmp_le (a b : string) :
  string_cmp a b <= 0 <-> string_lt a b \/ a = b.
Proof.
  unfold string_cmp, string_lt.
  destruct (String.compare a b) eqn:E.
  - apply String.compare_eq_iff in E. split; [ intros _; right; exact E | lia ].
  - split; [ intros _; left; reflexivity | lia ].
  - split; [ lia | ]. intros [ H | H ]; [ discriminate H | ].
    subst b. assert (R : String.compare a a = Eq)
      by (apply String_as_OT.cmp_eq; reflexivity).
    congruence.
Qed.

Lemma string_cmp_total (a b : string) :
  0 < string_cmp a b -> string_cmp b a <= 0.
Proof.
  unfold string_cmp. rewrite (String.compare_antisym a b).
  destruct (String.compare b a); simpl; lia.
Qed.

Lemma string_cmp_trans (a b c : string) :
  string_cmp a b <= 0 -> string_cmp b c <= 0 -> string_cmp a c <= 0.
Proof.
  rewrite !string_cmp_le. unfold string_lt.
  intros [ H1 | -> ] [ H2 | -> ]; try (left; assumption); try (right; reflexivity).
  left. apply String_as_OT.cmp_lt.
  apply String_as_OT.lt_trans with (y := b); apply String_as_OT.cmp_lt;
    assumption.
Qed.

Lemma sorted_distinct_strict (keys : list string) :
  StronglySorted (fun a b => string_cmp a b <= 0) keys ->
  NoDup keys ->
  StronglySorted string_lt keys.
Proof.
  induction 1 as [ | k keys Hs IH Hk ]; intros N; constructor.
  - apply IH. inversion N; assumption.
  - inversion N as [ | ? ? Nk N' ]; subst.
    rewrite Forall_forall in *. intros x Hx.
    destruct (proj1 (string_cmp_le k x) (Hk x Hx)) as [ L | E ];
      [ exact L | subst x; contradiction ].
Qed.

Lemma sorted_days_perm (l : list MoodEntry) :
  Permutation (sorted_days (grouped l)) (first_seen (map date l)).
Proof.
  unfold sorted_days, own_keys.
  apply perm_trans with (l' := map fst (own_entries (grouped l)));
    [ apply js_sort_perm | ].
  rewrite <- grouped_keys. apply Permutation_map. apply own_entries_perm.
Qed.

Lemma sorted_days_In (l : list MoodEntry) (d : string) :
  In d (sorted_days (grouped l)) <-> In d (map date l).
Proof.
  split; intros H.
  - apply first_seen_In.
    apply (Permutation_in _ (sorted_days_perm l)). exact H.
  - apply (Permutation_in _ (Permutation_sym (sorted_days_perm l))).
    apply first_seen_In. exact H.
Qed.

Lemma daily_series_grouped (m : Metric) (e : MoodEntry) (l : list MoodEntry) :
  daily_series m (e :: l)
  = Some (map (fun d => day_point m (d, day_group (e :: l) d))
              (sorted_days (grouped (e :: l)))).
Proof.
  unfold daily_series, nonempty. rewrite group_by_day_grouped.
  rewrite read_days_grouped.
  - rewrite map_map. reflexivity.
  - apply Forall_forall. intros d Hd. apply first_seen_In.
    apply sorted_days_In. exact Hd.
Qed.

Lemma day_point_mean (m : Metric) (l : list MoodEntry) (d : string) :
  In d (map date l) ->
  exists value,
    snd (day_point m (d, day_group l d)) = Fin value
    /\ (value == mean (map (metric_value m) (records_of_day d l)))%Q.
Proof.
  intros H. unfold day_point. cbn [fst snd]. rewrite day_field_group.
  eexists. split.
  - apply jsdiv_length. apply in_map_iff in H.
    destruct H as [ e [ E He ] ]. intros C.
    assert (I : In (metric_value m e)
                   (map (metric_value m) (records_of_day d l))).
    { apply in_map. apply filter_In. split; [ exact He | ].
      apply String.eqb_eq. exact E. }
    rewrite C in I. destruct I.
  - unfold mean, count. rewrite reduce_sum_total. reflexivity.
Qed.

Lemma daily_series_properties (m : Metric) (moodEntries : list MoodEntry) :
  exists series,
    daily_series m moodEntries = Some series
    /\ NoDup (map fst series)
    /\ (forall d, In d (map fst series) <-> In d (map date moodEntries))
    /\ StronglySorted string_lt (map fst series)
    /\ Forall
         (fun point =>
            exists value,
              snd point = Fin value
              /\ (value
                  == mean (map (metric_value m)
                               (records_of_day (fst point) moodEntries)))%Q)
         series.
Proof.
  destruct moodEntries as [ | e l ].
  - exists []. simpl. repeat split; try tauto; constructor.
  - rewrite daily_series_grouped. eexists. split; [ reflexivity | ].
    rewrite map_map. cbn [day_point fst]. rewrite map_id.
    assert (N : NoDup (sorted_days (grouped (e :: l)))).
    { apply (Permutation_NoDup (Permutation_sym (sorted_days_perm (e :: l)))).
      apply first_seen_NoDup. }
    split; [ exact N | ].
    split; [ intros d; apply sorted_days_In | ].
    split.
    + apply sorted_distinct_strict; [ | exact N ].
      apply js_sort_sorted; [ apply string_cmp_total | apply string_cmp_trans ].
    + apply Forall_forall. intros point Hp. apply in_map_iff in Hp.
      destruct Hp as [ d [ <- Hd ] ].
      apply sorted_days_In in Hd.
      change (fst (day_point m (d, day_group (e :: l) d))) with d.
      apply day_point_mean. exact Hd.
Qed.

(** C8.  The daily series of each metric is produced without failure and
    has one point per distinct day of the input: its days are distinct and
    are exactly the days of the records; they are in ascending order; the
    value of a day is the mean of the metric over the records of that day;
    no record gives the empty series.  The five series of the overview and
    the four of the mood statistics are these series. *)
Theorem daily_series_per_day (m : Metric) (moodEntries : list MoodEntry) :
  (exists series,
      daily_series m moodEntries = Some series
      /\ NoDup (map fst series)
      /\ (forall d, In d (map fst series) <-> In d (map date moodEntries))
      /\ StronglySorted string_lt (map fst series)
      /\ Forall
           (fun point =>
              exists value,
                snd point = Fin value
                /\ (value
                    == mean (map (metric_value m)
                                 (records_of_day (fst point) moodEntries)))%Q)
           series)
  /\ daily_series m [] = Some []
  /\ (exists t,
         overview_trends moodEntries = Some t
         /\ daily_series m_mood moodEntries = Some (ot_mood t)
         /\ daily_series m_energy moodEntries = Some (ot_energy t)
         /\ daily_series m_stress moodEntries = Some (ot_stress t)
         /\ daily_series m_anxiety moodEntries = Some (ot_anxiety t)
         /\ daily_series m_sleep moodEntries = Some (ot_sleep t))
  /\ (exists t,
         stats_trends moodEntries = Some t
         /\ daily_series m_mood moodEntries = Some (st_mood t)
         /\ daily_series m_energy moodEntries = Some (st_energy t)
         /\ daily_series m_stress moodEntries = Some (st_stress t)
         /\ daily_series m_anxiety moodEntries = Some (st_anxiety t)).
Proof.
  split; [ apply daily_series_properties | ].
  split; [ reflexivity | ].
  destruct (daily_series_properties m_mood moodEntries) as [ a [ Ea _ ] ].
  destruct (daily_series_properties m_energy moodEntries) as [ b [ Eb _ ] ].
  destruct (daily_series_properties m_stress moodEntries) as [ c [ Ec _ ] ].
  destruct (daily_series_properties m_anxiety moodEntries) as [ d [ Ed _ ] ].
  destruct (daily_series_properties m_sleep moodEntries) as [ s [ Es _ ] ].
  unfold overview_trends, stats_trends. rewrite Ea, Eb, Ec, Ed, Es.
  split; eexists; repeat split.
Qed.

(** The order of the day keys is the order of the calendar. *)
Section IsoDays.
Local Open Scope N_scope.

Lemma digit_compare (a b : N) :
  a < 10 -> b < 10 ->
  Ascii.compare (digit_char a) (digit_char b) = (a ?= b).
Proof.
  intros Ha Hb. unfold Ascii.compare, digit_char.
  rewrite !N_ascii_embedding by lia.
  destruct (N.compare_spec a b), (N.compare_spec (48 + a) (48 + b));
    try reflexivity; lia.
Qed.

Lemma four_digits_value (y : N) :
  y = 1000 * (y / 1000) + 100 * (y / 100 mod 10) + 10 * (y / 10 mod 10)
      + y mod 10.
Proof.
  pose proof (N.Div0.div_mod y 10) as H0.
  pose proof (N.Div0.div_mod (y / 10) 10) as H1.
  pose proof (N.Div0.div_mod (y / 100) 10) as H2.
  rewrite N.Div0.div_div in H1. rewrite N.Div0.div_div in H2.
  change (10 * 10) with 100 in H1. change (100 * 10) with 1000 in H2.
  lia.
Qed.

Ltac digit_case a b :=
  destruct (N.compare_spec a b);
  [ | split; [ lia | reflexivity ] | split; [ discriminate | lia ] ].

Lemma iso_day_order (y m d y' m' d' : N) :
  y < 10000 -> m < 100 -> d < 100 -> y' < 10000 -> m' < 100 -> d' < 100 ->
  string_lt (iso_day y m d) (iso_day y' m' d')
  <-> (y < y' \/ (y = y' /\ (m < m' \/ (m = m' /\ d < d')))).
Proof.
  intros Hy Hm Hd Hy' Hm' Hd'.
  unfold string_lt, iso_day, four_digits, two_digits.
  cbn [String.compare].
  rewrite !digit_compare.
  all: try (apply N.mod_lt; discriminate).
  all: try (apply N.Div0.div_lt_upper_bound; lia).
  change (Ascii.compare "-" "-") with Eq. cbv iota.
  pose proof (four_digits_value y) as Dy.
  pose proof (four_digits_value y') as Dy'.
  pose proof (N.Div0.div_mod m 10) as Dm.
  pose proof (N.Div0.div_mod m' 10) as Dm'.
  pose proof (N.Div0.div_mod d 10) as Dd.
  pose proof (N.Div0.div_mod d' 10) as Dd'.
  assert (B1 : y / 100 mod 10 < 10) by (apply N.mod_lt; discriminate).
  assert (B2 : y / 10 mod 10 < 10) by (apply N.mod_lt; discriminate).
  assert (B3 : y mod 10 < 10) by (apply N.mod_lt; discriminate).
  assert (B1' : y' / 100 mod 10 < 10) by (apply N.mod_lt; discriminate).
  assert (B2' : y' / 10 mod 10 < 10) by (apply N.mod_lt; discriminate).
  assert (B3' : y' mod 10 < 10) by (apply N.mod_lt; discriminate).
  assert (B4 : m mod 10 < 10) by (apply N.mod_lt; discriminate).
  assert (B4' : m' mod 10 < 10) by (apply N.mod_lt; discriminate).
  assert (B5 : d mod 10 < 10) by (apply N.mod_lt; discriminate).
  assert (B5' : d' mod 10 < 10) by (apply N.mod_lt; discriminate).
  revert Dy Dy' Dm Dm' Dd Dd' B1 B2 B3 B1' B2' B3' B4 B4' B5 B5'.
  generalize (y / 1000), (y / 100 mod 10), (y / 10 mod 10), (y mod 10),
    (y' / 1000), (y' / 100 mod 10), (y' / 10 mod 10), (y' mod 10),
    (m / 10), (m mod 10), (m' / 10), (m' mod 10),
    (d / 10), (d mod 10), (d' / 10), (d' mod 10).
  intros a3 a2 a1 a0 b3 b2 b1 b0 p1 p0 q1 q0 r1 r0 s1 s0. intros.
  digit_case a3 b3. digit_case a2 b2. digit_case a1 b1. digit_case a0 b0.
  digit_case p1 q1. digit_case p0 q0. digit_case r1 s1. digit_case r0 s0.
  simpl. split; [ discriminate | lia ].
Qed.

End IsoDays.

(** ** Further examples *)

Lemma iso_day_example : iso_day 2024 3 1 = "2024-03-01"%string.
Proof. reflexivity. Qed.

Lemma show_int_example : show_int 12 = "12"%string.
Proof. reflexivity. Qed.

(** The trend of [1, 1, 10, 10] is increasing, of [10, 10, 1, 1]
    decreasing, of [5, 5, 5, 5, 5] stable. *)
Lemma trend_examples :
  trend (statistics_of [1; 1; 10; 10]%Q) = increasing
  /\ trend (statistics_of [10; 10; 1; 1]%Q) = decreasing
  /\ trend (statistics_of [5; 5; 5; 5; 5]%Q) = stable.
Proof.
  rewrite !trend_statistics_of. repeat split; vm_compute; reflexivity.
Qed.

(** Where the exact percent change is 5 or -5 the rounding decides: the
    series 6, 7, 7, 6, 6, 7 has half means 20/3 and 19/3 and an exact
    change of -5, the rounded change is below -5 and the trend of the
    code is decreasing; the series 2, 1, 7, 6, 10, 2, 1, 1, 7 has half
    means 4 and 21/5, an exact change of 5, and the trend of the code is
    increasing. *)
Lemma trend_binary64_examples :
  trend_binary64 (map binary64_of_Z [6; 7; 7; 6; 6; 7]) = decreasing
  /\ trend (statistics_of (map inject_Z [6; 7; 7; 6; 6; 7])) = stable
  /\ (percent_change (binary64_of_Z 20 / binary64_of_Z 3)
                     (binary64_of_Z 19 / binary64_of_Z 3) <? -5)%float = true
  /\ trend_binary64 (map binary64_of_Z [2; 1; 7; 6; 10; 2; 1; 1; 7])
     = increasing
  /\ trend (statistics_of (map inject_Z [2; 1; 7; 6; 10; 2; 1; 1; 7]))
     = stable
  /\ trend_binary64 (map binary64_of_Z [1; 1; 10; 10]) = increasing
  /\ trend_binary64 (map binary64_of_Z [10; 10; 1; 1]) = decreasing
  /\ trend_binary64 (map binary64_of_Z [5; 5; 5; 5; 5]) = stable
  /\ trend_binary64 (map binary64_of_Z [0; 0]) = stable.
Proof.
  rewrite !trend_statistics_of. repeat split; vm_compute; reflexivity.
Qed.

(** The walk counts across gaps that grow by one day: a record of
    yesterday and one of three days before today give 2, while records of
    today, yesterday and the day before give 1, and a lone record of five
    days ago gives 0. *)
Lemma writingStreak_examples :
  writingStreak 1700000000000
    [journal_at 1699900000000; journal_at 1699700000000] = 2
  /\ writingStreak 1700000000000
       [journal_at 1699990000000; journal_at 1699900000000;
        journal_at 1699800000000] = 1
  /\ writingStreak 1700000000000 [journal_at 1699500000000] = 0.
Proof. repeat split. Qed.

(** Among equal counts the array indices 9 and 10 precede the tag a seen
    before them, while 01 is no array index; a tag that names an inherited
    member is outside the numeric model. *)
Lemma mostUsedTags_examples :
  mostUsedTags
    [journal_with_tags ["b"; "10"; "9"; "a"; "b"; "01"]%string]
  = Some [("b", 2); ("9", 1); ("10", 1); ("a", 1); ("01", 1)]%string
  /\ mostUsedTags [journal_with_tags ["b"; "toString"]%string] = None.
Proof. split; reflexivity. Qed.

(** The tag __proto__ is passed over: the object is left as it was. *)
Lemma mostUsedTags_proto_example :
  mostUsedTags [journal_with_tags ["__proto__"; "a"; "__proto__"]%string]
  = Some [("a", 1)]%string.
Proof. reflexivity. Qed.

(* ================================================================== *)
(** * Part IV: further properties of the code                          *)
(* ================================================================== *)

(** ** Averages and statistics *)

Lemma count_cons (v : Q) (l : list Q) : (count (v :: l) == 1 + count l)%Q.
Proof.
  unfold count. simpl length. rewrite Nat2Z.inj_succ.
  unfold Z.succ. rewrite inject_Z_plus. ring.
Qed.

Lemma total_bounds (lo hi : Q) (values : list Q) :
  Forall (fun v => (lo <= v <= hi)%Q) values ->
  (lo * count values <= total values <= hi * count values)%Q.
Proof.
  induction 1 as [ | v l Hv Hl IH ].
  - change (count []) with 0%Q. rewrite !Qmult_0_r. simpl total.
    split; apply Qle_refl.
  - rewrite count_cons. simpl total.
    revert IH Hv. generalize (count l), (total l). intros n t IH Hv. lra.
Qed.

Lemma mean_bounds (lo hi : Q) (values : list Q) :
  values <> [] ->
  Forall (fun v => (lo <= v <= hi)%Q) values ->
  (lo <= mean values <= hi)%Q.
Proof.
  intros N F. pose proof (total_bounds lo hi values F) as [ B1 B2 ].
  pose proof (count_pos values N) as P. unfold mean. split.
  - apply Qle_shift_div_l; assumption.
  - apply Qle_shift_div_r; assumption.
Qed.


Lemma total_constant (x : Q) (l : list Q) :
  Forall (fun v => (v == x)%Q) l -> (total l == x * count l)%Q.
Proof.
  induction 1 as [ | v l Hv Hl IH ].
  - unfold count. simpl. ring.
  - rewrite count_cons. simpl total. rewrite IH, Hv. ring.
Qed.

Lemma mean_constant (x : Q) (l : list Q) :
  l <> [] -> Forall (fun v => (v == x)%Q) l -> (mean l == x)%Q.
Proof.
  intros N F. unfold mean. rewrite (total_constant x l F).
  pose proof (count_pos l N) as P. field. lra.
Qed.





Lemma Forall_halves {A : Type} (P : A -> Prop) (n : nat) (l : list A) :
  Forall P l -> Forall P (firstn n l) /\ Forall P (skipn n l).
Proof.
  intros H. rewrite <- (firstn_skipn n l) in H.
  apply Forall_app in H. exact H.
Qed.

Lemma halves_nonempty {A : Type} (x y : A) (rest : list A) :
  firstn (length (x :: y :: rest) / 2) (x :: y :: rest) <> []
  /\ skipn (length (x :: y :: rest) / 2) (x :: y :: rest) <> [].
Proof.
  set (values := x :: y :: rest).
  assert (Hn : (2 <= length values)%nat) by (simpl; lia).
  assert (Hhalf : (1 <= length values / 2 < length values)%nat).
  { split; [ apply Nat.div_le_lower_bound; lia | apply Nat.div_lt; lia ]. }
  split; intros E; apply (f_equal (@length A)) in E.
  - rewrite length_firstn in E. simpl length in E at 3. lia.
  - rewrite length_skipn in E. simpl length in E at 3. lia.
Qed.

(** X3.  A series whose values are all equal has a stable trend, whatever its
    length and whatever the value, zero included. *)
Theorem constant_series_stable (x : Q) (rest : list Q) :
  Forall (fun v => (v == x)%Q) rest ->
  trend (statistics_of (x :: rest)) = stable.
Proof.
  intros H. destruct rest as [ | y rest ]; [ reflexivity | ].
  rewrite trend_statistics_of.
  change (2 <=? length (x :: y :: rest))%nat with true. cbv iota.
  rewrite trend_direction_classify.
  assert (F : Forall (fun v => (v == x)%Q) (x :: y :: rest))
    by (constructor; [ reflexivity | exact H ]).
  destruct (halves_nonempty x y rest) as [ N1 N2 ].
  destruct (Forall_halves _ (length (x :: y :: rest) / 2) _ F) as [ F1 F2 ].
  rewrite (classify_compat _ x _ x
             (mean_constant x _ N1 F1) (mean_constant x _ N2 F2)).
  unfold classify. cbv zeta.
  destruct (Qeq_dec x 0) as [ Z | NZ ].
  - destruct (Qlt_le_dec 0 x); [ exfalso; lra | ].
    destruct (Qlt_le_dec x 0); [ exfalso; lra | reflexivity ].
  - assert (C : ((x - x) / x * 100 == 0)%Q) by (field; exact NZ).
    destruct (Qlt_le_dec 5 ((x - x) / x * 100)) as [ L | L ];
      [ exfalso; rewrite C in L; lra | ].
    destruct (Qlt_le_dec ((x - x) / x * 100) (-5)) as [ L' | L' ];
      [ exfalso; rewrite C in L'; lra | reflexivity ].
Qed.

Lemma constant_series_stable_witness :
  trend (statistics_of [0; 0; 0]%Q) = stable.
Proof.
  apply (constant_series_stable 0 [0; 0]%Q).
  repeat constructor.
Defined.



















Lemma moodScore_range (e : MoodEntry) :
  (1 <= metric_value m_mood e <= 5)%Q.
Proof.
  unfold metric_value, entry_moodScore.
  destruct (mood e); simpl; split; discriminate.
Qed.

(** X5.  The average mood of a non-empty record set lies between 1 and 5. *)
Theorem averageMood_range (e : MoodEntry) (l : list MoodEntry) :
  exists a, averageMood (e :: l) = Fin a /\ (1 <= a <= 5)%Q.
Proof.
  unfold averageMood, average_of, nonempty. cbv zeta.
  rewrite jsdiv_length by discriminate.
  eexists. split; [ reflexivity | ].
  assert (B : (1 <= mean (map (metric_value m_mood) (e :: l)) <= 5)%Q).
  { apply mean_bounds; [ discriminate | ].
    apply Forall_forall. intros v Hv. apply in_map_iff in Hv.
    destruct Hv as [ e' [ <- _ ] ]. apply moodScore_range. }
  unfold mean, count in B. rewrite <- reduce_sum_total in B. exact B.
Qed.

Lemma data_points_from (f : MoodEntry -> Q) (entries : list MoodEntry)
      (pre : list Q) :
  map (fun ie => (date (snd ie), nth_error (pre ++ map f entries) (fst ie)))
      (combine (seq (length pre) (length entries)) entries)
  = map (fun e => (date e, Some (f e))) entries.
Proof.
  revert pre. induction entries as [ | e l IH ]; intros pre; [ reflexivity | ].
  simpl. f_equal.
  - f_equal. rewrite nth_error_app2 by lia. rewrite Nat.sub_diag. reflexivity.
  - specialize (IH (pre ++ [f e])). rewrite length_app in IH. simpl in IH.
    rewrite Nat.add_1_r in IH. rewrite <- app_assoc in IH. exact IH.
Qed.

Lemma data_points_undefined (entries : list MoodEntry) (k : nat) :
  map (fun ie => (date (snd ie), nth_error (@nil Q) (fst ie)))
      (combine (seq k (length entries)) entries)
  = map (fun e => (date e, None)) entries.
Proof.
  revert k. induction entries as [ | e l IH ]; intros k; [ reflexivity | ].
  simpl. f_equal.
  - f_equal. destruct k; reflexivity.
  - apply IH.
Qed.

(** X6.  The data points of the trends follow the records one for one, each
    with the day and the metric value of its own record; under a metric
    name outside the five, every point still has its day and its value is
    undefined. *)
Theorem trends_data_points (metric : string) (moodEntries : list MoodEntry) :
  data (trends metric moodEntries)
  = match parse_metric metric with
    | Some m => map (fun e => (date e, Some (metric_value m e))) moodEntries
    | None => map (fun e => (date e, None)) moodEntries
    end.
Proof.
  unfold trends, metric_values.
  destruct moodEntries as [ | e l ].
  - destruct (parse_metric metric); reflexivity.
  - unfold nonempty. cbn [data]. unfold data_points.
    destruct (parse_metric metric) as [ m | ].
    + apply (data_points_from (metric_value m) (e :: l) []).
    + apply data_points_undefined.
Qed.

(** ** The writing streak *)

Lemma streak_loop_bounds (l : list JournalEntry) (streak currentDate : Z) :
  streak <= streak_loop l streak currentDate
  <= streak + Z.of_nat (length l).
Proof.
  revert streak currentDate.
  induction l as [ | e l IH ]; intros streak currentDate.
  - simpl. lia.
  - cbn [streak_loop]. cbv zeta.
    destruct ((ceil_div (currentDate - setHours0 (jdate e)) msPerDay
               =? streak + 1)
              || ((streak =? 0)
                  && (ceil_div (currentDate - setHours0 (jdate e)) msPerDay
                      <=? 1))).
    + specialize (IH (streak + 1) (setHours0 (jdate e))).
      simpl length. lia.
    + simpl length. lia.
Qed.

(** X7.  The streak is never negative and never exceeds the number of
    entries. *)
Theorem writingStreak_bounds (now : Z) (journalEntries : list JournalEntry) :
  0 <= writingStreak now journalEntries
  <= Z.of_nat (length journalEntries).
Proof.
  unfold writingStreak. destruct (nonempty journalEntries); [ | lia ].
  pose proof (streak_loop_bounds
                (js_sort (fun a b => jdate b - jdate a) journalEntries)
                0 (setHours0 now)) as B.
  rewrite (Permutation_length
             (js_sort_perm (fun a b => jdate b - jdate a) journalEntries))
    in B.
  cbv zeta. lia.
Qed.

Lemma setHours0_multiple (t : Z) : setHours0 t = msPerDay * (t / msPerDay).
Proof.
  unfold setHours0. pose proof (Z_div_mod_eq_full t msPerDay). lia.
Qed.

Lemma setHours0_monotone (t t' : Z) : t <= t' -> setHours0 t <= setHours0 t'.
Proof.
  intros H. rewrite !setHours0_multiple.
  apply Z.mul_le_mono_nonneg_l; [ discriminate | ].
  apply Z.div_le_mono; [ reflexivity | exact H ].
Qed.

(** Between two midnights the number of days is the difference of the day
    numbers. *)
Lemma ceiling_midnights (t t' : Z) :
  ceiling (setHours0 t - setHours0 t') msPerDay
  = t / msPerDay - t' / msPerDay.
Proof.
  rewrite !setHours0_multiple. unfold ceiling.
  replace (msPerDay * (t / msPerDay) - msPerDay * (t' / msPerDay))
    with ((t / msPerDay - t' / msPerDay) * msPerDay) by ring.
  rewrite Z.mod_mul by discriminate. simpl.
  apply Z.div_mul. discriminate.
Qed.

Lemma sorted_head_latest (sorted : list JournalEntry) (h : JournalEntry)
      (l : list JournalEntry) (e : JournalEntry) :
  js_sort (fun a b => jdate b - jdate a) sorted = h :: l ->
  In e sorted -> jdate e <= jdate h.
Proof.
  intros E He.
  pose proof (js_sort_sorted (fun a b : JournalEntry => jdate b - jdate a))
    as S.
  assert (S' : StronglySorted (fun a b => jdate b - jdate a <= 0) (h :: l)).
  { rewrite <- E. apply S; intros; lia. }
  apply (js_sort_In (fun a b => jdate b - jdate a)) in He. rewrite E in He.
  destruct He as [ <- | He ]; [ lia | ].
  inversion S' as [ | ? ? _ F ]; subst. rewrite Forall_forall in F.
  specialize (F e He). lia.
Qed.

(** X8.  The streak is zero exactly when every entry lies more than one day
    before the midnight of today; one entry of today, of yesterday or of a
    later day is enough for a streak of at least 1. *)
Theorem writingStreak_zero_iff (now : Z) (journalEntries : list JournalEntry) :
  writingStreak now journalEntries = 0
  <-> (forall entry, In entry journalEntries ->
         1 < ceiling (setHours0 now - setHours0 (jdate entry)) msPerDay).
Proof.
  split; [ | apply writingStreak_far ].
  intros H entry He.
  destruct (Z_lt_le_dec 1
              (ceiling (setHours0 now - setHours0 (jdate entry)) msPerDay))
    as [ L | L ]; [ exact L | exfalso ].
  unfold writingStreak in H.
  destruct journalEntries as [ | e0 l0 ]; [ destruct He | ].
  unfold nonempty in H. cbv zeta in H.
  destruct (js_sort (fun a b => jdate b - jdate a) (e0 :: l0))
    as [ | h l ] eqn:E.
  - apply (js_sort_In (fun a b => jdate b - jdate a)) in He.
    rewrite E in He. destruct He.
  - pose proof (sorted_head_latest (e0 :: l0) h l entry E He) as Hh.
    rewrite ceiling_midnights in L.
    cbn [streak_loop] in H. cbv zeta in H.
    rewrite ceil_div_ceiling, ceiling_midnights in H by reflexivity.
    assert (D : jdate entry / msPerDay <= jdate h / msPerDay)
      by (apply Z.div_le_mono; [ reflexivity | exact Hh ]).
    assert (C : (now / msPerDay - jdate h / msPerDay =? 0 + 1)
                || ((0 =? 0)
                    && (now / msPerDay - jdate h / msPerDay <=? 1)) = true).
    { apply orb_true_iff. right. apply andb_true_iff. split;
        [ reflexivity | apply Z.leb_le; lia ]. }
    rewrite C in H.
    pose proof (streak_loop_bounds l (0 + 1) (setHours0 (jdate h))) as B.
    lia.
Qed.

(** The streak in a time zone; in UTC it is the streak above. *)
Lemma setHours0_in_UTC (t : Z) : setHours0_in UTC t = setHours0 t.
Proof.
  unfold setHours0_in, UTC_time, local_day, LocalTime, Day, setHours0. simpl.
  pose proof (Z_div_mod_eq_full t msPerDay). rewrite Z.add_0_r. lia.
Qed.

Lemma streak_loop_in_UTC (l : list JournalEntry) (streak currentDate : Z) :
  streak_loop_in UTC l streak currentDate = streak_loop l streak currentDate.
Proof.
  revert streak currentDate.
  induction l as [ | e l IH ]; intros streak currentDate; [ reflexivity | ].
  cbn [streak_loop_in streak_loop]. cbv zeta.
  rewrite setHours0_in_UTC, IH. reflexivity.
Qed.

Lemma writingStreak_in_UTC (now : Z) (journalEntries : list JournalEntry) :
  writingStreak_in UTC now journalEntries = writingStreak now journalEntries.
Proof.
  unfold writingStreak_in, writingStreak.
  destruct (nonempty journalEntries); [ | reflexivity ].
  cbv zeta. rewrite streak_loop_in_UTC, setHours0_in_UTC. reflexivity.
Qed.

Lemma streak_loop_in_dates (zone : TimeZone) (l l' : list JournalEntry)
      (streak currentDate : Z) :
  map jdate l = map jdate l' ->
  streak_loop_in zone l streak currentDate
  = streak_loop_in zone l' streak currentDate.
Proof.
  revert l' streak currentDate.
  induction l as [ | e l IH ]; intros [ | e' l' ] streak currentDate H;
    try discriminate H; [ reflexivity | ].
  simpl in H. injection H as He Hl.
  cbn [streak_loop_in]. cbv zeta. rewrite He, (IH l' _ _ Hl). reflexivity.
Qed.

Lemma streak_loop_in_bounds (zone : TimeZone) (l : list JournalEntry)
      (streak currentDate : Z) :
  streak <= streak_loop_in zone l streak currentDate.
Proof.
  revert streak currentDate.
  induction l as [ | e l IH ]; intros streak currentDate.
  - simpl. lia.
  - cbn [streak_loop_in]. cbv zeta.
    match goal with |- _ <= if ?c then _ else _ => destruct c end.
    + specialize (IH (streak + 1) (setHours0_in zone (jdate e))). lia.
    + lia.
Qed.

(** X9.  In whatever time zone, a streak of 2 or more occurs only when the
    latest entry is at most one day before the midnight of today and the
    midnights of the two most recent entries are more than one and at
    most two days of 24 hours apart; when the zone has the same offset at
    both midnights, the second most recent entry is of the calendar day
    two days before the latest.  Entries of one day, and entries of
    consecutive days 24 hours apart, never give a streak above 1. *)
Theorem writingStreak_above_one
    (zone : TimeZone) (now : Z) (journalEntries : list JournalEntry)
    (latest second : JournalEntry) (others : list JournalEntry) :
  Permutation (latest :: second :: others) journalEntries ->
  StronglySorted (fun a b => jdate b <= jdate a)
                 (latest :: second :: others) ->
  2 <= writingStreak_in zone now journalEntries ->
  let midnight := setHours0_in zone in
  midnight now - midnight (jdate latest) <= msPerDay
  /\ msPerDay < midnight (jdate latest) - midnight (jdate second)
     <= 2 * msPerDay
  /\ (offset_of_local zone (local_day zone (jdate latest) * msPerDay)
      = offset_of_local zone (local_day zone (jdate second) * msPerDay) ->
      local_day zone (jdate latest) - local_day zone (jdate second) = 2).
Proof.
  intros P S H. cbv zeta.
  unfold writingStreak_in in H.
  destruct journalEntries as [ | e0 l0 ];
    [ apply Permutation_sym, Permutation_nil in P; discriminate P | ].
  unfold nonempty in H. cbv zeta in H.
  rewrite (streak_loop_in_dates zone _ (latest :: second :: others)) in H
    by (apply sorted_dates_unique; assumption).
  cbn [streak_loop_in] in H. cbv zeta in H.
  rewrite !ceil_div_ceiling in H by reflexivity.
  set (d1 := ceiling (setHours0_in zone now - setHours0_in zone (jdate latest))
                     msPerDay) in *.
  set (d2 := ceiling (setHours0_in zone (jdate latest)
                      - setHours0_in zone (jdate second)) msPerDay) in *.
  pose proof (ceiling_least (setHours0_in zone now
                             - setHours0_in zone (jdate latest)) msPerDay
                            eq_refl) as C1.
  pose proof (ceiling_least (setHours0_in zone (jdate latest)
                             - setHours0_in zone (jdate second)) msPerDay
                            eq_refl) as C2.
  fold d1 in C1. fold d2 in C2.
  assert (D : msPerDay = 86400000) by reflexivity.
  destruct ((d1 =? 0 + 1) || ((0 =? 0) && (d1 <=? 1))) eqn:E1;
    [ | exfalso; lia ].
  assert (L1 : d1 <= 1).
  { apply orb_true_iff in E1. destruct E1 as [ E1 | E1 ].
    - apply Z.eqb_eq in E1. lia.
    - apply andb_true_iff in E1. destruct E1 as [ _ E1 ].
      apply Z.leb_le in E1. exact E1. }
  destruct ((d2 =? 0 + 1 + 1) || ((0 + 1 =? 0) && (d2 <=? 1))) eqn:E2;
    [ | exfalso; lia ].
  assert (L2 : d2 = 2).
  { apply orb_true_iff in E2. destruct E2 as [ E2 | E2 ].
    - apply Z.eqb_eq in E2. lia.
    - apply andb_true_iff in E2. destruct E2 as [ E2 _ ]. discriminate E2. }
  split; [ nia | ]. split; [ nia | ].
  intros O. unfold setHours0_in, UTC_time in C2. rewrite O in C2.
  rewrite L2 in C2. nia.
Qed.

Lemma writingStreak_above_one_witness :
  let zone := America_New_York_2023 in
  let latest := journal_at 1699279200000 in
  let second := journal_at 1699196400000 in
  let midnight := setHours0_in zone in
  midnight 1699282800000 - midnight (jdate latest) <= msPerDay
  /\ msPerDay < midnight (jdate latest) - midnight (jdate second)
     <= 2 * msPerDay
  /\ (offset_of_local zone (local_day zone (jdate latest) * msPerDay)
      = offset_of_local zone (local_day zone (jdate second) * msPerDay) ->
      local_day zone (jdate latest) - local_day zone (jdate second) = 2).
Proof.
  apply (writingStreak_above_one America_New_York_2023 1699282800000
           [journal_at 1699196400000; journal_at 1699279200000]
           (journal_at 1699279200000) (journal_at 1699196400000) []).
  - apply perm_swap.
  - repeat constructor; simpl; lia.
  - vm_compute. discriminate.
Defined.

(** On the day after daylight saving time ends in New York the midnights
    of today and of yesterday are 25 hours apart, which the loop rounds up
    to two days: entries of today and of yesterday give a streak of 2
    there, and of 1 in UTC. *)
Lemma writingStreak_long_day :
  let zone := America_New_York_2023 in
  let now := 1699282800000 in              (* 2023-11-06 10:00 local *)
  let today := journal_at 1699279200000 in (* 2023-11-06 09:00 local *)
  let yesterday := journal_at 1699196400000 in (* 2023-11-05 10:00 local *)
  local_day zone (jdate today) = local_day zone now
  /\ local_day zone (jdate yesterday) = local_day zone now - 1
  /\ setHours0_in zone now - setHours0_in zone (jdate yesterday)
     = 25 * msPerHour
  /\ writingStreak_in zone now [today; yesterday] = 2
  /\ writingStreak_in UTC now [today; yesterday] = 1.
Proof. repeat split. Qed.

(** ** The insights *)

Lemma insights_as_table
      (meanMood meanSleep meanStress : jsnum)
      (topActivities : list TopActivity) (streak entryCount : Z) :
  insights_and_recommendations meanMood meanSleep meanStress topActivities
                               streak entryCount
  = (table_insights
       (rule_table meanMood meanSleep meanStress (hd_error topActivities)
                   streak entryCount),
     table_recommendations
       (rule_table meanMood meanSleep meanStress (hd_error topActivities)
                   streak entryCount)).
Proof.
  unfold insights_and_recommendations, table_insights,
    table_recommendations, rule_table, appended.
  cbn [flat_map condition insight recommendation].
  destruct (jslt meanMood (Fin 3%Q)) eqn:E1;
    [ rewrite (jslt_3_not_jsgt_4 _ E1) | destruct (jsgt meanMood (Fin 4%Q)) ];
    destruct (jslt meanSleep (Fin 7%Q)), (jsgt meanStress (Fin 7%Q)),
      topActivities as [ | a l ]; cbn [hd_error option_map app];
    destruct (7 <? streak) eqn:E7;
    try (apply Z.ltb_lt in E7;
         replace (streak =? 0) with false by (symmetry; apply Z.eqb_neq; lia));
    cbn [andb app];
    try destruct ((streak =? 0) && (0 <? entryCount));
    reflexivity.
Qed.

Ltac split_membership :=
  repeat match goal with
         | H : In _ (_ :: _) |- _ => destruct H as [ H | H ]
         | H : In _ [] |- _ => destruct H
         | H : (_ = _ :> string) |- _ => discriminate H
         end.

(** X10.  The engine never reports a low mood together with a great mood, never
    celebrates a streak while recommending to write daily, and gives at
    most five insights and at most five recommendations. *)
Theorem insights_never_contradict
      (meanMood meanSleep meanStress : jsnum)
      (topActivities : list TopActivity) (streak entryCount : Z) :
  let r := insights_and_recommendations meanMood meanSleep meanStress
             topActivities streak entryCount in
  ~ (In low_mood_insight (fst r) /\ In great_mood_insight (fst r))
  /\ ~ (In (streak_insight streak) (fst r)
        /\ In write_daily_recommendation (snd r))
  /\ (length (fst r) <= 5)%nat
  /\ (length (snd r) <= 5)%nat.
Proof.
  cbv zeta. rewrite insights_as_table.
  unfold table_insights, table_recommendations, rule_table, appended.
  cbn [flat_map condition insight recommendation fst snd].
  destruct (jslt meanMood (Fin 3%Q)) eqn:E1;
    [ rewrite (jslt_3_not_jsgt_4 _ E1) | destruct (jsgt meanMood (Fin 4%Q)) ];
    destruct (jslt meanSleep (Fin 7%Q)), (jsgt meanStress (Fin 7%Q)),
      (hd_error topActivities) as [ a | ]; cbn [option_map app];
    destruct (7 <? streak) eqn:E7;
    try (apply Z.ltb_lt in E7;
         replace (streak =? 0) with false by (symmetry; apply Z.eqb_neq; lia));
    cbn [andb app];
    try destruct ((streak =? 0) && (0 <? entryCount));
    cbn [app length];
    (split; [ intros [ H1 H2 ]; split_membership
            | split; [ intros [ H1 H2 ]; split_membership
                     | split; lia ] ]).
Qed.

(** X11.  With no mood entry in the period the averages are zero, and the
    overview reports a low mood and too little sleep, with their
    recommendations, whatever the activities and the journal. *)
Theorem overview_without_mood_entries
      (now : Z) (activities : list Activity)
      (journalEntries : list JournalEntry) :
  let r := overview_insights now [] activities journalEntries in
  In low_mood_insight (fst r)
  /\ In sleep_insight (fst r)
  /\ In low_mood_recommendation (snd r)
  /\ In sleep_recommendation (snd r).
Proof.
  cbv zeta. unfold overview_insights. rewrite insights_as_table.
  unfold table_insights, table_recommendations, rule_table, appended.
  cbn [flat_map condition insight recommendation fst snd].
  change (jslt (averageMood []) (Fin 3%Q)) with true.
  change (jslt (averageSleep []) (Fin 7%Q)) with true.
  change (jsgt (averageMood []) (Fin 4%Q)) with false.
  cbn [app].
  repeat split;
    first [ left; reflexivity | right; left; reflexivity ].
Qed.

Lemma nonempty_totalEntries {A : Type} (l : list A) :
  (0 <? totalEntries l) = nonempty l.
Proof.
  destruct l as [ | x l ]; [ reflexivity | ].
  unfold totalEntries, nonempty. apply Z.ltb_lt. simpl length. lia.
Qed.

Lemma write_daily_rule
      (meanMood meanSleep meanStress : jsnum)
      (topActivities : list TopActivity) (streak entryCount : Z) :
  In write_daily_recommendation
     (snd (insights_and_recommendations meanMood meanSleep meanStress
             topActivities streak entryCount))
  <-> (streak =? 0) && (0 <? entryCount) = true.
Proof.
  rewrite insights_as_table.
  unfold table_recommendations, rule_table, appended.
  cbn [flat_map condition insight recommendation fst snd].
  destruct (jslt meanMood (Fin 3%Q)), (jsgt meanMood (Fin 4%Q)),
    (jslt meanSleep (Fin 7%Q)), (jsgt meanStress (Fin 7%Q)),
    (hd_error topActivities) as [ a | ];
    cbn [option_map app];
    destruct (7 <? streak) eqn:E7;
    try (apply Z.ltb_lt in E7;
         replace (streak =? 0) with false by (symmetry; apply Z.eqb_neq; lia));
    cbn [andb app];
    try destruct ((streak =? 0) && (0 <? entryCount));
    cbn [app];
    (split;
     [ intros H; split_membership; reflexivity
     | intros H; try discriminate H;
       repeat (first [ left; reflexivity | right ]) ]).
Qed.

(** X12.  The overview recommends to write daily exactly when the period has
    journal entries and all of them lie more than one day before the
    midnight of today. *)
Theorem write_daily_recommended_iff
      (now : Z) (moodEntries : list MoodEntry) (activities : list Activity)
      (journalEntries : list JournalEntry) :
  In write_daily_recommendation
     (snd (overview_insights now moodEntries activities journalEntries))
  <-> journalEntries <> []
      /\ (forall entry, In entry journalEntries ->
            1 < ceiling (setHours0 now - setHours0 (jdate entry)) msPerDay).
Proof.
  rewrite <- writingStreak_zero_iff.
  unfold overview_insights. rewrite write_daily_rule.
  rewrite nonempty_totalEntries, andb_true_iff, Z.eqb_eq.
  assert (N : nonempty journalEntries = true <-> journalEntries <> []).
  { destruct journalEntries; simpl; split; congruence. }
  rewrite N. tauto.
Qed.

(** ** Counting objects *)

Lemma total_counts_set (o : object Z) (t : string) (v : Z) :
  total_counts (obj_set t v o)
  = total_counts o
    - match obj_get t o with Some n => n | None => 0 end
    + v.
Proof.
  induction o as [ | [ k w ] o IH ]; simpl.
  - lia.
  - destruct (k =? t)%string; simpl; lia.
Qed.

Lemma count_tag_total (o o' : object Z) (t : string) :
  inherited t = false ->
  count_tag o t = Some o' -> total_counts o' = total_counts o + 1.
Proof.
  intros I. unfold count_tag. rewrite I.
  destruct (obj_get t o) as [ n | ] eqn:G.
  - intros H. injection H as <-. rewrite total_counts_set, G.
    destruct (n =? 0) eqn:E; [ apply Z.eqb_eq in E | ]; lia.
  - intros H. injection H as <-. rewrite total_counts_set, G. lia.
Qed.

Lemma count_pass_none (l : list string) : fold_left count_step l None = None.
Proof. induction l as [ | t l IH ]; [ reflexivity | exact IH ]. Qed.

Lemma count_pass_total (l : list string) (o o' : object Z) :
  Forall (fun t => inherited t = false) l ->
  fold_left count_step l (Some o) = Some o' ->
  total_counts o' = total_counts o + Z.of_nat (length l).
Proof.
  intros F. revert o. induction F as [ | t l Ht Hl IH ]; intros o H.
  - injection H as <-. simpl. lia.
  - cbn [fold_left count_step] in H.
    destruct (count_tag o t) as [ o1 | ] eqn:C.
    + rewrite (IH o1 H), (count_tag_total o o1 t Ht C). simpl length. lia.
    + rewrite count_pass_none in H. discriminate H.
Qed.

Lemma obj_get_set_other {V : Type} (o : object V) (k t : string) (v : V) :
  k <> t -> obj_get k (obj_set t v o) = obj_get k o.
Proof.
  intros N. induction o as [ | [ k' w ] o IH ]; simpl.
  - destruct (t =? k)%string eqn:E; [ | reflexivity ].
    apply String.eqb_eq in E. congruence.
  - destruct (k' =? t)%string eqn:E; simpl.
    + apply String.eqb_eq in E. subst k'.
      destruct (t =? k)%string eqn:E'; [ | reflexivity ].
      apply String.eqb_eq in E'. congruence.
    + rewrite IH. reflexivity.
Qed.

(** One turn of the count pass on an object without a property
    [__proto__] of its own: the tag [__proto__] leaves the object as it is,
    any other tag that is counted adds one. *)
Lemma count_tag_proto (o o' : object Z) (t : string) :
  obj_get "__proto__" o = None ->
  count_tag o t = Some o' ->
  obj_get "__proto__" o' = None
  /\ total_counts o'
     = total_counts o + (if (t =? "__proto__")%string then 0 else 1).
Proof.
  intros P. unfold count_tag.
  destruct (t =? "__proto__")%string eqn:E.
  - apply String.eqb_eq in E. subst t. rewrite P. simpl.
    intros H. injection H as <-. split; [ exact P | lia ].
  - assert (N : "__proto__"%string <> t)
      by (intros <-; rewrite String.eqb_refl in E; discriminate E).
    destruct (obj_get t o) as [ n | ] eqn:G.
    + intros H. injection H as <-. split.
      * rewrite obj_get_set_other by exact N. exact P.
      * rewrite total_counts_set, G.
        destruct (n =? 0) eqn:E0; [ apply Z.eqb_eq in E0 | ]; lia.
    + destruct (inherited t); [ discriminate | ].
      intros H. injection H as <-. split.
      * rewrite obj_get_set_other by exact N. exact P.
      * rewrite total_counts_set, G. lia.
Qed.

Lemma count_pass_proto (l : list string) (o o' : object Z) :
  obj_get "__proto__" o = None ->
  fold_left count_step l (Some o) = Some o' ->
  obj_get "__proto__" o' = None
  /\ total_counts o'
     = total_counts o
       + Z.of_nat (length (filter (fun t => negb (t =? "__proto__")%string)
                                  l)).
Proof.
  revert o. induction l as [ | t l IH ]; intros o P H.
  - injection H as <-. simpl. split; [ exact P | lia ].
  - cbn [fold_left count_step] in H.
    destruct (count_tag o t) as [ o1 | ] eqn:C.
    + destruct (count_tag_proto o o1 t P C) as [ P1 T1 ].
      destruct (IH o1 P1 H) as [ P' T' ]. split; [ exact P' | ].
      rewrite T', T1. cbn [filter].
      destruct (t =? "__proto__")%string; simpl negb; cbv iota;
        [ | simpl length ]; lia.
    + rewrite count_pass_none in H. discriminate H.
Qed.

(** X13.  When the count pass ends with numeric counts, the tag object has
    no count for [__proto__], and its counts add up to the number of the
    entries' tags other than [__proto__]: an occurrence of that tag is
    passed over without a trace. *)
Theorem tag_counts_total
      (journalEntries : list JournalEntry) (tagCounts : object Z) :
  count_tags journalEntries = Some tagCounts ->
  obj_get "__proto__" tagCounts = None
  /\ total_counts tagCounts
     = Z.of_nat (length (filter (fun tag => negb (tag =? "__proto__")%string)
                                (all_tags journalEntries))).
Proof.
  unfold count_tags. rewrite count_tags_flat. intros H.
  destruct (count_pass_proto _ [] tagCounts eq_refl H) as [ P T ].
  split; [ exact P | ]. rewrite T. reflexivity.
Qed.

Lemma tag_counts_total_witness :
  obj_get "__proto__" [("a", 2); ("b", 1)]%string = None
  /\ total_counts [("a", 2); ("b", 1)]%string
     = Z.of_nat
         (length
            (filter (fun tag => negb (tag =? "__proto__")%string)
                    (all_tags
                       [journal_with_tags ["a"; "__proto__"; "b"]%string;
                        journal_with_tags ["__proto__"; "a"]%string]))).
Proof.
  apply (tag_counts_total
           [journal_with_tags ["a"; "__proto__"; "b"]%string;
            journal_with_tags ["__proto__"; "a"]%string]).
  reflexivity.
Defined.

Lemma NoDup_firstn {A : Type} (n : nat) (l : list A) :
  NoDup l -> NoDup (firstn n l).
Proof.
  intros H. rewrite <- (firstn_skipn n l) in H.
  apply NoDup_app_remove_r in H. exact H.
Qed.

Lemma In_firstn {A : Type} (n : nat) (l : list A) (x : A) :
  In x (firstn n l) -> In x l.
Proof.
  intros H. rewrite <- (firstn_skipn n l). apply in_or_app. left. exact H.
Qed.

(** X14.  The ranking never lists more than 10 tags and never lists a tag
    twice; each listed count is the number of occurrences of its tag among
    the tags of the entries, and is at least 1. *)
Theorem mostUsedTags_wellformed (journalEntries : list JournalEntry) :
  Forall (fun t => inherited t = false) (all_tags journalEntries) ->
  exists ranked,
    mostUsedTags journalEntries = Some ranked
    /\ (length ranked <= 10)%nat
    /\ NoDup (map fst ranked)
    /\ Forall (fun kv =>
                 In (fst kv) (all_tags journalEntries)
                 /\ snd kv = occurrences (all_tags journalEntries) (fst kv)
                 /\ 1 <= snd kv)
              ranked.
Proof.
  intros H.
  assert (M : mostUsedTags journalEntries
              = Some (rank_tags (counted (all_tags journalEntries)))).
  { unfold mostUsedTags. destruct journalEntries as [ | e l ];
      [ reflexivity | ].
    unfold nonempty. rewrite (count_tags_counted _ H). reflexivity. }
  exists (rank_tags (counted (all_tags journalEntries))).
  split; [ exact M | ].
  destruct (ranking_properties (counted (all_tags journalEntries)))
    as [ P _ ].
  unfold rank_tags. split; [ apply firstn_le_length | ]. split.
  - rewrite <- firstn_map. apply NoDup_firstn.
    apply (Permutation_NoDup (Permutation_sym (Permutation_map fst P))).
    rewrite counted_keys. apply first_seen_NoDup.
  - apply Forall_forall. intros kv Hkv. apply In_firstn in Hkv.
    apply (Permutation_in _ P) in Hkv. unfold counted in Hkv.
    apply in_map_iff in Hkv. destruct Hkv as [ t [ <- Ht ] ].
    apply (proj1 (first_seen_In _ _)) in Ht. cbn [fst snd].
    split; [ exact Ht | ]. split; [ reflexivity | ].
    unfold occurrences.
    pose proof (proj1 (count_occ_In string_dec _ _) Ht). lia.
Qed.

Lemma mostUsedTags_wellformed_witness :
  exists ranked,
    mostUsedTags [journal_with_tags ["a"; "b"; "a"]%string] = Some ranked
    /\ (length ranked <= 10)%nat
    /\ NoDup (map fst ranked)
    /\ Forall (fun kv =>
                 In (fst kv)
                    (all_tags [journal_with_tags ["a"; "b"; "a"]%string])
                 /\ snd kv
                    = occurrences
                        (all_tags [journal_with_tags ["a"; "b"; "a"]%string])
                        (fst kv)
                 /\ 1 <= snd kv)
              ranked.
Proof.
  apply (mostUsedTags_wellformed [journal_with_tags ["a"; "b"; "a"]%string]).
  repeat constructor.
Defined.

(** ** The activity analytics *)

Lemma category_not_inherited (c : string) :
  In c activity_categories -> inherited c = false.
Proof.
  intros H. unfold activity_categories in H.
  repeat (destruct H as [ <- | H ]; [ reflexivity | ]). destruct H.
Qed.

Lemma category_pass (activities : list Activity) (acc : option (object Z)) :
  fold_left
    (fun acc activity =>
       match acc with
       | Some distribution => count_tag distribution (act_category activity)
       | None => None
       end)
    activities acc
  = fold_left count_step (map act_category activities) acc.
Proof.
  revert acc. induction activities as [ | a l IH ]; intros acc;
    [ reflexivity | ].
  simpl. rewrite IH. reflexivity.
Qed.

(** X15.  For activities whose category is one of the seventeen of the model,
    the category distribution holds, for each category in use, the number
    of activities of that category, holds nothing for the other
    categories, and its counts add up to the number of activities. *)
Theorem categoryDistribution_counts (activities : list Activity) :
  Forall (fun a => In (act_category a) activity_categories) activities ->
  exists distribution,
    categoryDistribution activities = Some distribution
    /\ (forall c,
          obj_get c distribution
          = if in_dec string_dec c (map act_category activities)
            then Some (occurrences (map act_category activities) c)
            else None)
    /\ total_counts distribution = totalEntries activities.
Proof.
  intros H.
  assert (F : Forall (fun t => inherited t = false)
                     (map act_category activities)).
  { apply Forall_forall. intros t Ht. apply in_map_iff in Ht.
    destruct Ht as [ a [ <- Ha ] ]. apply category_not_inherited.
    rewrite Forall_forall in H. apply H. exact Ha. }
  assert (E : fold_left count_step (map act_category activities) (Some [])
              = Some (counted (map act_category activities)))
    by apply (count_pass_counted [] _ F).
  exists (counted (map act_category activities)).
  assert (D : categoryDistribution activities
              = Some (counted (map act_category activities))).
  { unfold categoryDistribution. destruct activities as [ | a l ];
      [ reflexivity | ].
    unfold nonempty. rewrite category_pass. exact E. }
  split; [ exact D | ]. split.
  - intros c. unfold counted. rewrite obj_get_map.
    destruct (in_dec string_dec c (first_seen (map act_category activities)))
      as [ I | I ];
      destruct (in_dec string_dec c (map act_category activities))
      as [ J | J ]; try reflexivity; exfalso.
    + apply J. apply first_seen_In. exact I.
    + apply I. apply first_seen_In. exact J.
  - rewrite (count_pass_total _ [] _ F E). unfold totalEntries.
    rewrite length_map. reflexivity.
Qed.

Lemma categoryDistribution_counts_witness :
  exists distribution,
    categoryDistribution
      [activity_example "Run" "exercise" 2 3;
       activity_example "Walk" "exercise" 1 1;
       activity_example "Novel" "reading" 1 0]
    = Some distribution
    /\ (forall c,
          obj_get c distribution
          = if in_dec string_dec c
                 (map act_category
                      [activity_example "Run" "exercise" 2 3;
                       activity_example "Walk" "exercise" 1 1;
                       activity_example "Novel" "reading" 1 0])
            then Some (occurrences
                         (map act_category
                              [activity_example "Run" "exercise" 2 3;
                               activity_example "Walk" "exercise" 1 1;
                               activity_example "Novel" "reading" 1 0]) c)
            else None)
    /\ total_counts distribution
       = totalEntries [activity_example "Run" "exercise" 2 3;
                       activity_example "Walk" "exercise" 1 1;
                       activity_example "Novel" "reading" 1 0].
Proof.
  apply (categoryDistribution_counts
           [activity_example "Run" "exercise" 2 3;
            activity_example "Walk" "exercise" 1 1;
            activity_example "Novel" "reading" 1 0]).
  repeat constructor; simpl; tauto.
Defined.

Lemma by_total_impact_le (a b : Activity) :
  by_total_impact a b <= 0 <-> (impact_sum b <= impact_sum a)%Q.
Proof.
  unfold by_total_impact, impact_sum.
  generalize (moodImpact b + energyImpact b)%Q,
    (moodImpact a + energyImpact a)%Q. intros tb ta.
  assert (S : Qnum (tb - ta) <= 0 <-> (tb - ta <= 0)%Q).
  { unfold Qle. change (Qnum 0) with 0. change (QDen 0) with 1. lia. }
  rewrite S. split; intros H; lra.
Qed.

Lemma sorted_by_total_impact (l : list Activity) :
  StronglySorted (fun a b => (impact_sum b <= impact_sum a)%Q)
                 (js_sort by_total_impact l).
Proof.
  pose proof (js_sort_sorted by_total_impact) as S.
  eapply StronglySorted_ind
    with (P := fun l => StronglySorted
                          (fun a b => (impact_sum b <= impact_sum a)%Q) l);
    [ constructor | | apply S ].
  - intros a l0 Hl IH Ha. constructor; [ exact IH | ].
    rewrite Forall_forall in *. intros x Hx.
    apply by_total_impact_le. apply Ha. exact Hx.
  - intros a b H. apply by_total_impact_le.
    destruct (Qlt_le_dec (impact_sum b) (impact_sum a)) as [ L | L ];
      [ | exact L ].
    exfalso. assert (by_total_impact a b <= 0)
      by (apply by_total_impact_le; apply Qlt_le_weak; exact L).
    lia.
  - intros a b c H1 H2. apply by_total_impact_le.
    apply by_total_impact_le in H1, H2.
    apply Qle_trans with (y := impact_sum b); assumption.
Qed.

Lemma StronglySorted_firstn {A : Type} (R : A -> A -> Prop) (n : nat)
      (l : list A) :
  StronglySorted R l -> StronglySorted R (firstn n l).
Proof.
  intros S. revert n. induction S as [ | x l S IH F ]; intros n.
  - rewrite firstn_nil. constructor.
  - destruct n as [ | n ]; simpl; constructor.
    + apply IH.
    + apply Forall_forall. intros y Hy. apply In_firstn in Hy.
      rewrite Forall_forall in F. apply F. exact Hy.
Qed.

Lemma has_positive_impact_iff (a : Activity) :
  has_positive_impact a = true
  <-> (0 < moodImpact a)%Q \/ (0 < energyImpact a)%Q.
Proof.
  unfold has_positive_impact. rewrite orb_true_iff, !Qlt_bool_iff.
  reflexivity.
Qed.

(** X16.  The top activities: at most 10 rows, as many as there are activities
    with a positive impact up to that limit; every row is an activity of
    the input with a positive mood or energy impact, and its total is the
    sum of the two; the rows are in descending order of total impact. *)
Theorem topActivities_rows (activities : list Activity) :
  let rows := topActivities activities in
  length rows
  = Nat.min 10 (length (filter has_positive_impact activities))
  /\ Forall (fun r =>
               exists a, In a activities
                         /\ r = top_row a
                         /\ ((0 < moodImpact a)%Q \/ (0 < energyImpact a)%Q)
                         /\ totalImpact r = (moodImpact a + energyImpact a)%Q)
            rows
  /\ StronglySorted (fun r1 r2 => (totalImpact r2 <= totalImpact r1)%Q) rows.
Proof.
  cbv zeta. unfold topActivities.
  destruct activities as [ | a0 l0 ];
    [ simpl; repeat split; constructor | ].
  unfold nonempty. set (activities := a0 :: l0).
  set (sorted := js_sort by_total_impact
                         (filter has_positive_impact activities)).
  split; [ | split ].
  - rewrite length_map, length_firstn. unfold sorted.
    rewrite (Permutation_length (js_sort_perm by_total_impact _)).
    reflexivity.
  - apply Forall_forall. intros r Hr. apply in_map_iff in Hr.
    destruct Hr as [ a [ <- Ha ] ]. apply In_firstn in Ha.
    apply js_sort_In in Ha. apply filter_In in Ha. destruct Ha as [ Ha Hp ].
    exists a. split; [ exact Ha | ]. split; [ reflexivity | ].
    split; [ apply has_positive_impact_iff; exact Hp | reflexivity ].
  - apply StronglySorted_map
      with (f := top_row)
           (R := fun r1 r2 => (totalImpact r2 <= totalImpact r1)%Q).
    apply StronglySorted_firstn. apply sorted_by_total_impact.
Qed.

(** X17.  There is no top activity exactly when no activity has a positive
    impact; otherwise the first row, the one the activity insight names,
    has the greatest total impact among the activities with a positive
    impact. *)
Theorem top_activity_is_best (activities : list Activity) :
  (topActivities activities = []
   <-> Forall (fun a => has_positive_impact a = false) activities)
  /\ match topActivities activities with
     | [] => True
     | best :: _ =>
         Forall (fun a =>
                   has_positive_impact a = false
                   \/ (impact_sum a <= totalImpact best)%Q)
                activities
     end.
Proof.
  unfold topActivities.
  destruct activities as [ | a0 l0 ];
    [ simpl; repeat split; constructor | ].
  unfold nonempty. set (activities := a0 :: l0).
  pose proof (sorted_by_total_impact (filter has_positive_impact activities))
    as S.
  pose proof (js_sort_In by_total_impact) as I.
  destruct (js_sort by_total_impact (filter has_positive_impact activities))
    as [ | best sorted ] eqn:E.
  - simpl. split; [ | exact Logic.I ].
    split; [ intros _ | reflexivity ].
    apply Forall_forall. intros a Ha.
    destruct (has_positive_impact a) eqn:P; [ exfalso | reflexivity ].
    assert (In a (filter has_positive_impact activities))
      by (apply filter_In; split; assumption).
    apply (I a) in H. rewrite E in H. destruct H.
  - cbn [firstn map]. split.
    + split; [ discriminate | ]. intros F. exfalso.
      assert (B : In best (filter has_positive_impact activities))
        by (apply (I best); rewrite E; left; reflexivity).
      apply filter_In in B. destruct B as [ B1 B2 ].
      rewrite Forall_forall in F. rewrite (F best B1) in B2. discriminate B2.
    + apply Forall_forall. intros a Ha.
      destruct (has_positive_impact a) eqn:P; [ right | left; reflexivity ].
      assert (H : In a (best :: sorted)).
      { rewrite <- E. apply (I a). apply filter_In. split; assumption. }
      inversion S as [ | ? ? _ F ]; subst. rewrite Forall_forall in F.
      destruct H as [ <- | H ]; [ apply Qle_refl | ].
      apply (F a H).
Qed.

(** ** Pagination *)

Lemma firstn_add_skipn {A : Type} (a b : nat) (l : list A) :
  firstn (a + b) l = firstn a l ++ firstn b (skipn a l).
Proof.
  revert l. induction a as [ | a IH ]; intros l; [ reflexivity | ].
  destruct l as [ | x l ]; simpl.
  - rewrite firstn_nil. reflexivity.
  - rewrite IH. reflexivity.
Qed.

Lemma ceil_div_bounds (n limit : Z) :
  0 < limit -> (ceil_div n limit - 1) * limit < n <= ceil_div n limit * limit.
Proof.
  intros H. rewrite ceil_div_ceiling by exact H. apply ceiling_least. exact H.
Qed.

Lemma page_length {A : Type} (matching : list A) (limit page : Z) :
  1 <= limit -> 1 <= page ->
  Z.of_nat (length (fst (paginate matching limit page)))
  = Z.min limit (Z.max 0 (Z.of_nat (length matching) - (page - 1) * limit)).
Proof.
  intros Hl Hp. unfold paginate, find_page. cbn [fst].
  rewrite length_firstn, length_skipn. nia.
Qed.

(** X18.  For a limit and a page of at least 1: there is a next page exactly
    when the current page is before the last one; every page before the
    last is full, the last one is not empty, and a page after the last is
    empty. *)
Theorem pagination_pages {A : Type} (matching : list A) (limit page : Z) :
  1 <= limit -> 1 <= page ->
  let entries := fst (paginate matching limit page) in
  let p := snd (paginate matching limit page) in
  (hasNextPage p = true <-> currentPage p < totalPages p)
  /\ (hasPrevPage p = true <-> 1 < currentPage p)
  /\ (currentPage p < totalPages p -> Z.of_nat (length entries) = limit)
  /\ (currentPage p = totalPages p -> 1 <= Z.of_nat (length entries) <= limit)
  /\ (totalPages p < currentPage p -> entries = [])
  /\ totalPages p * limit < pg_totalEntries p + limit.
Proof.
  intros Hl Hp. cbv zeta.
  pose proof (page_length matching limit page Hl Hp) as L.
  pose proof (ceil_div_bounds (Z.of_nat (length matching)) limit
                              ltac:(lia)) as C.
  unfold paginate in *. cbn [fst snd] in *.
  cbn [hasNextPage hasPrevPage currentPage totalPages pg_totalEntries].
  set (entries := find_page matching limit ((page - 1) * limit)) in *.
  set (n := Z.of_nat (length matching)) in *.
  set (pages := ceil_div n limit) in *.
  rewrite Z.ltb_lt, Z.ltb_lt.
  split; [ split; intros H; nia | ].
  split; [ reflexivity | ].
  split; [ intros H; nia | ].
  split; [ intros H; nia | ].
  split; [ | nia ].
  intros H. assert (E : Z.of_nat (length entries) = 0) by nia.
  destruct entries; [ reflexivity | simpl in E; lia ].
Qed.

Lemma pagination_pages_witness :
  let entries := fst (paginate [1; 2; 3; 4; 5] 2 2) in
  let p := snd (paginate [1; 2; 3; 4; 5] 2 2) in
  (hasNextPage p = true <-> currentPage p < totalPages p)
  /\ (hasPrevPage p = true <-> 1 < currentPage p)
  /\ (currentPage p < totalPages p -> Z.of_nat (length entries) = 2)
  /\ (currentPage p = totalPages p -> 1 <= Z.of_nat (length entries) <= 2)
  /\ (totalPages p < currentPage p -> entries = [])
  /\ totalPages p * 2 < pg_totalEntries p + 2.
Proof.
  apply (pagination_pages [1; 2; 3; 4; 5] 2 2); lia.
Defined.

Lemma pages_prefix {A : Type} (matching : list A) (limit : Z) (pages : nat) :
  1 <= limit ->
  pages_in_order matching limit pages
  = firstn (pages * Z.to_nat limit) matching.
Proof.
  intros Hl. unfold pages_in_order.
  induction pages as [ | m IH ]; [ reflexivity | ].
  rewrite seq_S, flat_map_app, IH. cbn [flat_map]. rewrite app_nil_r.
  unfold paginate, find_page. cbn [fst].
  replace (Z.to_nat ((Z.of_nat (0 + m) + 1 - 1) * limit))
    with (m * Z.to_nat limit)%nat by nia.
  replace (S m * Z.to_nat limit)%nat
    with (m * Z.to_nat limit + Z.to_nat limit)%nat by lia.
  symmetry. apply firstn_add_skipn.
Qed.

(** X19.  For a limit of at least 1, the pages from the first to the last, one
    after the other, are the matching documents in their order: every
    document is on exactly one page. *)
Theorem pages_cover_matching {A : Type} (matching : list A) (limit : Z) :
  1 <= limit ->
  pages_in_order matching limit
                 (Z.to_nat (totalPages (snd (paginate matching limit 1))))
  = matching.
Proof.
  intros Hl. rewrite pages_prefix by exact Hl.
  apply firstn_all2. unfold paginate. cbn [snd totalPages].
  pose proof (ceil_div_bounds (Z.of_nat (length matching)) limit
                              ltac:(lia)) as C.
  nia.
Qed.

Lemma pages_cover_matching_witness :
  pages_in_order [1; 2; 3; 4; 5] 2
                 (Z.to_nat (totalPages (snd (paginate [1; 2; 3; 4; 5] 2 1))))
  = [1; 2; 3; 4; 5].
Proof.
  apply (pages_cover_matching [1; 2; 3; 4; 5] 2). lia.
Defined.

(** ** The mood entry of today *)

Lemma day_length : 24 * 60 * 60 * 1000 = msPerDay.
Proof. reflexivity. Qed.

(** With one offset [off] at an instant [t] and at the local midnight of
    the day of [now], [t] is within the 24 hours from that midnight exactly
    when it is on that day. *)
Lemma window_of_day (zone : TimeZone) (now t off : Z) :
  offset_of_local zone (local_day zone now * msPerDay) = off ->
  offset_at zone t = off ->
  in_today_window (setHours0_in zone now) t = true
  <-> local_day zone t = local_day zone now.
Proof.
  intros Hm Ht.
  unfold in_today_window. rewrite day_length, andb_true_iff, Z.leb_le, Z.ltb_lt.
  unfold setHours0_in, UTC_time. rewrite Hm. clear Hm.
  generalize (local_day zone now). intros d.
  unfold local_day, LocalTime, Day. rewrite Ht.
  pose proof (Z_div_mod_eq_full (t + off) msPerDay) as E.
  pose proof (Z.mod_pos_bound (t + off) msPerDay eq_refl) as B.
  change msPerDay with 86400000 in *.
  split; intros H; lia.
Qed.

(** X20.  When the zone has one offset at the request, at the midnight of
    the day of the request and at an instant, the request is in the window
    of today, and the instant is in it exactly when it is of the calendar
    day of the request. *)
Theorem today_window_same_day (zone : TimeZone) (now t off : Z) :
  offset_at zone now = off ->
  offset_of_local zone (local_day zone now * msPerDay) = off ->
  offset_at zone t = off ->
  in_today_window (setHours0_in zone now) now = true
  /\ (in_today_window (setHours0_in zone now) t = true
      <-> local_day zone t = local_day zone now).
Proof.
  intros Hn Hm Ht. split.
  - apply (window_of_day zone now now off Hm Hn). reflexivity.
  - apply (window_of_day zone now t off Hm Ht).
Qed.

Lemma today_window_same_day_witness :
  in_today_window (setHours0_in America_New_York_2023 1700000000000)
                  1700000000000 = true
  /\ (in_today_window (setHours0_in America_New_York_2023 1700000000000)
                      1699990000000 = true
      <-> local_day America_New_York_2023 1699990000000
          = local_day America_New_York_2023 1700000000000).
Proof.
  apply (today_window_same_day America_New_York_2023 1700000000000
           1699990000000 (-5 * msPerHour)); reflexivity.
Defined.

Lemma fixed_offset_day_in_window (offset now : Z) :
  day_in_window (fixed_offset offset) now.
Proof.
  intros t H.
  apply (window_of_day (fixed_offset offset) now t offset);
    [ reflexivity | reflexivity | exact H ].
Qed.

Lemma update_today_dates {D : Type} (today : Z) (d : D) (store : mood_store D) :
  map fst (update_today today d store) = map fst store.
Proof.
  induction store as [ | doc rest IH ]; [ reflexivity | ].
  simpl. destruct (in_today_window today (fst doc)); simpl;
    [ reflexivity | rewrite IH; reflexivity ].
Qed.

Lemma find_updated {D : Type} (today : Z) (d : D) (store : mood_store D)
      (doc : Z * D) :
  find (fun doc => in_today_window today (fst doc)) store = Some doc ->
  find (fun doc => in_today_window today (fst doc))
       (update_today today d store)
  = Some (fst doc, d).
Proof.
  induction store as [ | x rest IH ]; [ discriminate | ].
  simpl. destruct (in_today_window today (fst x)) eqn:E.
  - intros H. injection H as <-. simpl. rewrite E. reflexivity.
  - intros H. simpl. rewrite E. apply IH. exact H.
Qed.

Lemma find_appended {D : Type} (today now : Z) (d : D) (store : mood_store D) :
  find (fun doc => in_today_window today (fst doc)) store = None ->
  in_today_window today now = true ->
  find (fun doc => in_today_window today (fst doc)) (store ++ [(now, d)])
  = Some (now, d).
Proof.
  induction store as [ | x rest IH ]; simpl; intros H W.
  - rewrite W. reflexivity.
  - destruct (in_today_window today (fst x)); [ discriminate | ].
    apply IH; assumption.
Qed.

Lemma update_today_outside {D : Type} (today : Z) (d : D)
      (store : mood_store D) (doc : Z * D) :
  In doc store -> in_today_window today (fst doc) = false ->
  In doc (update_today today d store).
Proof.
  intros Hd Hw. induction store as [ | x rest IH ]; [ destruct Hd | ].
  simpl. destruct (in_today_window today (fst x)) eqn:E.
  - destruct Hd as [ <- | Hd ]; [ congruence | right; exact Hd ].
  - destruct Hd as [ <- | Hd ]; [ left; reflexivity | right ].
    apply IH. exact Hd.
Qed.

Lemma days_of_store {D : Type} (zone : TimeZone) (store : mood_store D) :
  map (fun doc => local_day zone (fst doc)) store
  = map (local_day zone) (map fst store).
Proof. rewrite map_map. reflexivity. Qed.

(** X21.  When the 24 hours from the midnight of today hold the whole
    calendar day of the request, posting a mood keeps at most one entry
    per calendar day: the first entry of the window is overwritten with its
    date kept, or a new entry dated now is added when the window has none;
    afterwards the lookup of today finds an entry of the window holding
    the posted data, the entries outside the window are as before, and the
    dates are those of before, with now added in the second case. *)
Theorem post_mood_one_per_day {D : Type} (zone : TimeZone) (now : Z)
        (moodData : D) (store : mood_store D) :
  day_in_window zone now ->
  one_per_day zone store ->
  let today := setHours0_in zone now in
  let posted := post_mood zone now moodData store in
  one_per_day zone posted
  /\ (exists t, find_today zone now posted = Some (t, moodData)
                /\ in_today_window today t = true)
  /\ (forall doc, In doc store -> in_today_window today (fst doc) = false ->
                  In doc posted)
  /\ map fst posted
     = match find_today zone now store with
       | Some _ => map fst store
       | None => map fst store ++ [now]
       end.
Proof.
  intros W N. cbv zeta. unfold one_per_day, post_mood, find_today in *.
  destruct (find (fun doc => in_today_window (setHours0_in zone now) (fst doc))
                 store) as [ found | ] eqn:F.
  - split; [ | split; [ | split ] ].
    + rewrite days_of_store, update_today_dates, <- days_of_store. exact N.
    + exists (fst found). split; [ apply find_updated; exact F | ].
      apply find_some in F. apply F.
    + intros doc Hd Hw. apply update_today_outside; assumption.
    + apply update_today_dates.
  - assert (Wn : in_today_window (setHours0_in zone now) now = true)
      by (apply W; reflexivity).
    split; [ | split; [ | split ] ].
    + rewrite map_app. apply NoDup_app; [ exact N | repeat constructor; tauto | ].
      intros day Hday [ <- | [] ]. apply in_map_iff in Hday.
      destruct Hday as [ doc [ E Hdoc ] ].
      pose proof (find_none _ _ F doc Hdoc) as X. simpl in X.
      rewrite (W (fst doc) E) in X. discriminate X.
    + exists now. split; [ apply find_appended; assumption | exact Wn ].
    + intros doc Hd _. apply in_or_app. left. exact Hd.
    + rewrite map_app. reflexivity.
Qed.

Lemma post_mood_one_per_day_witness :
  let zone := fixed_offset 19800000 in
  let today := setHours0_in zone 1700000000000 in
  let posted := post_mood zone 1700000000000 5 [(1699990000000, 3)] in
  one_per_day zone posted
  /\ (exists t, find_today zone 1700000000000 posted = Some (t, 5)
                /\ in_today_window today t = true)
  /\ (forall doc, In doc [(1699990000000, 3)] ->
                  in_today_window today (fst doc) = false ->
                  In doc posted)
  /\ map fst posted
     = match find_today zone 1700000000000 [(1699990000000, 3)] with
       | Some _ => map fst [(1699990000000, 3)]
       | None => map fst [(1699990000000, 3)] ++ [1700000000000]
       end.
Proof.
  apply (post_mood_one_per_day (fixed_offset 19800000) 1700000000000 5
           [(1699990000000, 3)]).
  - apply fixed_offset_day_in_window.
  - repeat constructor. simpl. tauto.
Defined.

(** On the day daylight saving time ends in New York the local day lasts
    25 hours: an instant of its last hour is on the day of the request and
    outside the window, and two posts in that hour leave two entries of the
    same day. *)
Lemma today_window_long_day :
  let zone := America_New_York_2023 in
  let now := 1699192800000 in              (* 2023-11-05 09:00 local *)
  let t := 1699243800000 in                (* 2023-11-05 23:10 local *)
  local_day zone t = local_day zone now
  /\ in_today_window (setHours0_in zone now) t = false
  /\ in_today_window (setHours0_in zone t) t = false
  /\ post_mood zone 1699246200000 2 (post_mood zone t 1 [])
     = [(t, 1); (1699246200000, 2)]
  /\ local_day zone 1699246200000 = local_day zone t.
Proof. repeat split. Qed.

(** ** Word count, reading time and excerpt *)

Lemma split_from_length (s piece : jsstring) (b : bool) :
  length (split_from s piece b) = S (separators s b).
Proof.
  revert piece b. induction s as [ | c s IH ]; intros piece b;
    [ reflexivity | ].
  simpl. destruct (is_whitespace c).
  - destruct b; simpl; rewrite IH; reflexivity.
  - apply IH.
Qed.

Lemma words_and_separators (s : jsstring) (b : bool) :
  (word_starts s b + (if ends_in_space s b then 1 else 0)
   = separators s b + (if b then 1 else 0))%nat.
Proof.
  revert b. induction s as [ | c s IH ]; intros b.
  - simpl. destruct b; reflexivity.
  - unfold ends_in_space. simpl.
    destruct (is_whitespace c) eqn:E.
    + specialize (IH true). unfold ends_in_space in IH. destruct b; lia.
    + specialize (IH false). unfold ends_in_space in IH. destruct b; lia.
Qed.

Lemma trimStart_decompose (s : jsstring) :
  exists pre, s = pre ++ trimStart s /\ blank pre.
Proof.
  induction s as [ | c s [ pre [ E B ] ] ].
  - exists []. split; [ reflexivity | constructor ].
  - simpl. destruct (is_whitespace c) eqn:W.
    + exists (c :: pre). split; [ simpl; congruence | ].
      constructor; assumption.
    + exists []. split; [ reflexivity | constructor ].
Qed.

Lemma trimStart_head (s : jsstring) :
  match trimStart s with
  | [] => True
  | c :: _ => is_whitespace c = false
  end.
Proof.
  induction s as [ | c s IH ]; simpl; [ exact I | ].
  destruct (is_whitespace c) eqn:W; [ exact IH | exact W ].
Qed.

Lemma trim_decompose (s : jsstring) :
  exists pre post, s = pre ++ trim s ++ post /\ blank pre /\ blank post.
Proof.
  destruct (trimStart_decompose s) as [ pre [ E1 B1 ] ].
  destruct (trimStart_decompose (rev (trimStart s))) as [ q [ E2 B2 ] ].
  exists pre, (rev q). split; [ | split; [ exact B1 | ] ].
  - unfold trim. rewrite <- rev_app_distr, <- E2, rev_involutive. exact E1.
  - unfold blank in *. apply Forall_rev. exact B2.
Qed.

Lemma word_starts_blank_prefix (pre x : jsstring) :
  blank pre -> word_starts (pre ++ x) true = word_starts x true.
Proof.
  induction 1 as [ | c pre Hc Hpre IH ]; [ reflexivity | ].
  simpl. rewrite Hc. exact IH.
Qed.

Lemma word_starts_blank_only (post : jsstring) (b : bool) :
  blank post -> word_starts post b = 0%nat.
Proof.
  intros H. revert b. induction H as [ | c post Hc Hpost IH ]; intros b;
    [ reflexivity | ].
  simpl. rewrite Hc. apply IH.
Qed.

Lemma word_starts_blank_suffix (x post : jsstring) (b : bool) :
  blank post -> word_starts (x ++ post) b = word_starts x b.
Proof.
  intros H. revert b. induction x as [ | c x IH ]; intros b.
  - simpl. apply word_starts_blank_only. exact H.
  - simpl. destruct (is_whitespace c); rewrite IH; reflexivity.
Qed.

Lemma words_surrounded (pre x post : jsstring) :
  blank pre -> blank post -> words (pre ++ x ++ post) = words x.
Proof.
  intros B1 B2. unfold words.
  rewrite word_starts_blank_prefix by exact B1.
  apply word_starts_blank_suffix. exact B2.
Qed.

Lemma words_trim (s : jsstring) : words (trim s) = words s.
Proof.
  destruct (trim_decompose s) as [ pre [ post [ E [ B1 B2 ] ] ] ].
  rewrite E at 2. symmetry. apply words_surrounded; assumption.
Qed.

Lemma trim_head (s : jsstring) :
  match trim s with
  | [] => True
  | c :: _ => is_whitespace c = false
  end.
Proof.
  destruct (trimStart_decompose (rev (trimStart s))) as [ q [ E B ] ].
  assert (T : trimStart s = trim s ++ rev q).
  { unfold trim. rewrite <- rev_app_distr, <- E, rev_involutive.
    reflexivity. }
  pose proof (trimStart_head s) as H. rewrite T in H.
  destruct (trim s) as [ | c t ]; [ exact I | exact H ].
Qed.

Lemma trim_end (s : jsstring) (b : bool) :
  trim s <> [] -> ends_in_space (trim s) b = false.
Proof.
  unfold trim. pose proof (trimStart_head (rev (trimStart s))) as H.
  destruct (trimStart (rev (trimStart s))) as [ | c u ];
    [ intros N; exfalso; apply N; reflexivity | ].
  intros _. simpl rev. unfold ends_in_space. rewrite fold_left_app.
  simpl. exact H.
Qed.

(** X22.  The word count is the number of words of the content, and 1 for a
    content without any word. *)
Theorem wordCount_counts_words (content : jsstring) :
  wordCount content = Z.max 1 (Z.of_nat (words content)).
Proof.
  unfold wordCount, split_whitespace. rewrite split_from_length.
  rewrite <- (words_trim content).
  pose proof (trim_head content) as H.
  pose proof (trim_end content true) as T.
  pose proof (words_and_separators (trim content) true) as W.
  destruct (trim content) as [ | c t ] eqn:E; [ reflexivity | ].
  rewrite T in W by discriminate.
  assert (S1 : separators (c :: t) false = separators (c :: t) true)
    by (simpl; rewrite H; reflexivity).
  rewrite S1. unfold words. lia.
Qed.

(** X23.  Every content has at least one word counted and at least one minute of
    reading time; the reading time is the number of started blocks of 200
    words. *)
Theorem readingTime_bounds (content : jsstring) :
  1 <= wordCount content
  /\ 1 <= readingTime content
  /\ 200 * (readingTime content - 1) < wordCount content
     <= 200 * readingTime content.
Proof.
  pose proof (wordCount_counts_words content) as W.
  pose proof (ceil_div_bounds (wordCount content) 200 eq_refl) as C.
  unfold readingTime. lia.
Qed.

(** X24.  White space around a content does not change its word count. *)
Theorem wordCount_ignores_margins (pre content post : jsstring) :
  blank pre -> blank post ->
  wordCount (pre ++ content ++ post) = wordCount content.
Proof.
  intros B1 B2. rewrite !wordCount_counts_words.
  rewrite words_surrounded by assumption. reflexivity.
Qed.

Lemma wordCount_ignores_margins_witness :
  wordCount ([32; 10] ++ [104; 105; 32; 32; 121; 111; 117] ++ [9])%N
  = wordCount [104; 105; 32; 32; 121; 111; 117]%N.
Proof.
  apply (wordCount_ignores_margins [32; 10]%N _ [9]%N);
    repeat constructor.
Defined.

(** X25.  An excerpt has at most 153 units and starts like the content; a
    content of at most 150 units is its own excerpt, and a longer one has
    an excerpt of 153 units, which is longer than a content of 151 or 152
    units. *)
Theorem excerpt_bounds (content : jsstring) :
  (length (excerpt content) <= 153)%nat
  /\ firstn 150 (excerpt content) = firstn 150 content
  /\ ((length content <= 150)%nat -> excerpt content = content)
  /\ ((150 < length content)%nat -> length (excerpt content) = 153%nat).
Proof.
  unfold excerpt. destruct (150 <? length content)%nat eqn:E.
  - apply Nat.ltb_lt in E.
    assert (L : length (firstn 150 content) = 150%nat)
      by (apply firstn_length_le; lia).
    split; [ rewrite length_app, L; simpl; lia | ]. split.
    + replace 150%nat with (length (firstn 150 content) + 0)%nat at 1
        by (rewrite L; reflexivity).
      rewrite firstn_app_2. simpl. apply app_nil_r.
    + split; [ lia | ]. intros _. rewrite length_app, L. reflexivity.
  - apply Nat.ltb_ge in E.
    split; [ lia | ]. split; [ reflexivity | ]. split; [ reflexivity | lia ].
Qed.

(** ** The daily trends *)

Lemma records_of_day_unique (l : list MoodEntry) (e : MoodEntry) :
  NoDup (map date l) -> In e l -> records_of_day (date e) l = [e].
Proof.
  induction l as [ | x l IH ]; intros N H; [ destruct H | ].
  simpl in N. inversion N as [ | ? ? Nx N' ]; subst.
  unfold records_of_day. simpl filter. destruct H as [ -> | H ].
  - rewrite String.eqb_refl. f_equal.
    apply records_of_absent_day. exact Nx.
  - destruct (date x =? date e)%string eqn:E.
    + apply String.eqb_eq in E. exfalso. apply Nx. rewrite E.
      apply in_map. exact H.
    + apply IH; assumption.
Qed.

Lemma mean_single (x : Q) : (mean [x] == x)%Q.
Proof. unfold mean, total, count. simpl. field. Qed.

(** X26.  When no two records share a day, the daily series has one point per
    record, and the value of a record's day is the value of that
    record. *)
Theorem daily_series_one_record_per_day
        (m : Metric) (moodEntries : list MoodEntry) :
  NoDup (map date moodEntries) ->
  exists series,
    daily_series m moodEntries = Some series
    /\ length series = length moodEntries
    /\ Forall (fun e =>
                 exists v, In (date e, Fin v) series
                           /\ (v == metric_value m e)%Q)
              moodEntries.
Proof.
  intros N.
  destruct (daily_series_properties m moodEntries)
    as [ series [ E [ Nk [ K [ _ V ] ] ] ] ].
  exists series. split; [ exact E | ]. split.
  - rewrite <- (length_map fst series), <- (length_map date moodEntries).
    apply Permutation_length. apply NoDup_Permutation; assumption.
  - apply Forall_forall. intros e He.
    assert (Hd : In (date e) (map fst series))
      by (apply K; apply in_map; exact He).
    apply in_map_iff in Hd. destruct Hd as [ [ d x ] [ Ed Hp ] ].
    simpl in Ed. subst d.
    rewrite Forall_forall in V. destruct (V _ Hp) as [ v [ Ev Hv ] ].
    simpl in Ev, Hv. subst x. exists v. split; [ exact Hp | ].
    rewrite Hv, (records_of_day_unique _ _ N He). apply mean_single.
Qed.

Lemma daily_series_one_record_per_day_witness :
  exists series,
    daily_series m_sleep [mood_entry_with_sleep "2024-03-02" 7;
                          mood_entry_with_sleep "2024-03-01" 6]
    = Some series
    /\ length series
       = length [mood_entry_with_sleep "2024-03-02" 7;
                 mood_entry_with_sleep "2024-03-01" 6]
    /\ Forall (fun e =>
                 exists v, In (date e, Fin v) series
                           /\ (v == metric_value m_sleep e)%Q)
              [mood_entry_with_sleep "2024-03-02" 7;
               mood_entry_with_sleep "2024-03-01" 6].
Proof.
  apply (daily_series_one_record_per_day m_sleep
           [mood_entry_with_sleep "2024-03-02" 7;
            mood_entry_with_sleep "2024-03-01" 6]).
  repeat constructor; simpl; intuition discriminate.
Defined.


